(** * plugin.video.artetv: catalog client and navigation controller

    A shallow embedding of [resources/lib/api.py] (class [ArteTV]) and of
    the request dispatch of [resources/lib/addon.py] (class [ArteTVAddon]),
    with the properties of the written specification stated over it.

    Python values coming out of [Response.json()] are modelled by the type
    [json]; the helpers of the first section give the Python operations the
    two modules use on them ([dict.get], [or], truthiness, [==], indexing,
    iteration, [sorted], [str.replace]) together with the exception each one
    raises on a value of the wrong type. *)

From Stdlib Require Import List String Ascii ZArith Bool Lia.
From Stdlib Require Import Permutation Sorted.
Import ListNotations.
Open Scope string_scope.
Open Scope list_scope.
Open Scope Z_scope.

Set Warnings "-register-all".

(* ================================================================= *)
(** ** Python values and exceptions *)

(** Decoded JSON.  Numbers are integers: the catalog sends integer
    widths and durations.  A fractional number, and the NaN that the
    decoder of Python accepts, are outside the model; the one statement
    that depends on the order of numbers, on the widths of resolutions,
    says that the widths are integers.  A [JDict] keeps its entries in
    insertion order, as Python dictionaries do; the entries of a real
    dictionary have pairwise distinct keys ([dict_wf]). *)
Inductive json : Type :=
| JNull
| JBool (b : bool)
| JInt (z : Z)
| JStr (s : string)
| JList (l : list json)
| JDict (d : list (string * json)).

(** [Dict[Text, Any]] *)
Definition dict : Type := list (string * json).

Inductive exn : Type :=
| Exception (msg : string)
| AttributeError
| TypeError
| KeyError
| IndexError
| ValueError
| HTTPError
| ArteTVException.

Inductive result (A : Type) : Type :=
| Ok (a : A)
| Raise (e : exn).
Arguments Ok {A} a.
Arguments Raise {A} e.

Definition rbind {A B} (m : result A) (k : A -> result B) : result B :=
  match m with
  | Ok a => k a
  | Raise e => Raise e
  end.

Notation "x <- m ;; k" := (rbind m (fun x => k))
  (at level 61, m at next level, right associativity).

Definition is_ok {A} (m : result A) : bool :=
  match m with Ok _ => true | Raise _ => false end.

Definition raises {A} (m : result A) : bool := negb (is_ok m).

(* ----------------------------------------------------------------- *)
(** *** Dictionaries *)

Fixpoint lookup {A} (k : string) (d : list (string * A)) : option A :=
  match d with
  | [] => None
  | (k', v) :: d' => if String.eqb k k' then Some v else lookup k d'
  end.

Definition keys {A} (d : list (string * A)) : list string := map fst d.

Definition has_key {A} (k : string) (d : list (string * A)) : bool :=
  match lookup k d with Some _ => true | None => false end.

(** [d.get(k)] on a dictionary: [None] when the key is absent. *)
Definition dict_get (d : dict) (k : string) : json :=
  match lookup k d with Some v => v | None => JNull end.

(** [d[k] = v]: an existing key keeps its position. *)
Fixpoint dict_set {A} (d : list (string * A)) (k : string) (v : A)
  : list (string * A) :=
  match d with
  | [] => [(k, v)]
  | (k', v') :: d' =>
      if String.eqb k k' then (k', v) :: d' else (k', v') :: dict_set d' k v
  end.

(** [d.setdefault(k, v)] used as a statement. *)
Definition dict_setdefault (d : dict) (k : string) (v : json) : dict :=
  if has_key k d then d else d ++ [(k, v)].

(** The keys of a Python dictionary are pairwise distinct. *)
Definition dict_wf {A} (d : list (string * A)) : Prop := NoDup (keys d).

(* ----------------------------------------------------------------- *)
(** *** Truthiness, [or], [==] *)

Definition py_truthy (v : json) : bool :=
  match v with
  | JNull => false
  | JBool b => b
  | JInt z => negb (z =? 0)
  | JStr s => negb (String.eqb s "")
  | JList l => match l with [] => false | _ => true end
  | JDict d => match d with [] => false | _ => true end
  end.

(** [a or b] *)
Definition py_or (a b : json) : json := if py_truthy a then a else b.

(** [a == b].  [True == 1] and [False == 0] hold in Python; dictionaries
    compare as unordered maps. *)
Fixpoint py_eq (a b : json) {struct a} : bool :=
  match a, b with
  | JNull, JNull => true
  | JBool x, JBool y => Bool.eqb x y
  | JBool x, JInt y => Z.b2z x =? y
  | JInt x, JBool y => x =? Z.b2z y
  | JInt x, JInt y => x =? y
  | JStr x, JStr y => String.eqb x y
  | JList xs, JList ys =>
      (fix go (xs ys : list json) : bool :=
         match xs, ys with
         | [], [] => true
         | x :: xs', y :: ys' => py_eq x y && go xs' ys'
         | _, _ => false
         end) xs ys
  | JDict xs, JDict ys =>
      Nat.eqb (List.length xs) (List.length ys) &&
      (fix go (xs : list (string * json)) : bool :=
         match xs with
         | [] => true
         | (k, v) :: xs' =>
             match lookup k ys with
             | Some w => py_eq v w
             | None => false
             end && go xs'
         end) xs
  | _, _ => false
  end.

(** [a != b] *)
Definition py_ne (a b : json) : bool := negb (py_eq a b).

(** [v in [s1, ..., sn]] for a list of string literals. *)
Definition py_in (v : json) (l : list string) : bool :=
  existsb (fun s => py_eq v (JStr s)) l.

(* ----------------------------------------------------------------- *)
(** *** Attribute access, indexing, iteration *)

(** [v.get(k)]: only dictionaries have a [get] method. *)
Definition py_get (v : json) (k : string) : result json :=
  match v with
  | JDict d => Ok (dict_get d k)
  | _ => Raise AttributeError
  end.

(** [v.items()] *)
Definition py_items (v : json) : result (list (string * json)) :=
  match v with
  | JDict d => Ok d
  | _ => Raise AttributeError
  end.

Definition chars (s : string) : list json :=
  map (fun c => JStr (String c EmptyString)) (list_ascii_of_string s).

(** [v[k]] with a string literal [k]. *)
Definition py_getkey (v : json) (k : string) : result json :=
  match v with
  | JDict d => match lookup k d with Some x => Ok x | None => Raise KeyError end
  | _ => Raise TypeError
  end.

(** [l[i]] on a sequence, with Python's negative indices. *)
Definition seq_index {A} (l : list A) (i : Z) : result A :=
  let n := Z.of_nat (List.length l) in
  let j := if i <? 0 then n + i else i in
  if (0 <=? j) && (j <? n)
  then match nth_error l (Z.to_nat j) with
       | Some x => Ok x
       | None => Raise IndexError
       end
  else Raise IndexError.

(** [v[i]] with an integer [i].  A dictionary decoded from JSON has string
    keys only, so an integer key is never found.  Strings are indexed by
    byte here (by code point in Python). *)
Definition py_getitem (v : json) (i : Z) : result json :=
  match v with
  | JList l => seq_index l i
  | JStr s => seq_index (chars s) i
  | JDict _ => Raise KeyError
  | _ => Raise TypeError
  end.

(** [len(v)] *)
Definition py_len (v : json) : result Z :=
  match v with
  | JList l => Ok (Z.of_nat (List.length l))
  | JStr s => Ok (Z.of_nat (String.length s))
  | JDict d => Ok (Z.of_nat (List.length d))
  | _ => Raise TypeError
  end.

(** The elements [for x in v] visits. *)
Definition py_iter (v : json) : result (list json) :=
  match v with
  | JList l => Ok l
  | JStr s => Ok (chars s)
  | JDict d => Ok (map (fun kv => JStr (fst kv)) d)
  | _ => Raise TypeError
  end.

(** A value that is either falsy (so that [v or {}] is [{}]) or a
    dictionary: the shape of an optional JSON object. *)
Definition optional_object (v : json) : bool :=
  match v with
  | JDict _ => true
  | _ => negb (py_truthy v)
  end.

(* ----------------------------------------------------------------- *)
(** *** [str.replace] *)

(** [replace_from] copies [s] with [new] in place of each occurrence of
    [old]; [skip] counts the characters that remain of the occurrence
    found last, which are dropped. *)
Fixpoint replace_from (old new : string) (skip : nat) (s : string) : string :=
  match s with
  | EmptyString => EmptyString
  | String c s' =>
      match skip with
      | S k => replace_from old new k s'
      | O =>
          if String.prefix old s
          then (new ++ replace_from old new (Nat.pred (String.length old)) s')%string
          else String c (replace_from old new O s')
      end
  end.

Fixpoint intersperse_str (new s : string) : string :=
  match s with
  | EmptyString => new
  | String c s' => (new ++ String c (intersperse_str new s'))%string
  end.

(** [s.replace(old, new)]: occurrences are found left to right and do not
    overlap; an empty [old] matches before every character and at the
    end. *)
Definition str_replace (s old new : string) : string :=
  match old with
  | EmptyString => intersperse_str new s
  | _ => replace_from old new O s
  end.

(** [v.replace(old, new)]: only strings have the method. *)
Definition py_replace (v : json) (old new : string) : result json :=
  match v with
  | JStr s => Ok (JStr (str_replace s old new))
  | _ => Raise AttributeError
  end.

(* ----------------------------------------------------------------- *)
(** *** Ordering and [sorted] *)

(** The integer a [bool] or an [int] stands for in a comparison. *)
Definition as_int (v : json) : option Z :=
  match v with
  | JBool b => Some (Z.b2z b)
  | JInt z => Some z
  | _ => None
  end.

(** [a < b].  Numbers compare with numbers, strings with strings, lists
    with lists (at the first position where they differ); every other
    pairing raises [TypeError]. *)
Fixpoint py_lt (a b : json) {struct a} : result bool :=
  match a, b with
  | JBool x, JBool y => Ok (Z.b2z x <? Z.b2z y)
  | JBool x, JInt y => Ok (Z.b2z x <? y)
  | JInt x, JBool y => Ok (x <? Z.b2z y)
  | JInt x, JInt y => Ok (x <? y)
  | JStr x, JStr y => Ok (String.ltb x y)
  | JList xs, JList ys =>
      (fix go (xs ys : list json) : result bool :=
         match xs, ys with
         | [], [] => Ok false
         | [], _ :: _ => Ok true
         | _ :: _, [] => Ok false
         | x :: xs', y :: ys' => if py_eq x y then go xs' ys' else py_lt x y
         end) xs ys
  | _, _ => Raise TypeError
  end.

Section Sorted.
Context {A : Type}.

(** Insert [x] with key [kx] in front of a sorted list: it passes the
    elements whose key is smaller and stops at the first that is not,
    so that elements with equal keys keep their order. *)
Fixpoint insert_by (kx : json) (x : A) (s : list (json * A))
  : result (list (json * A)) :=
  match s with
  | [] => Ok [(kx, x)]
  | (ke, e) :: s' =>
      b <- py_lt ke kx ;;
      if b then r <- insert_by kx x s' ;; Ok ((ke, e) :: r)
      else Ok ((kx, x) :: s)
  end.

Fixpoint sort_keyed (l : list (json * A)) : result (list (json * A)) :=
  match l with
  | [] => Ok []
  | (k, x) :: l' => s <- sort_keyed l' ;; insert_by k x s
  end.

Fixpoint with_keys (key : A -> result json) (l : list A)
  : result (list (json * A)) :=
  match l with
  | [] => Ok []
  | x :: l' =>
      k <- key x ;; r <- with_keys key l' ;; Ok ((k, x) :: r)
  end.

(** [sorted(l, key=key)]: the keys are computed first, for every
    element; the sort is stable and only uses [<] on keys.  It is
    written as an insertion sort: on keys that are pairwise comparable
    the result is the one of Python's sort. *)
Definition py_sorted (key : A -> result json) (l : list A)
  : result (list A) :=
  ks <- with_keys key l ;;
  s <- sort_keyed ks ;;
  Ok (map snd s).
End Sorted.

(* ================================================================= *)
(** ** [resources/lib/api.py] *)

Record ParsedItem : Type := mkParsedItem {
  label : json;
  url : dict;
  info : dict;
  art : dict;
  properties : dict
}.

(** [Stream = NamedTuple("StreamVersion", [("label", Text), ("url", Text)])] *)
Record Stream : Type := mkStream {
  stream_label : json;
  stream_url : json
}.

Definition _IMAGE_TYPE_MAPPING : list (string * string) :=
  [ ("banner", "banner");
    ("landscape", "fanart");
    ("portrait", "poster");
    ("square", "thumb") ].

Definition LANGUAGES : list string := ["de"; "en"; "es"; "fr"; "it"; "pl"].

Definition _API_V3_BASE_URL : string := "https://api.arte.tv/api/emac/v3".

Definition _API_V2_URL : string := "https://api.arte.tv/api/player/v2/config".

(** The state of a client: the session itself belongs to the network
    side, which the functions below receive as the response of their
    request. *)
Record ArteTV : Type := mkArteTV {
  _language : string;
  _api_v3_url : string
}.

(** [ArteTV.__init__]: stores the language and formats the catalog URL;
    nothing else is computed from [language]. *)
Definition __init__ (language : string) : result ArteTV :=
  Ok {| _language := language;
        _api_v3_url := (_API_V3_BASE_URL ++ "/" ++ language ++ "/app")%string |}.

(** The key of [sorted] in [_parse_item_art]: [lambda i: i.get("w") or 0]. *)
Definition width_key (i : json) : result json :=
  w <- py_get i "w" ;; Ok (py_or w (JInt 0)).

(** The body of the loop of [_parse_item_art] over [images.items()]. *)
Fixpoint parse_images (images : list (string * json)) (art : dict)
  : result dict :=
  match images with
  | [] => Ok art
  | (image_type, image) :: rest =>
      match lookup image_type _IMAGE_TYPE_MAPPING with
      | None => Raise (Exception "TYPE INCONNU")
      | Some kodi_image_type =>
          if String.eqb kodi_image_type ""
          then Raise (Exception "TYPE INCONNU")
          else if negb (py_truthy image) then parse_images rest art
          else
            r <- py_get image "resolutions" ;;
            if negb (py_truthy r) then parse_images rest art
            else
              resolutions <- py_getkey image "resolutions" ;;
              elems <- py_iter resolutions ;;
              image_urls <- py_sorted width_key elems ;;
              best <- seq_index image_urls (-1) ;;
              image_url <- py_get best "url" ;;
              parse_images rest (dict_setdefault art kodi_image_type image_url)
      end
  end.

Definition _parse_item_art (item : json) : result dict :=
  i <- py_get item "images" ;;
  images <- py_items (py_or i (JDict [])) ;;
  art <- parse_images images [] ;;
  Ok (dict_setdefault art "icon" (dict_get art "fanart")).

Definition _get_item_url (item : json) (path : string) (level : Z)
  : result (option dict) :=
  program_id <- py_get item "programId" ;;
  kind <- py_get item "kind" ;;
  is_collection <- py_get (py_or kind (JDict [])) "isCollection" ;;
  if py_truthy is_collection && py_truthy program_id
  then Ok (Some [("mode", JStr "collection"); ("path", program_id)])
  else
    link <- py_get item "link" ;;
    next_path <- py_get (py_or link (JDict [])) "page" ;;
    if py_truthy next_path && py_ne next_path (JStr path)
    then Ok (Some [("mode", JStr "collection"); ("path", next_path)])
    else
      data <- py_get item "data" ;;
      if py_truthy data
      then Ok (Some [("mode", JStr "collection"); ("path", JStr path);
                     ("level", JInt level)])
      else if py_truthy program_id
      then Ok (Some [("mode", JStr "watch"); ("id", program_id)])
      else Ok None.

(** [os.path.join(a, b)] on a POSIX host. *)
Fixpoint ends_with_slash (s : string) : bool :=
  match s with
  | EmptyString => false
  | String c EmptyString => Ascii.eqb c "/"%char
  | String _ s' => ends_with_slash s'
  end.

Definition path_join (a b : string) : string :=
  if String.prefix "/" b then b
  else if String.eqb a "" || ends_with_slash a then (a ++ b)%string
  else (a ++ "/" ++ b)%string.

(** A generator body: the items it has yielded so far, and how it went on
    (a value, or the exception that ended it). *)
Definition gen (A : Type) : Type := (list ParsedItem * result A)%type.

Definition gret {A} (a : A) : gen A := ([], Ok a).

Definition gbind {A B} (m : gen A) (k : A -> gen B) : gen B :=
  match m with
  | (ys, Ok a) => let (zs, r) := k a in (ys ++ zs, r)
  | (ys, Raise e) => (ys, Raise e)
  end.

Definition yield (p : ParsedItem) : gen unit := ([p], Ok tt).

Definition lift {A} (r : result A) : gen A := ([], r).

Notation "x <~ m ;; k" := (gbind m (fun x => k))
  (at level 61, m at next level, right associativity).

Definition yielded {A} (g : gen A) : list ParsedItem := fst g.

Definition outcome {A} (g : gen A) : result A := snd g.

Section Api.

(** [dateutil.parser.isoparse] and [datetime.strftime], from outside the
    repository. *)
Variable datetime : Type.
Variable isoparse : json -> result datetime.
Variable strftime : datetime -> string -> string.

(** [dirname(__file__)] of [api.py]. *)
Variable module_dir : string.

Definition _MEDIA_DIR : string :=
  path_join (path_join module_dir "..") "media".

Definition _NEXT_PAGE_ICON : string := path_join _MEDIA_DIR "next-page.png".

(** [_parse_item].  The [ParsedItem] is built over [info] and
    [properties] before they are filled and sees every later
    assignment; here it is built once they are complete.  The warning
    logged for a missing title has no effect on the result. *)
Definition _parse_item (item : json) (url : dict)
  : result (option ParsedItem) :=
  art <- _parse_item_art item ;;
  t <- py_get item "title" ;;
  let title := py_or t (JStr "") in
  short_description <- py_get item "shortDescription" ;;
  full <- py_get item "fullDescription" ;;
  description <- py_get item "description" ;;
  let plot := py_or (py_or full description) short_description in
  let info := [("plot", plot)] in
  mode <- py_getkey (JDict url) "mode" ;;
  if py_eq mode (JStr "collection")
  then
    Ok (Some (mkParsedItem title url info art
                [("isPlayable", JStr "false")]))
  else
    age <- py_get item "ageRating" ;;
    info <- (if py_truthy age
             then a <- py_getkey item "ageRating" ;;
                  Ok (dict_set info "mpaa" a)
             else Ok info) ;;
    let info :=
      if py_truthy short_description && py_ne short_description plot
      then dict_set info "plotoutline" short_description
      else info in
    duration <- py_get item "duration" ;;
    let info := dict_set info "duration" duration in
    subtitle <- py_get item "subtitle" ;;
    teaser <- py_get item "teaserText" ;;
    let info := dict_set info "tagline" (py_or subtitle teaser) in
    availability <- py_get item "availability" ;;
    date_added <- py_get (py_or availability (JDict [])) "start" ;;
    info <- (if py_truthy date_added
             then d <- isoparse date_added ;;
                  Ok (dict_set info "dateadded"
                        (JStr (strftime d "%Y-%m-%d %H:%M:%S")))
             else Ok info) ;;
    let info := dict_set info "mediatype" (JStr "movie") in
    Ok (Some (mkParsedItem title url info art
                [("isPlayable", JStr "true")])).

Definition zone_markers : list string :=
  [ "banner_1"; "collection_associated"; "collection_content";
    "collection_partner"; "collection_upcoming" ].

Definition external_titles : list string := ["ARTE Boutique"; "ARTE Radio"].

(** The two [continue] tests at the head of the loop of
    [get_collection]: layout zones, then external resources. *)
Definition is_skipped (item : json) : result bool :=
  code <- py_get item "code" ;;
  code_name <- py_get (py_or code (JDict [])) "name" ;;
  if py_in code_name zone_markers then Ok true
  else
    k <- py_get item "kind" ;;
    kind <- py_get (py_or k (JDict [])) "code" ;;
    title <- py_get item "title" ;;
    Ok (py_eq kind (JStr "EXTERNAL") || py_in title external_titles).

(** One turn of the loop of [get_collection]: what it yields for [item]
    at position [index]. *)
Definition collection_item (path : string) (index : Z) (item : json)
  : gen unit :=
  skip <~ lift (is_skipped item) ;;
  if skip : bool then gret tt
  else
    route <~ lift (_get_item_url item path index) ;;
    match route with
    | None => gret tt
    | Some [] => gret tt
    | Some target =>
        parsed_item <~ lift (_parse_item item target) ;;
        match parsed_item with
        | Some p => yield p
        | None => gret tt
        end
    end.

Fixpoint collection_loop (path : string) (index : Z) (items : list json)
  : gen unit :=
  match items with
  | [] => gret tt
  | item :: rest =>
      _ <~ collection_item path index item ;;
      collection_loop path (index + 1) rest
  end.

(** The ["next page"] item. *)
Definition next_page_item (next_path : json) : ParsedItem :=
  mkParsedItem (JStr "$LOCALIZE[30201]")
    [("mode", JStr "collection"); ("path", next_path)]
    [("plot", JStr "")]
    [("icon", JStr _NEXT_PAGE_ICON)]
    [("SpecialSort", JStr "bottom")].

(** The first two statements of [get_collection] after the request:
    the candidate sequence, and the object the rest of the function
    calls [data]. *)
Definition candidates (data : json) : result json :=
  zones <- py_get data "zones" ;;
  d <- py_get data "data" ;;
  Ok (py_or (py_or zones d) (JList [])).

Definition descend (data collection : json) (level : option Z)
  : result (json * json) :=
  match level with
  | None => Ok (data, collection)
  | Some lv =>
      n <- py_len collection ;;
      if lv <? n
      then
        data' <- py_getitem collection lv ;;
        d <- py_get data' "data" ;;
        Ok (data', py_or d (JList []))
      else Ok (data, collection)
  end.

(** [get_collection] down to the end of its loop, run on the [response]
    of [_query_app_api(path)]: the items yielded, and the object the
    function calls [data] at that point. *)
Definition regular_items (response : result json) (path : string)
    (level : option Z) : gen json :=
  data <~ lift response ;;
  collection <~ lift (candidates data) ;;
  dc <~ lift (descend data collection level) ;;
  items <~ lift (py_iter (snd dc)) ;;
  _ <~ collection_loop path 0 items ;;
  gret (fst dc).

(** [get_collection], run to exhaustion. *)
Definition get_collection (self : ArteTV) (response : result json)
    (path : string) (level : option Z) : gen unit :=
  data <~ regular_items response path level ;;
  next_page <~ lift (py_get data "nextPage") ;;
  if py_truthy next_page
  then
    np <~ lift (py_getkey data "nextPage") ;;
    next_path <~ lift (py_replace np (_api_v3_url self) "") ;;
    yield (next_page_item next_path)
  else gret tt.

End Api.

Arguments _parse_item {datetime} isoparse strftime item url.
Arguments collection_item {datetime} isoparse strftime path index item.
Arguments collection_loop {datetime} isoparse strftime path index items.
Arguments regular_items {datetime} isoparse strftime response path level.
Arguments get_collection {datetime} isoparse strftime module_dir self
  response path level.

(* ----------------------------------------------------------------- *)
(** *** [get_video_streams] *)

(** [OrderedDict] from version code to [Stream]. *)
Definition odict : Type := list (json * Stream).

Definition py_hashable (k : json) : bool :=
  match k with
  | JList _ | JDict _ => false
  | _ => true
  end.

(** [d[k] = v] on an ordered dictionary: a key already there (up to
    [==]) keeps its place and takes the new value. *)
Fixpoint odict_set (d : odict) (k : json) (v : Stream) : odict :=
  match d with
  | [] => [(k, v)]
  | (k', v') :: d' =>
      if py_eq k k' then (k', v) :: d' else (k', v') :: odict_set d' k v
  end.

Definition odict_setitem (d : odict) (k : json) (v : Stream) : result odict :=
  if py_hashable k then Ok (odict_set d k v) else Raise TypeError.

Fixpoint odict_lookup (d : odict) (k : json) : option Stream :=
  match d with
  | [] => None
  | (k', v) :: d' => if py_eq k k' then Some v else odict_lookup d' k
  end.

(** The loop of [get_video_streams] over the stream groups. *)
Fixpoint streams_loop (streams : list json) (acc : odict) : result odict :=
  match streams with
  | [] => Ok acc
  | stream :: rest =>
      u <- py_get stream "url" ;;
      if negb (py_truthy u) then streams_loop rest acc
      else
        v <- py_get stream "versions" ;;
        if negb (py_truthy v) then streams_loop rest acc
        else
          versions <- py_getkey stream "versions" ;;
          stream_data <- py_getitem versions 0 ;;
          s <- py_get stream_data "shortLabel" ;;
          if negb (py_truthy s) then streams_loop rest acc
          else
            l <- py_get stream_data "label" ;;
            if negb (py_truthy l) then streams_loop rest acc
            else
              short_label <- py_getkey stream_data "shortLabel" ;;
              long_label <- py_getkey stream_data "label" ;;
              stream_url <- py_getkey stream "url" ;;
              acc' <- odict_setitem acc short_label
                        (mkStream long_label stream_url) ;;
              streams_loop rest acc'
  end.

(** [get_video_streams] on the [response] of [_query_player_api(video_id)].
    The [print(streams)] of the source writes to the standard output and
    is left out. *)
Definition get_video_streams (response : result json) : result odict :=
  payload <- response ;;
  d <- py_get payload "data" ;;
  let data := py_or d (JDict []) in
  a <- py_get data "attributes" ;;
  s <- py_get (py_or a (JDict [])) "streams" ;;
  let streams := py_or s (JList []) in
  groups <- py_iter streams ;;
  streams_loop groups [].

(* ================================================================= *)
(** ** The written specification, in its own words *)

(** The field [outer.inner] of an item: [None] when [outer] is not an
    object. *)
Definition nested (item : dict) (outer inner : string) : json :=
  match dict_get item outer with
  | JDict d => dict_get d inner
  | _ => JNull
  end.

(** The tests of the item-routing rule. *)
Definition is_collection (item : dict) : bool :=
  py_truthy (nested item "kind" "isCollection").

Definition program_id (item : dict) : json := dict_get item "programId".

Definition has_program_id (item : dict) : bool := py_truthy (program_id item).

Definition link_page (item : dict) : json := nested item "link" "page".

Definition links_elsewhere (item : dict) (path : string) : bool :=
  py_truthy (link_page item) && py_ne (link_page item) (JStr path).

Definition has_data (item : dict) : bool := py_truthy (dict_get item "data").

(** The targets of the rule. *)
Definition to_collection (path : json) : dict :=
  [("mode", JStr "collection"); ("path", path)].

Definition to_level (path : string) (index : Z) : dict :=
  [("mode", JStr "collection"); ("path", JStr path); ("level", JInt index)].

Definition to_watch (id : json) : dict :=
  [("mode", JStr "watch"); ("id", id)].

(** Artwork.  The width a resolution is sorted by, and its URL. *)
Definition width (r : json) : Z :=
  match r with
  | JDict d =>
      match as_int (py_or (dict_get d "w") (JInt 0)) with
      | Some z => z
      | None => 0
      end
  | _ => 0
  end.

Definition url_of (r : json) : json :=
  match r with
  | JDict d => dict_get d "url"
  | _ => JNull
  end.

(** The image entries of an item and the resolutions of an image; both
    are empty when the field is absent or empty. *)
Definition images_of (item : dict) : list (string * json) :=
  match dict_get item "images" with
  | JDict d => d
  | _ => []
  end.

Definition resolutions_of (image : json) : list json :=
  match image with
  | JDict d =>
      match dict_get d "resolutions" with
      | JList l => l
      | _ => []
      end
  | _ => []
  end.

(** The four remote image types. *)
Definition known_type (t : string) : bool :=
  existsb (String.eqb t) ["banner"; "landscape"; "portrait"; "square"].

(** The shape of the [images] field in the data model: absent, or an
    object from image type to image; an image is absent or an object
    whose [resolutions] are absent or a list of objects; the width [w] of
    a resolution is absent or a number. *)
Definition resolution_ok (r : json) : bool :=
  match r with
  | JDict d =>
      match as_int (py_or (dict_get d "w") (JInt 0)) with
      | Some _ => true
      | None => false
      end
  | _ => false
  end.

Definition image_ok (image : json) : bool :=
  match image with
  | JDict d =>
      match dict_get d "resolutions" with
      | JList l => forallb resolution_ok l
      | r => negb (py_truthy r)
      end
  | _ => negb (py_truthy image)
  end.

Definition images_ok (item : dict) : bool :=
  match dict_get item "images" with
  | JDict d => forallb (fun kv => image_ok (snd kv)) d
  | v => negb (py_truthy v)
  end.

(** Listings.  The target of a yielded item is a collection or a video;
    its label is the title of the item, or the empty string. *)
Definition mode_of (p : ParsedItem) : json := dict_get (url p) "mode".

(** A field of a raw object, [None] when the value is no object; the
    elements of a raw list, none when the value is no list. *)
Definition field_of (v : json) (k : string) : json :=
  match v with
  | JDict d => dict_get d k
  | _ => JNull
  end.

Definition elements_of (v : json) : list json :=
  match v with
  | JList l => l
  | _ => []
  end.

(** The raw items of a payload: its zones and its data, and the data of
    each of these. *)
Definition raw_item_of (payload item : json) : Prop :=
  let top := elements_of (field_of payload "zones")
             ++ elements_of (field_of payload "data") in
  In item top
  \/ exists zone, In zone top /\ In item (elements_of (field_of zone "data")).

Definition routed (p : ParsedItem) : Prop :=
  mode_of p = JStr "collection" \/ mode_of p = JStr "watch".

Definition has_label (p : ParsedItem) : bool := py_truthy (label p).

(** Streams.  The stream groups of a player payload, at
    [data.attributes.streams]. *)
Definition player_streams (payload : dict) : json :=
  match nested payload "data" "attributes" with
  | JDict a => dict_get a "streams"
  | _ => JNull
  end.

Definition stream_groups (payload : dict) : list json :=
  match player_streams payload with
  | JList l => l
  | _ => []
  end.

Definition has_url_and_version (group : dict) : bool :=
  py_truthy (dict_get group "url") && py_truthy (dict_get group "versions").

(** The first version entry of a group. *)
Definition first_version (group : dict) : option dict :=
  match dict_get group "versions" with
  | JList (JDict v :: _) => Some v
  | _ => None
  end.

(** A version lacks both its short code and its display label; it lacks
    one of them. *)
Definition lacks_both (version : dict) : bool :=
  negb (py_truthy (dict_get version "shortLabel"))
  && negb (py_truthy (dict_get version "label")).

Definition lacks_either (version : dict) : bool :=
  negb (py_truthy (dict_get version "shortLabel"))
  || negb (py_truthy (dict_get version "label")).

(** What a group adds to the mapping: the stream of its first version
    under the short code, unless the group has no URL or no version, or
    that version lacks its short code or its label. *)
Definition contribution (group : json) : option (json * Stream) :=
  match group with
  | JDict g =>
      match first_version g with
      | Some v =>
          if has_url_and_version g && negb (lacks_either v)
          then Some (dict_get v "shortLabel",
                     mkStream (dict_get v "label") (dict_get g "url"))
          else None
      | None => None
      end
  | _ => None
  end.

Definition record (acc : odict) (group : json) : odict :=
  match contribution group with
  | Some (k, s) => odict_set acc k s
  | None => acc
  end.

(** The shape of a player payload: [data] and [attributes] are optional
    objects, [streams] an optional list of objects; the versions of a
    group with a URL are an optional list that starts with an object,
    whose short code can be a dictionary key. *)
Definition group_ok (group : json) : bool :=
  match group with
  | JDict g =>
      negb (py_truthy (dict_get g "url"))
      || match dict_get g "versions" with
         | JList [] => true
         | JList (JDict v :: _) =>
             negb (py_truthy (dict_get v "shortLabel"))
             || py_hashable (dict_get v "shortLabel")
         | JList _ => false
         | v => negb (py_truthy v)
         end
  | _ => false
  end.

Definition payload_ok (payload : dict) : bool :=
  optional_object (dict_get payload "data")
  && optional_object (nested payload "data" "attributes")
  && match player_streams payload with
     | JList l => forallb group_ok l
     | v => negb (py_truthy v)
     end.

(** Sorting by a numeric key.  Every key is the number [f] gives for its element. *)
Definition keyed_by {A} (f : A -> Z) (ks : list (json * A)) : Prop :=
  Forall (fun kx => as_int (fst kx) = Some (f (snd kx))) ks.

Definition ascending {A} (f : A -> Z) (ks : list (json * A)) : Prop :=
  StronglySorted (fun a b => f (snd a) <= f (snd b)) ks.

(** Case analysis along a chain of [<-] and [if] in a hypothesis. *)
Ltac step_in H :=
  match type of H with
  | context [rbind ?m _] =>
      let E := fresh "E" in
      destruct m eqn:E; cbn [rbind] in H; try discriminate H
  | context [if ?c then _ else _] =>
      let E := fresh "E" in
      destruct c eqn:E; try discriminate H
  end.

(* ================================================================= *)
(** ** [resources/lib/addon.py] *)

(** What the controller has set on an [xbmcgui.ListItem]. *)
Record ListItem : Type := mkListItem {
  li_label : string;
  li_path : json;
  li_info : dict;
  li_art : dict;
  li_mime_type : option string;
  li_properties : dict;
  li_context_menu : list (string * string)
}.

(** The calls the controller makes on the host, and its error log. *)
Inductive event : Type :=
| SetContent (handle : Z) (content : string)
| AddDirectoryItem (handle : Z) (target : string) (item : ListItem)
    (is_folder : bool)
| SetResolvedUrl (handle : Z) (succeeded : bool) (item : ListItem)
| EndOfDirectory (handle : Z) (succeeded : bool)
| LogError (msg : string).

Definition is_end_of_directory (e : event) : bool :=
  match e with EndOfDirectory _ _ => true | _ => false end.

Definition is_set_resolved_url (e : event) : bool :=
  match e with SetResolvedUrl _ _ _ => true | _ => false end.

Definition count_events (p : event -> bool) (t : list event) : nat :=
  List.length (filter p t).

(** [s.lstrip("/")], [s.rstrip("/")], [s.strip("/")] *)
Fixpoint lstrip_slash (s : string) : string :=
  match s with
  | String c s' => if Ascii.eqb c "/"%char then lstrip_slash s' else s
  | EmptyString => EmptyString
  end.

Fixpoint rstrip_slash (s : string) : string :=
  match s with
  | EmptyString => EmptyString
  | String c s' =>
      let r := rstrip_slash s' in
      if String.eqb r "" && Ascii.eqb c "/"%char then EmptyString
      else String c r
  end.

Definition strip_slash (s : string) : string := rstrip_slash (lstrip_slash s).

Definition _API_V3_BEARER : string :=
  "MWZmZjk5NjE1ODgxM2E0MTI2NzY4MzQ5MTZkOWVkYTA1M2U4YjM3NDM2MjEwMDllODRhMjIzZjQwNjBiNGYxYw".

Definition _API_V2_BEARER : string :=
  "ZWU0ZWU0NDlmNTNkODcwNWZhNTYzOTc5MjExZTc4NjE4NzExYjE1OTM3YjFhOTQxMTJhNWJlNzYxNmM3MTdjYQ".

Record ArteTVAddon : Type := mkAddon {
  _base_url : string;
  _handle : Z;
  _params : list (string * string);
  _api : ArteTV
}.

(** What the controller runs in: the network and the Kodi host, as a
    state [W] the calls act on, and the functions the two modules take
    from outside the repository. *)
Class Kodi : Type := {
  W : Type;

  (** [Session.get(url, headers={"Authorization": "Bearer " + bearer}).json()]
      with the [_requests_raise_status] hook: the decoded body, or the
      exception of a failed request. *)
  http_get : string -> string -> W -> result json * W;

  (** [Dialog().input(heading)] *)
  dialog_input : string -> W -> string * W;

  (** [Helper("mpd").check_inputstream()] and [.inputstream_addon] *)
  check_inputstream : W -> result bool * W;
  inputstream_addon : string;

  _KODI_VERSION : Z;
  getLocalizedString : Z -> string;
  _ADDON_FANART : string;
  _ADDON_MEDIA_DIR : string;

  (** [_localize]: [re.sub] of the [$LOCALIZE[n]] markers of a string. *)
  _localize : string -> string;

  (** [resources.lib.utils.update_url_params], from a module other than
      the two modelled here. *)
  update_url_params : string -> dict -> string;

  (** Builtins and library functions: [str(v)], [template.format(v)],
      [int(s)] ([None] for [ValueError]), [quote(s, safe="")]. *)
  py_str : json -> string;
  str_format : string -> json -> string;
  py_int : string -> option Z;
  quote : string -> string;

  (** [dateutil.parser.isoparse], [datetime.strftime] and the directory
      of [api.py]. *)
  datetime : Type;
  isoparse : json -> result datetime;
  strftime : datetime -> string -> string;
  module_dir : string
}.

Section Addon.
Context {K : Kodi}.

Record host : Type := mkHost {
  world : W;
  trace : list event
}.

(** State and exceptions. *)
Definition M (A : Type) : Type := host -> result A * host.

Definition ret {A} (a : A) : M A := fun h => (Ok a, h).

Definition bind {A B} (m : M A) (k : A -> M B) : M B :=
  fun h =>
    match m h with
    | (Ok a, h') => k a h'
    | (Raise e, h') => (Raise e, h')
    end.

Notation "x <<- m ;; k" := (bind m (fun x => k))
  (at level 61, m at next level, right associativity).

Definition liftR {A} (r : result A) : M A := fun h => (r, h).

Definition emit (e : event) : M unit :=
  fun h => (Ok tt, mkHost (world h) (trace h ++ [e])).

Definition on_world {A} (f : W -> A * W) : M A :=
  fun h => let (a, w) := f (world h) in (Ok a, mkHost w (trace h)).

Definition on_world_result {A} (f : W -> result A * W) : M A :=
  fun h => let (r, w) := f (world h) in (r, mkHost w (trace h)).

(** [try: body finally: handler] *)
Definition try_finally {A} (body : M A) (handler : M unit) : M A :=
  fun h =>
    let (r, h1) := body h in
    match handler h1 with
    | (Ok _, h2) => (r, h2)
    | (Raise e, h2) => (Raise e, h2)
    end.

Fixpoint for_each {A} (l : list A) (body : A -> M unit) : M unit :=
  match l with
  | [] => ret tt
  | x :: l' => _ <<- body x ;; for_each l' body
  end.

(** The two requests of the client.  Each hands the response over, the
    exception of a failed request included, to the function that asked
    for it. *)
Definition _query_app_api (api : ArteTV) (path : string) : M (result json) :=
  on_world
    (http_get (_api_v3_url api ++ "/" ++ strip_slash path)%string
       _API_V3_BEARER).

Definition _query_player_api (api : ArteTV) (video_id : string)
  : M (result json) :=
  on_world
    (http_get (_API_V2_URL ++ "/" ++ _language api ++ "/" ++ video_id)%string
       _API_V2_BEARER).

Definition api_get_video_streams (api : ArteTV) (video_id : string)
  : M odict :=
  r <<- _query_player_api api video_id ;;
  liftR (get_video_streams r).

Definition set_property (li : ListItem) (k : string) (v : json) : ListItem :=
  mkListItem (li_label li) (li_path li) (li_info li) (li_art li)
    (li_mime_type li) (dict_set (li_properties li) k v)
    (li_context_menu li).

Definition set_mime_type (li : ListItem) (m : string) : ListItem :=
  mkListItem (li_label li) (li_path li) (li_info li) (li_art li)
    (Some m) (li_properties li) (li_context_menu li).

Definition add_context_menu_items (li : ListItem)
    (items : list (string * string)) : ListItem :=
  mkListItem (li_label li) (li_path li) (li_info li) (li_art li)
    (li_mime_type li) (li_properties li) (li_context_menu li ++ items).

Definition _add_video_context_menu (self : ArteTVAddon) (listitem : ListItem)
    (video_id : string) : M ListItem :=
  streams <<- api_get_video_streams (_api self) video_id ;;
  if (List.length streams <=? 1)%nat then ret listitem
  else
    again <<- api_get_video_streams (_api self) video_id ;;
    ret (add_context_menu_items listitem
           (map (fun kv : json * Stream =>
                   (str_format (getLocalizedString 30203)
                      (stream_label (snd kv)),
                    ("XBMC.PlayMedia(" ++
                       update_url_params (_base_url self)
                         [("mode", JStr "watch");
                          ("id", JStr video_id);
                          ("version", fst kv)] ++ ")")%string))
                again)).

Definition _add_listitem (self : ArteTVAddon) (parsed_item : ParsedItem)
  : M unit :=
  let mode := dict_get (url parsed_item) "mode" in
  let is_folder := py_eq mode (JStr "collection") in
  shown <<- liftR (match label parsed_item with
                   | JStr s => Ok (_localize s)
                   | _ => Raise TypeError
                   end) ;;
  let info :=
    if negb (py_truthy (dict_get (info parsed_item) "plot"))
    then dict_set (info parsed_item) "plot" (JStr shown)
    else info parsed_item in
  let art := dict_setdefault (art parsed_item) "fanart" (JStr _ADDON_FANART) in
  let listitem := mkListItem shown (JStr "") info art None [] [] in
  listitem <<- (if py_eq mode (JStr "watch")
                then
                  id <<- liftR (py_getkey (JDict (url parsed_item)) "id") ;;
                  _add_video_context_menu self listitem (py_str id)
                else ret listitem) ;;
  let listitem :=
    fold_left (fun li kv => set_property li (fst kv) (snd kv))
      (properties parsed_item) listitem in
  emit (AddDirectoryItem (_handle self)
          (update_url_params (_base_url self) (url parsed_item))
          listitem is_folder).

Definition str_truthy (s : option string) : bool :=
  match s with
  | Some s => negb (String.eqb s "")
  | None => false
  end.

Definition _mode_collection (self : ArteTVAddon) (path : string) : M unit :=
  _ <<- emit (SetContent (_handle self) "movies") ;;
  let level :=
    if str_truthy (lookup "level" (_params self))
    then match lookup "level" (_params self) with
         | Some l => py_int l
         | None => None
         end
    else None in
  response <<- _query_app_api (_api self) path ;;
  let items :=
    get_collection isoparse strftime module_dir (_api self)
      response path level in
  _ <<- for_each (yielded items) (_add_listitem self) ;;
  liftR (outcome items).

(** The stream [_mode_watch] settles on: [None] stands for the two
    early returns, after their error is logged. *)
Definition choose_stream (streams : odict) (version : option string)
  : M (option json) :=
  if negb (str_truthy version)
  then
    match streams with
    | [] =>
        _ <<- emit (LogError "No stream available for video %s") ;;
        ret None
    | (first, _) :: _ =>
        if negb (py_truthy first)
        then
          _ <<- emit (LogError "No stream available for video %s") ;;
          ret None
        else
          match odict_lookup streams first with
          | Some s => ret (Some (stream_url s))
          | None => liftR (Raise KeyError)
          end
    end
  else
    let v := match version with Some v => v | None => "" end in
    match odict_lookup streams (JStr v) with
    | None =>
        _ <<- emit (LogError "No stream %s available for video %s") ;;
        ret None
    | Some s => ret (Some (stream_url s))
    end.

Definition _mode_watch (self : ArteTVAddon) (video_id : string)
    (version : option string) : M unit :=
  streams <<- api_get_video_streams (_api self) video_id ;;
  chosen <<- choose_stream streams version ;;
  match chosen with
  | None => ret tt
  | Some video_url =>
      let listitem := mkListItem "" video_url [] [] None [] [] in
      available <<- on_world_result check_inputstream ;;
      let listitem :=
        if available : bool
        then
          set_property
            (set_property
               (set_mime_type listitem "application/vnd.apple.mpegurl")
               "inputstream.adaptive.manifest_type" (JStr "hls"))
            (if 19 <=? _KODI_VERSION then "inputstream"
             else "inputstreamaddon")
            (JStr inputstream_addon)
        else listitem in
      emit (SetResolvedUrl (_handle self) true listitem)
  end.

Definition _mode_search (self : ArteTVAddon) : M unit :=
  search <<- on_world (dialog_input (getLocalizedString 30005)) ;;
  _mode_collection self ("data/SEARCH_LISTING/?query=" ++ quote search)%string.

Definition menu_entry (text : Z) (target : dict) (icon : string) : ParsedItem :=
  mkParsedItem (JStr (getLocalizedString text)) target []
    [("icon", JStr (path_join _ADDON_MEDIA_DIR icon))]
    [("isPlayable", JStr "false")].

Definition _mode_default (self : ArteTVAddon) : M unit :=
  _ <<- (if existsb (String.eqb (_language (_api self))) ["de"; "fr"]
         then
           _add_listitem self
             (mkParsedItem (JStr (getLocalizedString 30001))
                [("mode", JStr "watch"); ("id", JStr "LIVE")]
                [("playcount", JInt 0)]
                [("icon", JStr (path_join _ADDON_MEDIA_DIR "live-tv.png"))]
                [("isPlayable", JStr "true")])
         else ret tt) ;;
  _ <<- _add_listitem self
          (menu_entry 30002
             [("mode", JStr "collection"); ("path", JStr "CATEGORIES")]
             "categories.png") ;;
  _ <<- _add_listitem self
          (menu_entry 30003
             [("mode", JStr "collection"); ("path", JStr "MAGAZINES");
              ("level", JInt 0)]
             "tv-shows.png") ;;
  _ <<- _add_listitem self
          (menu_entry 30004
             [("mode", JStr "collection"); ("path", JStr "MOST_VIEWED");
              ("level", JInt 0)]
             "trending.png") ;;
  _ <<- _add_listitem self
          (menu_entry 30005
             [("mode", JStr "collection"); ("path", JStr "MOST_RECENT");
              ("level", JInt 0)]
             "most-recent.png") ;;
  _ <<- _add_listitem self
          (menu_entry 30006
             [("mode", JStr "collection"); ("path", JStr "LAST_CHANCE");
              ("level", JInt 0)]
             "last-chance.png") ;;
  _add_listitem self (menu_entry 30007 [("mode", JStr "search")] "search.png").

(** [self._params[k]] *)
Definition param (self : ArteTVAddon) (k : string) : M string :=
  liftR (match lookup k (_params self) with
         | Some v => Ok v
         | None => Raise KeyError
         end).

Definition mode_is (self : ArteTVAddon) (m : string) : bool :=
  match lookup "mode" (_params self) with
  | Some v => String.eqb v m
  | None => false
  end.

(** The body of the [try] of [run]. *)
Definition dispatch (self : ArteTVAddon) : M unit :=
  if mode_is self "collection" && str_truthy (lookup "path" (_params self))
  then
    path <<- param self "path" ;;
    _mode_collection self path
  else if mode_is self "watch" && str_truthy (lookup "id" (_params self))
  then
    id <<- param self "id" ;;
    _mode_watch self id (lookup "version" (_params self))
  else if mode_is self "search" then _mode_search self
  else _mode_default self.

Definition run (self : ArteTVAddon) : M unit :=
  try_finally (dispatch self) (emit (EndOfDirectory (_handle self) true)).

(** A computation that does not call [endOfDirectory]. *)
Definition quiet {A} (m : M A) : Prop :=
  forall h,
  exists t,
    trace (snd (m h)) = trace h ++ t
    /\ count_events is_end_of_directory t = 0%nat.

End Addon.

(* ================================================================= *)
(** ** Further functions of the two modules *)

(** [_get_program_item]: the generator expression of the source stops at
    the first zone whose [code.name] is ["program_content"]; the zones
    after it are not looked at. *)
Fixpoint find_program_content (zones : list json) : result (option json) :=
  match zones with
  | [] => Ok None
  | p :: rest =>
      code <- py_get p "code" ;;
      name <- py_get (py_or code (JDict [])) "name" ;;
      if py_eq name (JStr "program_content") then Ok (Some p)
      else find_program_content rest
  end.

(** [next(iter(v), None)] *)
Definition py_first (v : json) : result (option json) :=
  items <- py_iter v ;;
  Ok (match items with
      | [] => None
      | x :: _ => Some x
      end).

(** [_get_program_item], on the [response] of
    [_query_app_api(program_id)]. *)
Definition _get_program_item (response : result json) : result (option json) :=
  data <- response ;;
  z <- py_get data "zones" ;;
  zones <- py_iter (py_or z (JList [])) ;;
  found <- find_program_content zones ;;
  match found with
  | None => Ok None
  | Some program_content =>
      if negb (py_truthy program_content) then Ok None
      else
        d <- py_get program_content "data" ;;
        py_first (py_or d (JList []))
  end.

(** What [_requests_raise_status] reads of a [requests.Response]: the
    status code, and the body as [Response.json()] decodes it ([None]
    when it is not JSON and [json()] raises [ValueError]). *)
Record Response : Type := mkResponse {
  status_code : Z;
  json_body : option json
}.

(** [Response.raise_for_status()]: [HTTPError] on a status from 400 to
    599. *)
Definition raise_for_status (response : Response) : result unit :=
  if (400 <=? status_code response) && (status_code response <? 600)
  then Raise HTTPError
  else Ok tt.

(** [_requests_raise_status]: an [HTTPError] becomes an
    [ArteTVException] carrying the [error] field of the body; when the
    body is not JSON the [HTTPError] is raised again.  The arguments of
    the exceptions are left out. *)
Definition _requests_raise_status (response : Response) : result unit :=
  match raise_for_status response with
  | Ok u => Ok u
  | Raise HTTPError =>
      match json_body response with
      | None => Raise HTTPError
      | Some body => _ <- py_get body "error" ;; Raise ArteTVException
      end
  | Raise e => Raise e
  end.

(** [Addon.getSetting(id)]: the empty string for a setting that has no
    value. *)
Definition getSetting (settings : list (string * string)) (id : string)
  : string :=
  match lookup id settings with
  | Some v => v
  | None => ""
  end.

(** [ArteTVAddon._addon_language], on the settings of the add-on and the
    language of the host ([xbmc.getLanguage(xbmc.ISO_639_1)]): the
    language, and the settings as the call leaves them. *)
Definition _addon_language (settings : list (string * string))
    (host_language : string) : string * list (string * string) :=
  let language := getSetting settings "language" in
  if String.eqb language ""
  then
    let language :=
      if existsb (String.eqb host_language) LANGUAGES then host_language
      else "en" in
    (language, dict_set settings "language" language)
  else (language, settings).

(** [old] occurs in [s]. *)
Fixpoint occurs (old s : string) : bool :=
  String.prefix old s
  || match s with
     | EmptyString => false
     | String _ s' => occurs old s'
     end.

(** The description [_parse_item] settles on. *)
Definition plot_of (item : dict) : json :=
  py_or (py_or (dict_get item "fullDescription") (dict_get item "description"))
    (dict_get item "shortDescription").

(** The stream of the last group that contributes under the code [k]. *)
Definition last_contribution (k : json) (groups : list json) : option Stream :=
  fold_left
    (fun found group =>
       match contribution group with
       | Some (k', s) => if py_eq k k' then Some s else found
       | None => found
       end)
    groups None.

(** The rows a trace adds to the listing: the targets and the folder
    flags of its [addDirectoryItem] calls, in order. *)
Definition directory_rows (t : list event) : list (string * bool) :=
  flat_map (fun e => match e with
                     | AddDirectoryItem _ target _ is_folder =>
                         [(target, is_folder)]
                     | _ => []
                     end) t.

(** The level [_mode_collection] asks the client for: the [level]
    parameter when it is set and [int] accepts it. *)
Definition level_param {K : Kodi} (self : ArteTVAddon) : option Z :=
  if str_truthy (lookup "level" (_params self))
  then match lookup "level" (_params self) with
       | Some l => py_int l
       | None => None
       end
  else None.

(** The row [_add_listitem] adds for a parsed item: the callback URL of
    its target, and whether it is a folder. *)
Definition row_of {K : Kodi} (self : ArteTVAddon) (p : ParsedItem)
  : string * bool :=
  (update_url_params (_base_url self) (url p),
   py_eq (dict_get (url p) "mode") (JStr "collection")).

(** The list item [_add_listitem] builds for an item that is not a video,
    labelled [s]. *)
Definition plain_listitem {K : Kodi} (p : ParsedItem) (s : string) : ListItem :=
  fold_left (fun li kv => set_property li (fst kv) (snd kv)) (properties p)
    (mkListItem (_localize s) (JStr "")
       (if negb (py_truthy (dict_get (info p) "plot"))
        then dict_set (info p) "plot" (JStr (_localize s))
        else info p)
       (dict_setdefault (art p) "fanart" (JStr _ADDON_FANART))
       None [] []).

(** A computation that adds nothing to the trace. *)
Definition silent {K : Kodi} {A} (m : M A) : Prop :=
  forall h, trace (snd (m h)) = trace h.

(** The context-menu entry of a stream variant. *)
Definition menu_item {K : Kodi} (self : ArteTVAddon) (video_id : string)
    (kv : json * Stream) : string * string :=
  (str_format (getLocalizedString 30203) (stream_label (snd kv)),
   ("XBMC.PlayMedia(" ++
      update_url_params (_base_url self)
        [("mode", JStr "watch"); ("id", JStr video_id); ("version", fst kv)]
      ++ ")")%string).

(* ================================================================= *)
(** ** A client and a host for the examples *)

(** The client [ArteTV("fr")]. *)
Definition french : ArteTV :=
  mkArteTV "fr" "https://api.arte.tv/api/emac/v3/fr/app".

(** A date parser that takes an ISO date for what it is, and refuses
    everything else. *)
Definition plain_isoparse (v : json) : result string :=
  match v with
  | JStr s => Ok s
  | _ => Raise TypeError
  end.

Definition plain_strftime (d : string) (format : string) : string := d.

(** A host whose network answers every request with [response], and
    which has no adaptive-streaming helper. *)
Definition still_kodi (response : result json) : Kodi := {|
  W := unit;
  http_get := fun _ _ w => (response, w);
  dialog_input := fun _ w => ("", w);
  check_inputstream := fun w => (Ok false, w);
  inputstream_addon := "inputstream.adaptive";
  _KODI_VERSION := 19;
  getLocalizedString := fun _ => "";
  _ADDON_FANART := "fanart.jpg";
  _ADDON_MEDIA_DIR := "/addon/resources/media";
  _localize := fun s => s;
  update_url_params := fun base _ => base;
  py_str := fun v => match v with JStr s => s | _ => "" end;
  str_format := fun template _ => template;
  py_int := fun _ => None;
  quote := fun s => s;
  datetime := string;
  isoparse := plain_isoparse;
  strftime := plain_strftime;
  module_dir := "/addon/resources/lib"
|}.

(** A player payload with the stream groups [groups]. *)
Definition player_payload (groups : list json) : json :=
  JDict [("data", JDict [("attributes", JDict [("streams", JList groups)])])].

Definition stream_group (address : string) (version : dict) : json :=
  JDict [("url", JStr address); ("versions", JList [JDict version])].

Definition version_entry (code name : string) : dict :=
  [("shortLabel", JStr code); ("label", JStr name)].

(** The answer of the player API for a video in German and in English. *)
Definition german_english : result json :=
  Ok (player_payload
        [stream_group "https://de" (version_entry "de" "Deutsch");
         stream_group "https://en" (version_entry "en" "English")]).

(* ================================================================= *)
(** ** Properties of the catalog client *)

Lemma rbind_ok {A B} (m : result A) (k : A -> result B) (b : B) :
  rbind m k = Ok b -> exists a, m = Ok a /\ k a = Ok b.
Proof.
  destruct m as [a | e]; simpl; intro H; [ exists a; auto | discriminate ].
Qed.

Lemma py_get_nested (item : dict) (outer inner : string) :
  optional_object (dict_get item outer) = true ->
  py_get (py_or (dict_get item outer) (JDict [])) inner
  = Ok (nested item outer inner).
Proof.
  unfold nested, py_or, optional_object.
  destruct (dict_get item outer) as [ | b | z | s | l | d ]; simpl;
    try reflexivity.
  - intro H. apply negb_true_iff in H. now rewrite H.
  - intro H. apply negb_true_iff in H. now rewrite H.
  - intro H. apply negb_true_iff in H. now rewrite H.
  - destruct l; [ reflexivity | discriminate ].
  - intros _. destruct d; reflexivity.
Qed.

(** A truthy value that is not an object has no [get]. *)
Lemma py_get_not_object (v : json) (k : string) :
  optional_object v = false ->
  py_get (py_or v (JDict [])) k = Raise AttributeError.
Proof.
  unfold optional_object, py_or.
  destruct v as [ | b | z | s | l | d ]; try discriminate;
    intros H; apply negb_false_iff in H; rewrite H; reflexivity.
Qed.

(** The routing function, on an item whose [kind] and [link] are
    optional objects, as one decision list. *)
Lemma get_item_url_cases (item : dict) (path : string) (index : Z) :
  optional_object (dict_get item "kind") = true ->
  optional_object (dict_get item "link") = true ->
  _get_item_url (JDict item) path index =
  Ok (if is_collection item && has_program_id item
      then Some (to_collection (program_id item))
      else if links_elsewhere item path
      then Some (to_collection (link_page item))
      else if has_data item then Some (to_level path index)
      else if has_program_id item then Some (to_watch (program_id item))
      else None).
Proof.
  intros Hk Hl. unfold _get_item_url. simpl py_get at 1 2. unfold rbind at 1 2.
  rewrite (py_get_nested _ _ _ Hk). unfold rbind at 1.
  fold (program_id item). fold (is_collection item). fold (has_program_id item).
  destruct (is_collection item && has_program_id item); [ reflexivity | ].
  simpl py_get at 1. unfold rbind at 1.
  rewrite (py_get_nested _ _ _ Hl). unfold rbind at 1.
  fold (link_page item). fold (links_elsewhere item path).
  destruct (links_elsewhere item path); [ reflexivity | ].
  simpl py_get. unfold rbind. fold (has_data item).
  destruct (has_data item); [ reflexivity | ].
  destruct (has_program_id item); reflexivity.
Qed.

(** C1, as the code has it.  The item-routing rule takes its five steps
    in order, the first that matches deciding the route: a collection
    item with a [programId] goes to the collection of that id; otherwise
    a [link.page] other than the current path goes to that page;
    otherwise an item with nested [data] goes to the current path at
    [level = index]; otherwise a [programId] goes to the video of that
    id; otherwise there is no route.  This holds for the dictionaries
    whose [kind] and [link] are objects when they are present, as the
    data model says, and the two scenarios of the specification are
    instances.  It does not hold for every dictionary: a [kind] that is
    truthy and not an object makes the call raise [AttributeError]
    whatever the other fields are, and so does such a [link] unless the
    first step has decided, in which case [link] is not read. *)
Theorem get_item_url_first_match :
  (forall (item : dict) (path : string) (index : Z),
      optional_object (dict_get item "kind") = true ->
      optional_object (dict_get item "link") = true ->
      let route := _get_item_url (JDict item) path index in
      (is_collection item && has_program_id item = true ->
       route = Ok (Some (to_collection (program_id item))))
      /\ (is_collection item && has_program_id item = false ->
          links_elsewhere item path = true ->
          route = Ok (Some (to_collection (link_page item))))
      /\ (is_collection item && has_program_id item = false ->
          links_elsewhere item path = false ->
          has_data item = true ->
          route = Ok (Some (to_level path index)))
      /\ (is_collection item && has_program_id item = false ->
          links_elsewhere item path = false ->
          has_data item = false ->
          has_program_id item = true ->
          route = Ok (Some (to_watch (program_id item))))
      /\ (is_collection item && has_program_id item = false ->
          links_elsewhere item path = false ->
          has_data item = false ->
          has_program_id item = false ->
          route = Ok None))
  /\ _get_item_url
       (JDict [("title", JStr "X");
               ("kind", JDict [("isCollection", JBool true)]);
               ("programId", JStr "42")]) "P" 3
     = Ok (Some [("mode", JStr "collection"); ("path", JStr "42")])
  /\ (forall (path : string) (index : Z),
         _get_item_url (JDict [("programId", JStr "7")]) path index
         = Ok (Some [("mode", JStr "watch"); ("id", JStr "7")]))
  /\ (forall (item : dict) (path : string) (index : Z),
         optional_object (dict_get item "kind") = false ->
         _get_item_url (JDict item) path index = Raise AttributeError)
  /\ (forall (item : dict) (path : string) (index : Z),
         optional_object (dict_get item "kind") = true ->
         is_collection item && has_program_id item = true ->
         _get_item_url (JDict item) path index
         = Ok (Some (to_collection (program_id item))))
  /\ (forall (item : dict) (path : string) (index : Z),
         optional_object (dict_get item "kind") = true ->
         is_collection item && has_program_id item = false ->
         optional_object (dict_get item "link") = false ->
         _get_item_url (JDict item) path index = Raise AttributeError).
Proof.
  split; [ | split; [ reflexivity | split; [ intros; reflexivity | ] ] ].
  - intros item path index Hk Hl route. subst route.
    rewrite (get_item_url_cases item path index Hk Hl).
    repeat split; intros;
      repeat match goal with
             | H : ?c = _ |- context [if ?c then _ else _] => rewrite H
             end;
      reflexivity.
  - split; [ | split ].
    + intros item path index Hk. unfold _get_item_url.
      simpl py_get at 1 2. unfold rbind at 1 2.
      now rewrite (py_get_not_object _ _ Hk).
    + intros item path index Hk H1. unfold _get_item_url.
      simpl py_get at 1 2. unfold rbind at 1 2.
      rewrite (py_get_nested _ _ _ Hk). unfold rbind at 1.
      fold (program_id item). fold (is_collection item).
      fold (has_program_id item). now rewrite H1.
    + intros item path index Hk H1 Hl. unfold _get_item_url.
      simpl py_get at 1 2. unfold rbind at 1 2.
      rewrite (py_get_nested _ _ _ Hk). unfold rbind at 1.
      fold (program_id item). fold (is_collection item).
      fold (has_program_id item). rewrite H1.
      simpl py_get at 1. unfold rbind at 1.
      now rewrite (py_get_not_object _ _ Hl).
Qed.

(** An item that is a collection with a [programId] and also carries
    nested [data] matches steps 1 and 3: step 1 decides. *)
Lemma get_item_url_first_match_witness :
  _get_item_url
    (JDict [("kind", JDict [("isCollection", JBool true)]);
            ("programId", JStr "42");
            ("data", JList [JDict [("programId", JStr "1")]])]) "P" 3
  = Ok (Some (to_collection (JStr "42"))).
Proof.
  apply (proj1 (proj1 get_item_url_first_match
                  [("kind", JDict [("isCollection", JBool true)]);
                   ("programId", JStr "42");
                   ("data", JList [JDict [("programId", JStr "1")]])]
                  "P" 3 eq_refl eq_refl)).
  reflexivity.
Defined.

(* ----------------------------------------------------------------- *)
(** *** Sorting resolutions by width *)

Lemma py_lt_int (a b : json) (x y : Z) :
  as_int a = Some x -> as_int b = Some y -> py_lt a b = Ok (x <? y).
Proof.
  destruct a, b; simpl; try discriminate;
    intros Ha Hb; injection Ha as <-; injection Hb as <-; reflexivity.
Qed.

Section SortedNumeric.
Context {A : Type} (f : A -> Z).

Lemma insert_by_numeric (kx : json) (x : A) (s : list (json * A)) :
  as_int kx = Some (f x) -> keyed_by f s -> ascending f s ->
  exists s', insert_by kx x s = Ok s'
             /\ Permutation ((kx, x) :: s) s'
             /\ keyed_by f s' /\ ascending f s'.
Proof.
  intros Hk. induction s as [ | [ke e] s IH ]; intros Hs Ha.
  - exists [(kx, x)]. simpl. repeat split; auto.
    + constructor; auto.
    + repeat constructor.
  - inversion Hs as [ | ? ? He Hs' ]; subst. simpl in He.
    inversion Ha as [ | ? ? Ha' Hall ]; subst.
    simpl. rewrite (py_lt_int ke kx (f e) (f x) He Hk). simpl.
    destruct (f e <? f x) eqn:Hlt.
    + destruct (IH Hs' Ha') as (s' & -> & Hp & Hk' & Hs'').
      simpl. exists ((ke, e) :: s'). repeat split.
      * rewrite perm_swap. now constructor.
      * constructor; auto.
      * constructor; auto.
        apply Forall_forall. intros y Hy.
        apply (Permutation_in _ (Permutation_sym Hp)) in Hy.
        destruct Hy as [ <- | Hy ].
        -- simpl. apply Z.ltb_lt in Hlt. lia.
        -- rewrite Forall_forall in Hall. now apply Hall.
    + exists ((kx, x) :: (ke, e) :: s). repeat split; auto.
      * constructor; auto.
      * apply Z.ltb_ge in Hlt. constructor; auto.
        constructor; simpl; [ exact Hlt | ].
        rewrite Forall_forall in Hall |- *. intros y Hy.
        specialize (Hall y Hy). simpl in *. lia.
Qed.

Lemma sort_keyed_numeric (l : list (json * A)) :
  keyed_by f l ->
  exists s, sort_keyed l = Ok s /\ Permutation l s
            /\ keyed_by f s /\ ascending f s.
Proof.
  induction l as [ | [k x] l IH ]; intros Hl.
  - exists []. simpl. repeat split; constructor.
  - inversion Hl as [ | ? ? Hk Hl' ]; subst. simpl in Hk.
    destruct (IH Hl') as (s & Hs & Hp & Hks & Has).
    destruct (insert_by_numeric k x s Hk Hks Has) as (s' & Hi & Hp' & Hk' & Ha').
    exists s'. simpl. rewrite Hs. simpl. repeat split; auto.
    etransitivity; [ | exact Hp' ]. now constructor.
Qed.

(** The last element of an ascending list is a largest one. *)
Lemma ascending_last (s : list (json * A)) (d : json * A) :
  ascending f s ->
  forall y, In y s -> f (snd y) <= f (snd (last s d)).
Proof.
  induction 1 as [ | a s Hs IH Hall ]; intros y Hy; [ destruct Hy | ].
  destruct s as [ | b s ].
  - destruct Hy as [ <- | [] ]. simpl. lia.
  - change (last (a :: b :: s) d) with (last (b :: s) d).
    destruct Hy as [ <- | Hy ]; [ | now apply IH ].
    rewrite Forall_forall in Hall.
    transitivity (f (snd b)); [ apply Hall; now left | apply IH; now left ].
Qed.

End SortedNumeric.

Lemma seq_index_last {A} (l : list A) (d : A) :
  l <> [] -> seq_index l (-1) = Ok (last l d).
Proof.
  intros Hl. unfold seq_index.
  assert (Hn : (0 < List.length l)%nat) by (destruct l; simpl; [ congruence | lia ]).
  change (-1 <? 0) with true. cbv iota.
  replace ((0 <=? Z.of_nat (List.length l) + -1)
           && (Z.of_nat (List.length l) + -1 <? Z.of_nat (List.length l)))
    with true by (symmetry; apply andb_true_iff; split;
                  [ apply Z.leb_le | apply Z.ltb_lt ]; lia).
  replace (Z.to_nat (Z.of_nat (List.length l) + -1))
    with (Nat.pred (List.length l)) by lia.
  clear Hn. induction l as [ | a l IH ]; [ congruence | ].
  destruct l as [ | b l ]; [ reflexivity | ].
  change (last (a :: b :: l) d) with (last (b :: l) d).
  rewrite <- IH by discriminate. reflexivity.
Qed.

Lemma with_keys_width (l : list json) :
  forallb resolution_ok l = true ->
  exists ks, with_keys width_key l = Ok ks
             /\ map snd ks = l /\ keyed_by width ks.
Proof.
  induction l as [ | r l IH ]; simpl; intros H.
  - exists []. repeat split. constructor.
  - apply andb_true_iff in H. destruct H as [Hr Hl].
    destruct (IH Hl) as (ks & Hks & Hm & Hk).
    destruct r as [ | | | | | d ]; try discriminate.
    simpl. rewrite Hks. simpl.
    exists ((py_or (dict_get d "w") (JInt 0), JDict d) :: ks).
    repeat split; simpl; [ now rewrite Hm | ].
    constructor; auto. simpl. unfold resolution_ok in Hr.
    destruct (as_int (py_or (dict_get d "w") (JInt 0))); [ reflexivity | discriminate ].
Qed.

(** [sorted(resolutions, key=width)[-1]] is a resolution of the largest
    width. *)
Lemma sorted_by_width_last (l : list json) :
  forallb resolution_ok l = true -> l <> [] ->
  exists image_urls best,
    py_sorted width_key l = Ok image_urls
    /\ seq_index image_urls (-1) = Ok best
    /\ In best l
    /\ (forall r, In r l -> width r <= width best).
Proof.
  intros Hok Hne.
  destruct (with_keys_width l Hok) as (ks & Hks & Hm & Hk).
  destruct (sort_keyed_numeric width ks Hk) as (s & Hs & Hp & _ & Ha).
  unfold py_sorted. rewrite Hks. simpl. rewrite Hs. simpl.
  assert (Hpm : Permutation l (map snd s))
    by (rewrite <- Hm; now apply Permutation_map).
  assert (Hne' : map snd s <> []).
  { intro E. rewrite E in Hpm. apply Permutation_sym, Permutation_nil in Hpm.
    contradiction. }
  exists (map snd s), (last (map snd s) JNull). repeat split.
  - now apply seq_index_last.
  - apply (Permutation_in _ (Permutation_sym Hpm)).
    destruct (exists_last Hne') as (q & z & E). rewrite E.
    rewrite last_last. apply in_or_app. right. now left.
  - intros r Hr. apply (Permutation_in _ Hpm) in Hr.
    apply in_map_iff in Hr. destruct Hr as (y & <- & Hy).
    replace (last (map snd s) JNull) with (snd (last s (JNull, JNull))).
    + now apply (ascending_last width s (JNull, JNull) Ha).
    + clear - Hne'. induction s as [ | a s IH ]; [ now elim Hne' | ].
      destruct s as [ | b s ]; [ reflexivity | ].
      change (last (a :: b :: s) (JNull, JNull)) with (last (b :: s) (JNull, JNull)).
      change (map snd (a :: b :: s)) with (snd a :: map snd (b :: s)).
      change (last (snd a :: map snd (b :: s)) JNull) with (last (map snd (b :: s)) JNull).
      apply IH. discriminate.
Qed.

(* ----------------------------------------------------------------- *)
(** *** [_parse_item_art] *)

Lemma image_type_mapping_cases (t kodi : string) :
  lookup t _IMAGE_TYPE_MAPPING = Some kodi ->
  (t = "banner" /\ kodi = "banner")
  \/ (t = "landscape" /\ kodi = "fanart")
  \/ (t = "portrait" /\ kodi = "poster")
  \/ (t = "square" /\ kodi = "thumb").
Proof.
  unfold _IMAGE_TYPE_MAPPING. simpl.
  destruct (String.eqb_spec t "banner");
    [ intro H; injection H as <-; auto | ].
  destruct (String.eqb_spec t "landscape");
    [ intro H; injection H as <-; auto | ].
  destruct (String.eqb_spec t "portrait");
    [ intro H; injection H as <-; auto | ].
  destruct (String.eqb_spec t "square");
    [ intro H; injection H as <-; auto 6 | discriminate ].
Qed.

Lemma image_type_mapping_inj (t t' kodi : string) :
  lookup t _IMAGE_TYPE_MAPPING = Some kodi ->
  lookup t' _IMAGE_TYPE_MAPPING = Some kodi ->
  t = t'.
Proof.
  intros H H'.
  apply image_type_mapping_cases in H, H'.
  destruct H as [ [-> ->] | [ [-> ->] | [ [-> ->] | [-> ->] ] ] ];
    destruct H' as [ [-> E] | [ [-> E] | [ [-> E] | [-> E] ] ] ];
    solve [ reflexivity | discriminate E ].
Qed.

(** The table of the module knows the four remote types and no other,
    and gives each the name the host has for it. *)
Lemma known_type_mapping (t : string) :
  known_type t = has_key t _IMAGE_TYPE_MAPPING.
Proof.
  unfold known_type, has_key, _IMAGE_TYPE_MAPPING. simpl.
  destruct (String.eqb t "banner"); [ reflexivity | ].
  destruct (String.eqb t "landscape"); [ reflexivity | ].
  destruct (String.eqb t "portrait"); [ reflexivity | ].
  destruct (String.eqb t "square"); reflexivity.
Qed.

Lemma known_type_In (t : string) :
  known_type t = true <-> In t ["banner"; "landscape"; "portrait"; "square"].
Proof.
  unfold known_type. rewrite existsb_exists. split.
  - intros (x & Hin & E). apply String.eqb_eq in E. now subst x.
  - intros H. exists t. split; [ exact H | apply String.eqb_refl ].
Qed.

Lemma image_type_mapping_pairs (t kodi : string) :
  lookup t _IMAGE_TYPE_MAPPING = Some kodi ->
  In (t, kodi)
    [("banner", "banner"); ("landscape", "fanart"); ("portrait", "poster");
     ("square", "thumb")].
Proof.
  intros H. apply image_type_mapping_cases in H.
  destruct H as [ [-> ->] | [ [-> ->] | [ [-> ->] | [-> ->] ] ] ];
    simpl; auto 6.
Qed.

Lemma lookup_app {A} (k : string) (d d' : list (string * A)) :
  lookup k (d ++ d') =
  match lookup k d with Some v => Some v | None => lookup k d' end.
Proof.
  induction d as [ | [k' v] d IH ]; simpl; [ reflexivity | ].
  destruct (String.eqb k k'); [ reflexivity | exact IH ].
Qed.

Lemma lookup_setdefault (d : dict) (k k' : string) (v : json) :
  lookup k (dict_setdefault d k' v) =
  match lookup k d with
  | Some x => Some x
  | None => if String.eqb k k' then Some v else None
  end.
Proof.
  unfold dict_setdefault, has_key.
  destruct (lookup k' d) as [x | ] eqn:E.
  - destruct (lookup k d) eqn:E'; [ reflexivity | ].
    destruct (String.eqb_spec k k'); [ congruence | reflexivity ].
  - rewrite lookup_app. simpl. destruct (lookup k d); reflexivity.
Qed.

Lemma lookup_In {A} (k : string) (v : A) (d : list (string * A)) :
  NoDup (keys d) -> In (k, v) d -> lookup k d = Some v.
Proof.
  induction d as [ | [k' v'] d IH ]; simpl; intros Hnd Hin; [ destruct Hin | ].
  inversion Hnd as [ | ? ? Hnot Hnd' ]; subst.
  destruct Hin as [ E | Hin ].
  - injection E as -> ->. now rewrite String.eqb_refl.
  - destruct (String.eqb_spec k k') as [ -> | _ ]; [ | now apply IH ].
    elim Hnot. unfold keys. apply in_map_iff. now exists (k', v).
Qed.

Lemma parse_images_cons (t : string) (image : json)
    (rest : list (string * json)) (art : dict) :
  parse_images ((t, image) :: rest) art =
  match lookup t _IMAGE_TYPE_MAPPING with
  | None => Raise (Exception "TYPE INCONNU")
  | Some kodi_image_type =>
      if String.eqb kodi_image_type ""
      then Raise (Exception "TYPE INCONNU")
      else if negb (py_truthy image) then parse_images rest art
      else
        r <- py_get image "resolutions" ;;
        if negb (py_truthy r) then parse_images rest art
        else
          resolutions <- py_getkey image "resolutions" ;;
          elems <- py_iter resolutions ;;
          image_urls <- py_sorted width_key elems ;;
          best <- seq_index image_urls (-1) ;;
          image_url <- py_get best "url" ;;
          parse_images rest (dict_setdefault art kodi_image_type image_url)
  end.
Proof. reflexivity. Qed.

(** One turn of the loop over the images, for a known type and an image
    of the expected shape: either the image has no resolution and the
    artwork is left as it is, or the URL of a widest resolution is
    recorded, unless the type already has one. *)
Lemma parse_images_step (t kodi : string) (image : json)
    (rest : list (string * json)) (art : dict) :
  lookup t _IMAGE_TYPE_MAPPING = Some kodi ->
  image_ok image = true ->
  (resolutions_of image = []
   /\ parse_images ((t, image) :: rest) art = parse_images rest art)
  \/ (exists best,
         In best (resolutions_of image)
         /\ (forall r, In r (resolutions_of image) -> width r <= width best)
         /\ parse_images ((t, image) :: rest) art
            = parse_images rest (dict_setdefault art kodi (url_of best))).
Proof.
  intros Hm Hok. rewrite !parse_images_cons, Hm.
  assert (Hne : String.eqb kodi "" = false).
  { apply image_type_mapping_cases in Hm.
    destruct Hm as [ [_ ->] | [ [_ ->] | [ [_ ->] | [_ ->] ] ] ]; reflexivity. }
  rewrite Hne.
  destruct (py_truthy image) eqn:Ht; simpl negb; cbv iota.
  2:{ left. split; [ | reflexivity ].
      destruct image as [ | | | | | [ | ? ? ] ]; try reflexivity; discriminate. }
  destruct image as [ | | | | | d ];
    cbv beta iota delta [image_ok] in Hok;
    try (rewrite Ht in Hok; discriminate Hok).
  simpl py_get. unfold rbind at 1.
  unfold resolutions_of.
  destruct (py_truthy (dict_get d "resolutions")) eqn:Hr; simpl negb; cbv iota.
  2:{ left. split; [ | reflexivity ].
      destruct (dict_get d "resolutions") as [ | | | | [ | ? ? ] | ];
        try reflexivity; discriminate. }
  destruct (dict_get d "resolutions") as [ | | | | l | ] eqn:Hd;
    try (rewrite Hr in Hok; discriminate).
  right.
  assert (Hl : l <> []) by (destruct l; [ discriminate | discriminate ]).
  destruct (sorted_by_width_last l Hok Hl) as (s & best & Hs & Hb & Hin & Hmax).
  exists best. repeat split; auto.
  unfold py_getkey. unfold dict_get in Hd.
  destruct (lookup "resolutions" d) as [x | ]; [ | discriminate ]. subst x.
  cbn [rbind]. rewrite Hr. cbn [negb py_iter rbind].
  rewrite Hs. cbn [rbind]. rewrite Hb. cbn [rbind].
  assert (Hbd : exists b, best = JDict b).
  { rewrite forallb_forall in Hok. specialize (Hok best Hin).
    destruct best; try discriminate. eauto. }
  destruct Hbd as (b & ->). reflexivity.
Qed.

(** What the loop leaves in the artwork, for images that all have a known
    type and the expected shape. *)
Lemma parse_images_known (images : list (string * json)) :
  NoDup (keys images) ->
  forallb (fun kv => image_ok (snd kv)) images = true ->
  forallb known_type (keys images) = true ->
  forall art,
  exists art',
    parse_images images art = Ok art'
    /\ (forall k v, lookup k art = Some v -> lookup k art' = Some v)
    /\ (forall k,
           lookup k art = None ->
           (forall t image, In (t, image) images ->
                            lookup t _IMAGE_TYPE_MAPPING = Some k ->
                            resolutions_of image = []) ->
           lookup k art' = None)
    /\ (forall t image kodi,
           In (t, image) images ->
           lookup t _IMAGE_TYPE_MAPPING = Some kodi ->
           lookup kodi art = None ->
           resolutions_of image <> [] ->
           exists best,
             In best (resolutions_of image)
             /\ (forall r, In r (resolutions_of image) -> width r <= width best)
             /\ lookup kodi art' = Some (url_of best)).
Proof.
  induction images as [ | [t0 image0] images IH ]; intros Hnd Hok Hkn art.
  - exists art. simpl. repeat split; auto. intros ? ? ? [].
  - inversion Hnd as [ | ? ? Hnot Hnd' ]; subst.
    simpl in Hok, Hkn. apply andb_true_iff in Hok, Hkn.
    destruct Hok as [Hok0 Hok], Hkn as [Hkn0 Hkn].
    rewrite known_type_mapping in Hkn0. unfold has_key in Hkn0.
    destruct (lookup t0 _IMAGE_TYPE_MAPPING) as [kodi0 | ] eqn:Hm0;
      [ clear Hkn0 | discriminate ].
    assert (Hother : forall t image kodi,
               In (t, image) images ->
               lookup t _IMAGE_TYPE_MAPPING = Some kodi -> kodi <> kodi0).
    { intros t image kodi Hin Hm ->.
      assert (t = t0) by (eapply image_type_mapping_inj; eauto). subst t.
      apply Hnot. unfold keys. apply in_map_iff. now exists (t0, image). }
    destruct (parse_images_step t0 kodi0 image0 images art Hm0 Hok0)
      as [ [Hres Hstep] | (best & Hin & Hmax & Hstep) ]; rewrite Hstep.
    + destruct (IH Hnd' Hok Hkn art) as (art' & Hp & Hkeep & Hnone & Hsome).
      exists art'. split; [ exact Hp | ]. split; [ exact Hkeep | ]. split.
      * intros k Hk Hall. apply Hnone; auto.
        intros t image Hi. apply Hall. now right.
      * intros t image kodi [ E | Hi ] Hm Hk Hne.
        -- injection E as <- <-. contradiction.
        -- eapply Hsome; eauto.
    + destruct (IH Hnd' Hok Hkn (dict_setdefault art kodi0 (url_of best)))
        as (art' & Hp & Hkeep & Hnone & Hsome).
      exists art'. split; [ exact Hp | ]. split; [ | split ].
      * intros k v Hk. apply Hkeep. rewrite lookup_setdefault. now rewrite Hk.
      * intros k Hk Hall. apply Hnone.
        -- rewrite lookup_setdefault, Hk.
           destruct (String.eqb_spec k kodi0) as [ -> | _ ]; [ | reflexivity ].
           specialize (Hall t0 image0 (or_introl eq_refl) Hm0).
           rewrite Hall in Hin. destruct Hin.
        -- intros t image Hi. apply Hall. now right.
      * intros t image kodi [ E | Hi ] Hm Hk Hne.
        -- injection E as <- <-. rewrite Hm0 in Hm. injection Hm as <-.
           exists best. repeat split; auto. apply Hkeep.
           rewrite lookup_setdefault, Hk. now rewrite String.eqb_refl.
        -- eapply Hsome; eauto.
           rewrite lookup_setdefault, Hk.
           destruct (String.eqb_spec kodi kodi0) as [ E | _ ]; [ | reflexivity ].
           elim (Hother t image kodi Hi Hm E).
Qed.

(** The loop raises at the first image type it does not know. *)
Lemma parse_images_unknown (images : list (string * json)) :
  forallb (fun kv => image_ok (snd kv)) images = true ->
  forallb known_type (keys images) = false ->
  forall art, parse_images images art = Raise (Exception "TYPE INCONNU").
Proof.
  induction images as [ | [t0 image0] images IH ]; intros Hok Hkn art;
    [ discriminate | ].
  simpl in Hok, Hkn. apply andb_true_iff in Hok. destruct Hok as [Hok0 Hok].
  rewrite known_type_mapping in Hkn. unfold has_key in Hkn.
  destruct (lookup t0 _IMAGE_TYPE_MAPPING) as [kodi0 | ] eqn:Hm0.
  - simpl in Hkn.
    destruct (parse_images_step t0 kodi0 image0 images art Hm0 Hok0)
      as [ [_ Hstep] | (best & _ & _ & Hstep) ]; rewrite Hstep; now apply IH.
  - rewrite parse_images_cons. now rewrite Hm0.
Qed.

Lemma images_of_items (item : dict) :
  images_ok item = true ->
  py_items (py_or (dict_get item "images") (JDict [])) = Ok (images_of item)
  /\ forallb (fun kv => image_ok (snd kv)) (images_of item) = true.
Proof.
  unfold images_ok, images_of, py_or.
  destruct (dict_get item "images") as [ | b | z | s | [ | x l ] | [ | x d ] ];
    cbn [py_truthy]; intros H;
    try (apply negb_true_iff in H); rewrite ?H; auto; discriminate.
Qed.

Lemma unknown_type_iff (images : list (string * json)) :
  forallb known_type (keys images) = false
  <-> exists t, In t (keys images) /\ known_type t = false.
Proof.
  split.
  - intros H. induction (keys images) as [ | t ts IH ]; [ discriminate | ].
    simpl in H. destruct (known_type t) eqn:E.
    + destruct (IH H) as (t' & Hin & Hk). exists t'. split; [ now right | auto ].
    + exists t. split; [ now left | auto ].
  - intros (t & Hin & Hk).
    destruct (forallb known_type (keys images)) eqn:E; [ | reflexivity ].
    rewrite forallb_forall in E. rewrite (E t Hin) in Hk. discriminate.
Qed.

(** The artwork of an item whose [images] field has the shape of the
    data model, in terms of the table of the module. *)
Lemma parse_item_art_shaped (item : dict) :
  images_ok item = true ->
  dict_wf (images_of item) ->
  (raises (_parse_item_art (JDict item)) = true
   <-> exists t, In t (keys (images_of item)) /\ known_type t = false)
  /\ ((exists t, In t (keys (images_of item)) /\ known_type t = false) ->
      _parse_item_art (JDict item) = Raise (Exception "TYPE INCONNU"))
  /\ (forallb known_type (keys (images_of item)) = true ->
      exists art,
        _parse_item_art (JDict item) = Ok art
        /\ forall t image kodi,
             In (t, image) (images_of item) ->
             lookup t _IMAGE_TYPE_MAPPING = Some kodi ->
             In kodi ["banner"; "fanart"; "poster"; "thumb"]
             /\ (resolutions_of image = [] -> lookup kodi art = None)
             /\ (resolutions_of image <> [] ->
                 exists best,
                   In best (resolutions_of image)
                   /\ (forall r, In r (resolutions_of image) ->
                                 width r <= width best)
                   /\ lookup kodi art = Some (url_of best))).
Proof.
  intros Hshape Hwf.
  destruct (images_of_items item Hshape) as [Hitems Hok].
  assert (Hbad : forallb known_type (keys (images_of item)) = false ->
                 _parse_item_art (JDict item) = Raise (Exception "TYPE INCONNU")).
  { intros Hu. unfold _parse_item_art. cbn [py_get rbind]. rewrite Hitems.
    cbn [rbind]. now rewrite (parse_images_unknown _ Hok Hu). }
  assert (Hgood : forallb known_type (keys (images_of item)) = true ->
      exists art,
        _parse_item_art (JDict item) = Ok art
        /\ forall t image kodi,
             In (t, image) (images_of item) ->
             lookup t _IMAGE_TYPE_MAPPING = Some kodi ->
             In kodi ["banner"; "fanart"; "poster"; "thumb"]
             /\ (resolutions_of image = [] -> lookup kodi art = None)
             /\ (resolutions_of image <> [] ->
                 exists best,
                   In best (resolutions_of image)
                   /\ (forall r, In r (resolutions_of image) ->
                                 width r <= width best)
                   /\ lookup kodi art = Some (url_of best))).
  { intros Hk.
    destruct (parse_images_known _ Hwf Hok Hk []) as (art & Hp & _ & Hnone & Hsome).
    exists (dict_setdefault art "icon" (dict_get art "fanart")). split.
    - unfold _parse_item_art. cbn [py_get rbind]. rewrite Hitems.
      cbn [rbind]. rewrite Hp. reflexivity.
    - intros t image kodi Hin Hm.
      assert (Hc := image_type_mapping_cases _ _ Hm).
      assert (Hicon : String.eqb kodi "icon" = false)
        by (destruct Hc as [ [_ ->] | [ [_ ->] | [ [_ ->] | [_ ->] ] ] ];
            reflexivity).
      split; [ | split ].
      + destruct Hc as [ [_ ->] | [ [_ ->] | [ [_ ->] | [_ ->] ] ] ];
          simpl; auto.
      + intros Hres. rewrite lookup_setdefault, Hicon.
        rewrite (Hnone kodi eq_refl); [ reflexivity | ].
        intros t' image' Hin' Hm'.
        assert (t' = t) by (eapply image_type_mapping_inj; eauto). subst t'.
        assert (E1 := lookup_In _ _ _ Hwf Hin).
        assert (E2 := lookup_In _ _ _ Hwf Hin').
        rewrite E1 in E2. injection E2 as <-. exact Hres.
      + intros Hres.
        destruct (Hsome t image kodi Hin Hm eq_refl Hres)
          as (best & Hb & Hmax & Hl).
        exists best. repeat split; auto.
        rewrite lookup_setdefault, Hl. reflexivity. }
  split; [ | split ].
  - rewrite <- unknown_type_iff. split.
    + intros Hr.
      destruct (forallb known_type (keys (images_of item))) eqn:E;
        [ | reflexivity ].
      destruct (Hgood eq_refl) as (art & Ha & _). rewrite Ha in Hr. discriminate.
    + intros Hu. now rewrite (Hbad Hu).
  - intros Hu. apply Hbad. now apply unknown_type_iff.
  - exact Hgood.
Qed.

(** Sorting by width fails on keys that do not compare, or on a
    resolution that has no [get]; never with an [Exception]. *)
Lemma py_lt_raises :
  forall (a b : json) (e : exn), py_lt a b = Raise e -> e = TypeError.
Proof.
  fix IH 1. intros a b e.
  destruct a as [ | x | x | x | xs | d ];
    destruct b as [ | y | y | y | ys | d' ];
    simpl; try (intros H; injection H as <-; reflexivity); try discriminate.
  revert ys.
  induction xs as [ | x xs IHxs ]; intros [ | y ys ]; try discriminate.
  destruct (py_eq x y); [ apply IHxs | apply IH ].
Qed.

Lemma insert_by_raises {A} (kx : json) (x : A) (s : list (json * A))
    (e : exn) :
  insert_by kx x s = Raise e -> e = TypeError.
Proof.
  induction s as [ | [ke el] s IH ]; simpl; [ discriminate | ].
  destruct (py_lt ke kx) as [ [ | ] | e' ] eqn:E; cbn [rbind].
  - destruct (insert_by kx x s); cbn [rbind]; [ discriminate | ].
    intros H; injection H as <-. now apply IH.
  - discriminate.
  - intros H; injection H as <-. now apply py_lt_raises in E.
Qed.

Lemma sort_keyed_raises {A} (l : list (json * A)) (e : exn) :
  sort_keyed l = Raise e -> e = TypeError.
Proof.
  induction l as [ | [k x] l IH ]; simpl; [ discriminate | ].
  destruct (sort_keyed l) as [ s | e' ]; cbn [rbind].
  - apply insert_by_raises.
  - intros H; injection H as <-. now apply IH.
Qed.

Lemma with_keys_width_raises (l : list json) (e : exn) :
  with_keys width_key l = Raise e -> e = AttributeError.
Proof.
  induction l as [ | x l IH ]; simpl; [ discriminate | ].
  unfold width_key at 1.
  destruct x; cbn [py_get rbind];
    try (intros H; injection H as <-; reflexivity).
  destruct (with_keys width_key l) as [ r | e' ]; cbn [rbind];
    [ discriminate | ].
  intros H; injection H as <-. now apply IH.
Qed.

Lemma py_sorted_width_raises (l : list json) (e : exn) :
  py_sorted width_key l = Raise e -> e = TypeError \/ e = AttributeError.
Proof.
  unfold py_sorted.
  destruct (with_keys width_key l) as [ ks | e' ] eqn:E; cbn [rbind].
  - destruct (sort_keyed ks) as [ s | e'' ] eqn:E'; cbn [rbind];
      [ discriminate | ].
    intros H; injection H as <-. left. now apply sort_keyed_raises in E'.
  - intros H; injection H as <-. right. now apply with_keys_width_raises in E.
Qed.

(** The loop over the images raises an [Exception] for an image type
    that is not in the table, and for nothing else. *)
Lemma parse_images_exception (images : list (string * json)) :
  forall (art : dict) (msg : string),
    parse_images images art = Raise (Exception msg) ->
    msg = "TYPE INCONNU"
    /\ exists t, In t (keys images) /\ known_type t = false.
Proof.
  induction images as [ | [t0 image0] images IH ]; intros art msg H;
    [ discriminate | ].
  assert (Hrest : forall art',
             parse_images images art' = Raise (Exception msg) ->
             msg = "TYPE INCONNU"
             /\ exists t, In t (keys ((t0, image0) :: images))
                          /\ known_type t = false).
  { intros art' H'. destruct (IH art' msg H') as (Hm & t & Hin & Hk).
    split; [ exact Hm | ]. exists t. split; [ now right | exact Hk ]. }
  rewrite parse_images_cons in H.
  destruct (lookup t0 _IMAGE_TYPE_MAPPING) as [ kodi | ] eqn:Hm.
  - assert (Hne : String.eqb kodi "" = false).
    { apply image_type_mapping_cases in Hm.
      destruct Hm as [ [_ ->] | [ [_ ->] | [ [_ ->] | [_ ->] ] ] ];
        reflexivity. }
    rewrite Hne in H.
    destruct (negb (py_truthy image0)); [ exact (Hrest _ H) | ].
    destruct (py_get image0 "resolutions") as [ r | e ] eqn:E1;
      cbn [rbind] in H;
      [ | injection H as ->; destruct image0; discriminate E1 ].
    destruct (negb (py_truthy r)); [ exact (Hrest _ H) | ].
    destruct (py_getkey image0 "resolutions") as [ rs | e ] eqn:E2;
      cbn [rbind] in H.
    2:{ injection H as ->. unfold py_getkey in E2.
        destruct image0; try discriminate E2.
        destruct (lookup "resolutions" d); discriminate E2. }
    destruct (py_iter rs) as [ elems | e ] eqn:E3; cbn [rbind] in H;
      [ | injection H as ->; destruct rs; discriminate E3 ].
    destruct (py_sorted width_key elems) as [ urls | e ] eqn:E4;
      cbn [rbind] in H.
    2:{ injection H as ->.
        destruct (py_sorted_width_raises _ _ E4); discriminate. }
    destruct (seq_index urls (-1)) as [ best | e ] eqn:E5; cbn [rbind] in H.
    2:{ injection H as ->. unfold seq_index in E5.
        destruct ((0 <=? _) && _); [ | discriminate E5 ].
        destruct (nth_error urls _); discriminate E5. }
    destruct (py_get best "url") as [ u | e ] eqn:E6; cbn [rbind] in H;
      [ | injection H as ->; destruct best; discriminate E6 ].
    exact (Hrest _ H).
  - injection H as <-. split; [ reflexivity | ].
    exists t0. split; [ now left | ].
    rewrite known_type_mapping. unfold has_key. now rewrite Hm.
Qed.

Lemma not_known_type (l : list string) :
  (exists t, In t l /\ known_type t = false)
  <-> (exists t, In t l
                 /\ ~ In t ["banner"; "landscape"; "portrait"; "square"]).
Proof.
  split; intros (t & Hin & H); exists t; (split; [ exact Hin | ]).
  - intros Hk. apply known_type_In in Hk. congruence.
  - destruct (known_type t) eqn:E; [ | reflexivity ].
    elim H. now apply known_type_In.
Qed.

(** C7, as the code has it.  On an item whose [images] field has the
    shape of the data model (an object of images, each with an optional
    list of resolution objects whose width is absent or an integer),
    [_parse_item_art] raises exactly when some image type is outside
    banner, landscape, portrait and square, and then with the exception
    TYPE INCONNU.  When every type is among the four it returns an
    artwork map in which each type that has resolutions is recorded
    under its host name (banner for banner, fanart for landscape, poster
    for portrait, thumb for square) with the URL of a resolution of the
    largest width, and a type without resolutions has no entry.  On any
    item at all, that exception is raised only for an image type outside
    the four; an item outside the shape can raise another exception
    although every type is known. *)
Theorem parse_item_art_raises_iff_unknown_type :
  (forall item : dict,
      images_ok item = true ->
      dict_wf (images_of item) ->
      (raises (_parse_item_art (JDict item)) = true
       <-> exists t,
             In t (keys (images_of item))
             /\ ~ In t ["banner"; "landscape"; "portrait"; "square"])
      /\ ((exists t,
              In t (keys (images_of item))
              /\ ~ In t ["banner"; "landscape"; "portrait"; "square"]) ->
          _parse_item_art (JDict item) = Raise (Exception "TYPE INCONNU"))
      /\ ((forall t,
              In t (keys (images_of item)) ->
              In t ["banner"; "landscape"; "portrait"; "square"]) ->
          exists art,
            _parse_item_art (JDict item) = Ok art
            /\ forall t image,
                 In (t, image) (images_of item) ->
                 exists kodi,
                   In (t, kodi)
                     [("banner", "banner"); ("landscape", "fanart");
                      ("portrait", "poster"); ("square", "thumb")]
                   /\ (resolutions_of image = [] -> lookup kodi art = None)
                   /\ (resolutions_of image <> [] ->
                       exists best,
                         In best (resolutions_of image)
                         /\ (forall r, In r (resolutions_of image) ->
                                       width r <= width best)
                         /\ lookup kodi art = Some (url_of best))))
  /\ (forall (item : dict) (msg : string),
         _parse_item_art (JDict item) = Raise (Exception msg) ->
         msg = "TYPE INCONNU"
         /\ exists t,
              In t (keys (images_of item))
              /\ ~ In t ["banner"; "landscape"; "portrait"; "square"]).
Proof.
  split.
  - intros item Hshape Hwf.
    destruct (parse_item_art_shaped item Hshape Hwf) as (Hiff & Hbad & Hgood).
    split; [ | split ].
    + rewrite Hiff. apply not_known_type.
    + intros Hu. apply Hbad. now apply not_known_type.
    + intros Hall.
      assert (Hk : forallb known_type (keys (images_of item)) = true).
      { apply forallb_forall. intros t Hin. apply known_type_In. auto. }
      destruct (Hgood Hk) as (art & Ha & Hart).
      exists art. split; [ exact Ha | ].
      intros t image Hin.
      assert (Ht : In t (keys (images_of item))).
      { unfold keys. apply in_map_iff. now exists (t, image). }
      assert (Hkt : known_type t = true) by (apply known_type_In; auto).
      rewrite known_type_mapping in Hkt. unfold has_key in Hkt.
      destruct (lookup t _IMAGE_TYPE_MAPPING) as [ kodi | ] eqn:Hm;
        [ | discriminate ].
      exists kodi. split; [ now apply image_type_mapping_pairs | ].
      destruct (Hart t image kodi Hin Hm) as (_ & Hnone & Hsome).
      split; assumption.
  - intros item msg H. unfold _parse_item_art in H. cbn [py_get rbind] in H.
    destruct (py_items (py_or (dict_get item "images") (JDict [])))
      as [ images | e ] eqn:Ei; cbn [rbind] in H.
    2:{ unfold py_items in Ei.
        destruct (py_or (dict_get item "images") (JDict [])); congruence. }
    assert (Him : images = images_of item).
    { unfold images_of, py_or, py_items in *.
      destruct (dict_get item "images") as [ | b | z | s0 | l | d ];
        cbn [py_truthy] in Ei;
        try (injection Ei as <-; reflexivity);
        try (destruct b; [ discriminate | injection Ei as <-; reflexivity ]).
      - destruct (negb (z =? 0)); [ discriminate | ].
        now injection Ei as <-.
      - destruct (negb (String.eqb s0 "")); [ discriminate | ].
        now injection Ei as <-.
      - destruct l; [ now injection Ei as <- | discriminate ].
      - destruct d; now injection Ei as <-. }
    subst images.
    destruct (parse_images (images_of item) []) as [ art | e ] eqn:Ep;
      cbn [rbind] in H; [ discriminate | ].
    injection H as ->.
    destruct (parse_images_exception _ _ _ Ep) as (Hm & Hex).
    split; [ exact Hm | now apply not_known_type ].
Qed.

Lemma parse_item_art_witness :
  let item :=
    [("images",
      JDict [("landscape",
              JDict [("resolutions",
                      JList [JDict [("w", JInt 400); ("url", JStr "a")];
                             JDict [("w", JInt 1920); ("url", JStr "b")];
                             JDict [("url", JStr "c")]])])])] in
  exists art,
    _parse_item_art (JDict item) = Ok art
    /\ forall t image,
         In (t, image) (images_of item) ->
         exists kodi,
           In (t, kodi)
             [("banner", "banner"); ("landscape", "fanart");
              ("portrait", "poster"); ("square", "thumb")]
           /\ (resolutions_of image = [] -> lookup kodi art = None)
           /\ (resolutions_of image <> [] ->
               exists best,
                 In best (resolutions_of image)
                 /\ (forall r, In r (resolutions_of image) ->
                               width r <= width best)
                 /\ lookup kodi art = Some (url_of best)).
Proof.
  intro item.
  apply (proj1 parse_item_art_raises_iff_unknown_type item).
  - reflexivity.
  - unfold dict_wf. simpl. constructor; [ intros [] | constructor ].
  - intros t [ <- | [] ]. simpl. auto.
Defined.

(* ----------------------------------------------------------------- *)
(** *** Generators *)

Lemma yielded_gbind {A B} (m : gen A) (k : A -> gen B) :
  yielded (gbind m k) =
  match outcome m with
  | Ok a => yielded m ++ yielded (k a)
  | Raise _ => yielded m
  end.
Proof.
  destruct m as [ys [a | e]]; simpl; [ | reflexivity ].
  destruct (k a); reflexivity.
Qed.

Lemma outcome_gbind {A B} (m : gen A) (k : A -> gen B) :
  outcome (gbind m k) =
  match outcome m with
  | Ok a => outcome (k a)
  | Raise e => Raise e
  end.
Proof.
  destruct m as [ys [a | e]]; simpl; [ | reflexivity ].
  destruct (k a); reflexivity.
Qed.

Lemma gbind_lift {A B} (r : result A) (k : A -> gen B) :
  gbind (lift r) k = match r with Ok a => k a | Raise e => ([], Raise e) end.
Proof.
  destruct r as [a | e]; simpl; [ | reflexivity ].
  destruct (k a); reflexivity.
Qed.

Lemma gen_eta {A} (g : gen A) : g = (yielded g, outcome g).
Proof. now destruct g. Qed.

(** A property of every item yielded passes through [;;]. *)
Lemma Forall_yielded_gbind {A B} (P : ParsedItem -> Prop)
    (m : gen A) (k : A -> gen B) :
  Forall P (yielded m) ->
  (forall a, outcome m = Ok a -> Forall P (yielded (k a))) ->
  Forall P (yielded (gbind m k)).
Proof.
  intros Hm Hk. rewrite yielded_gbind.
  destruct (outcome m) as [a | e] eqn:E; [ | exact Hm ].
  apply Forall_app. split; auto.
Qed.

(* ----------------------------------------------------------------- *)
(** *** Routes and parsed items *)

Lemma get_item_url_modes (item : json) (path : string) (index : Z)
    (target : dict) :
  _get_item_url item path index = Ok (Some target) ->
  target <> []
  /\ (dict_get target "mode" = JStr "collection"
      \/ dict_get target "mode" = JStr "watch").
Proof.
  unfold _get_item_url. intros H.
  repeat step_in H; injection H as <-; split; try discriminate; auto.
Qed.

Lemma py_getkey_truthy (d : dict) (k : string) :
  py_truthy (dict_get d k) = true ->
  py_getkey (JDict d) k = Ok (dict_get d k).
Proof.
  unfold py_getkey, dict_get. destruct (lookup k d); [ reflexivity | discriminate ].
Qed.

Section Listing.
Context {datetime : Type}.
Variable isoparse : json -> result datetime.
Variable strftime : datetime -> string -> string.
Variable module_dir : string.

(** [_parse_item] has no path that returns [None]: what it returns is the
    parsed item built on the target it was given, labelled with the title
    of the item, or with the empty string when the title is falsy. *)
Lemma parse_item_returns (item : json) (target : dict)
    (r : option ParsedItem) :
  _parse_item isoparse strftime item target = Ok r ->
  exists p t,
    r = Some p /\ url p = target
    /\ py_get item "title" = Ok t /\ label p = py_or t (JStr "").
Proof.
  unfold _parse_item. intros H.
  repeat step_in H; injection H as <-; eexists; eexists;
    repeat split; reflexivity.
Qed.

Lemma label_cases (t : json) :
  py_or t (JStr "") = JStr "" \/ py_truthy (py_or t (JStr "")) = true.
Proof.
  unfold py_or. destruct (py_truthy t) eqn:E; [ right; exact E | now left ].
Qed.

(** What one turn of the loop yields: nothing, or the one parsed item of
    a routed item. *)
Lemma collection_item_cases (path : string) (index : Z) (item : json) :
  yielded (collection_item isoparse strftime path index item) = []
  \/ exists target p t,
       _get_item_url item path index = Ok (Some target)
       /\ _parse_item isoparse strftime item target = Ok (Some p)
       /\ url p = target
       /\ py_get item "title" = Ok t /\ label p = py_or t (JStr "")
       /\ collection_item isoparse strftime path index item = ([p], Ok tt).
Proof.
  unfold collection_item. rewrite gbind_lift.
  destruct (is_skipped item) as [ [ | ] | e ]; try (now left).
  rewrite gbind_lift.
  destruct (_get_item_url item path index) as [ [ target | ] | e ] eqn:Hu;
    try (now left).
  destruct target as [ | kv target ]; [ now left | ].
  rewrite gbind_lift.
  destruct (_parse_item isoparse strftime item (kv :: target)) as [ r | e ] eqn:Hp;
    [ | now left ].
  destruct (parse_item_returns _ _ _ Hp) as (p & t & -> & Hurl & Ht & Hl).
  right. exists (kv :: target), p, t. repeat split; auto.
Qed.

Lemma collection_item_routed (path : string) (index : Z) (item : json) :
  Forall (fun p => routed p
                   /\ (label p = JStr "" \/ has_label p = true))
    (yielded (collection_item isoparse strftime path index item)).
Proof.
  destruct (collection_item_cases path index item)
    as [ -> | (target & p & t & Hu & _ & Hurl & _ & Hl & ->) ];
    [ constructor | ].
  constructor; [ | constructor ]. split.
  - unfold routed, mode_of. rewrite Hurl.
    now destruct (get_item_url_modes _ _ _ _ Hu).
  - unfold has_label. rewrite Hl. apply label_cases.
Qed.

Lemma collection_loop_routed (path : string) (items : list json) :
  forall index,
    Forall (fun p => routed p
                     /\ (label p = JStr "" \/ has_label p = true))
      (yielded (collection_loop isoparse strftime path index items)).
Proof.
  induction items as [ | item items IH ]; intros index; simpl;
    [ constructor | ].
  apply Forall_yielded_gbind; [ apply collection_item_routed | ].
  intros _ _. apply IH.
Qed.

Lemma regular_items_routed (response : result json) (path : string)
    (level : option Z) :
  Forall (fun p => routed p
                   /\ (label p = JStr "" \/ has_label p = true))
    (yielded (regular_items isoparse strftime response path level)).
Proof.
  unfold regular_items.
  repeat (apply Forall_yielded_gbind; [ | intros ? _ ]);
    try (destruct response; constructor);
    try (simpl; constructor).
  apply collection_loop_routed.
Qed.

Lemma py_get_field (v : json) (k : string) (t : json) :
  py_get v k = Ok t -> t = field_of v k /\ exists d, v = JDict d.
Proof.
  destruct v; simpl; try discriminate.
  intros H; injection H as <-. eauto.
Qed.

Lemma seq_index_In {A} (l : list A) (i : Z) (x : A) :
  seq_index l i = Ok x -> In x l.
Proof.
  unfold seq_index. destruct ((0 <=? _) && _); [ | discriminate ].
  destruct (nth_error l _) eqn:E; [ | discriminate ].
  intros H; injection H as <-. eapply nth_error_In; eauto.
Qed.

Lemma py_iter_objects (v : json) (items : list json) (d : dict) :
  py_iter v = Ok items -> In (JDict d) items -> In (JDict d) (elements_of v).
Proof.
  destruct v; simpl; try discriminate; intros H; injection H as <-.
  - unfold chars. rewrite in_map_iff. intros (c & E & _). discriminate E.
  - auto.
  - rewrite in_map_iff. intros (c & E & _). discriminate E.
Qed.

Lemma elements_of_or (v : json) (x : json) :
  In x (elements_of (py_or v (JList []))) -> In x (elements_of v).
Proof.
  unfold py_or. destruct (py_truthy v); [ auto | intros [] ].
Qed.

Lemma candidates_elements (payload collection x : json) :
  candidates payload = Ok collection ->
  In x (elements_of collection) ->
  In x (elements_of (field_of payload "zones")
        ++ elements_of (field_of payload "data")).
Proof.
  unfold candidates. destruct payload; try discriminate. cbn [py_get rbind].
  intros H; injection H as <-. cbn [field_of].
  intros Hin. apply elements_of_or in Hin. apply in_or_app.
  unfold py_or in Hin. destruct (py_truthy (dict_get d "zones")); auto.
Qed.

(** Every item the loop yields is made from one of the raw items it
    walks: its target is the route of that item and its label the title
    of that item, the empty string standing for a missing title. *)
Lemma collection_loop_titles (path : string) (items : list json) :
  forall start,
    Forall
      (fun p =>
         exists item index,
           In (JDict item) items
           /\ _get_item_url (JDict item) path index = Ok (Some (url p))
           /\ label p = py_or (dict_get item "title") (JStr ""))
      (yielded (collection_loop isoparse strftime path start items)).
Proof.
  induction items as [ | it items IH ]; intros start; simpl;
    [ constructor | ].
  apply Forall_yielded_gbind.
  - destruct (collection_item_cases path start it)
      as [ -> | (target & p & t & Hu & _ & Hurl & Ht & Hl & ->) ];
      [ constructor | ].
    constructor; [ | constructor ].
    destruct (py_get_field _ _ _ Ht) as (-> & d & ->).
    exists d, start. rewrite Hurl. repeat split; auto.
  - intros _ _. eapply Forall_impl; [ | apply (IH (start + 1)) ].
    intros p (item & index & Hin & Hu & Hl).
    exists item, index. repeat split; auto.
Qed.

Lemma regular_items_titles (response : result json) (path : string)
    (level : option Z) :
  Forall
    (fun p =>
       exists payload item index,
         response = Ok payload
         /\ raw_item_of payload (JDict item)
         /\ _get_item_url (JDict item) path index = Ok (Some (url p))
         /\ label p = py_or (dict_get item "title") (JStr ""))
    (yielded (regular_items isoparse strftime response path level)).
Proof.
  unfold regular_items.
  destruct response as [ payload | e ]; [ | constructor ].
  rewrite gbind_lift.
  destruct (candidates payload) as [ collection | e ] eqn:Hc;
    rewrite gbind_lift; [ | constructor ].
  destruct (descend payload collection level) as [ [data items] | e ] eqn:Hd;
    rewrite gbind_lift; [ | constructor ].
  cbn [fst snd].
  destruct (py_iter items) as [ its | e ] eqn:Hi; rewrite gbind_lift;
    [ | constructor ].
  apply Forall_yielded_gbind; [ | intros; constructor ].
  eapply Forall_impl; [ | apply (collection_loop_titles path its 0) ].
  intros p (item & index & Hin & Hu & Hl).
  exists payload, item, index. repeat split; auto.
  assert (Hitem := py_iter_objects _ _ _ Hi Hin).
  assert (Htop : forall x, In x (elements_of collection) ->
                 In x (elements_of (field_of payload "zones")
                       ++ elements_of (field_of payload "data")))
    by (intros x; now apply candidates_elements).
  unfold raw_item_of. cbv zeta.
  assert (Hsame : (data, items) = (payload, collection) ->
                  In (JDict item)
                    (elements_of (field_of payload "zones")
                     ++ elements_of (field_of payload "data"))).
  { intros E. injection E as _ ->. now apply Htop. }
  unfold descend in Hd. destruct level as [ lv | ].
  2:{ left. apply Hsame. congruence. }
  destruct (py_len collection) as [ n | e ]; cbn [rbind] in Hd;
    [ | discriminate ].
  destruct (lv <? n).
  2:{ left. apply Hsame. congruence. }
  destruct (py_getitem collection lv) as [ zone | e ] eqn:Hz;
    cbn [rbind] in Hd; [ | discriminate ].
  destruct (py_get zone "data") as [ d | e ] eqn:Hzd; cbn [rbind] in Hd;
    [ | discriminate ].
  injection Hd as <- <-.
  destruct (py_get_field _ _ _ Hzd) as (-> & z & ->).
  right. exists (JDict z). split.
  - apply Htop. destruct collection; try discriminate Hz.
    + cbn [py_getitem] in Hz. apply seq_index_In in Hz.
      unfold chars in Hz. apply in_map_iff in Hz.
      destruct Hz as (c & E & _). discriminate E.
    + cbn [py_getitem elements_of] in *. now apply seq_index_In in Hz.
  - now apply elements_of_or.
Qed.

(** C2, as the code has it.  For every response to the catalog request,
    every path and every level, each item [get_collection] yields has a
    target whose mode is collection or watch, and a label that is either
    non-empty or the empty string.  The item is either made from a raw
    item of the payload (one of its zones or data, or of the data of one
    of these): its target is the route of that raw item and its label is
    the title of that raw item, the empty string standing for a missing
    or falsy title; or it is the next-page item, whose label is the
    fixed [$LOCALIZE[30201]], whose mode is collection and whose
    properties are the bottom sort marker. *)
Theorem get_collection_items_routed (self : ArteTV) (response : result json)
    (path : string) (level : option Z) :
  Forall
    (fun p =>
       routed p
       /\ (label p = JStr "" \/ has_label p = true)
       /\ ((exists payload item index,
               response = Ok payload
               /\ raw_item_of payload (JDict item)
               /\ _get_item_url (JDict item) path index = Ok (Some (url p))
               /\ label p = py_or (dict_get item "title") (JStr ""))
           \/ (label p = JStr "$LOCALIZE[30201]"
               /\ mode_of p = JStr "collection"
               /\ properties p = [("SpecialSort", JStr "bottom")])))
    (yielded (get_collection isoparse strftime module_dir self
                response path level)).
Proof.
  unfold get_collection.
  apply Forall_yielded_gbind.
  - assert (H1 := regular_items_routed response path level).
    assert (H2 := regular_items_titles response path level).
    rewrite Forall_forall in *. intros p Hin.
    destruct (H1 p Hin) as [Hr Hl].
    split; [ exact Hr | split; [ exact Hl | left; now apply H2 ] ].
  - intros data _.
    apply Forall_yielded_gbind; [ constructor | ]. intros next_page _.
    destruct (py_truthy next_page); [ | constructor ].
    apply Forall_yielded_gbind; [ constructor | ]. intros np _.
    apply Forall_yielded_gbind; [ constructor | ]. intros next_path _.
    simpl. constructor; [ | constructor ].
    split; [ now left | split; [ now right | right ] ].
    repeat split.
Qed.

End Listing.

Section Parsing.
Context {datetime : Type}.
Variable isoparse : json -> result datetime.
Variable strftime : datetime -> string -> string.




End Parsing.

(* ----------------------------------------------------------------- *)
(** *** [str.replace] on a prefix *)

Lemma prefix_app (a b : string) : String.prefix a (a ++ b)%string = true.
Proof.
  induction a as [ | c a IH ]; simpl; [ now destruct b | ].
  destruct (ascii_dec c c); [ exact IH | congruence ].
Qed.

Lemma replace_from_skip (old new a b : string) :
  replace_from old new (String.length a) (a ++ b)%string
  = replace_from old new O b.
Proof.
  induction a as [ | c a IH ]; simpl; [ now destruct b | exact IH ].
Qed.

(** A string that starts with [old] loses it, and the rest is searched
    on. *)
Lemma str_replace_prefix (old new rest : string) :
  old <> "" ->
  str_replace (old ++ rest) old new
  = (new ++ str_replace rest old new)%string.
Proof.
  destruct old as [ | c old ]; [ congruence | intros _ ].
  unfold str_replace.
  change ((String c old ++ rest)%string) with (String c (old ++ rest)%string).
  cbn [replace_from].
  change (String c (old ++ rest)%string) with ((String c old ++ rest)%string).
  rewrite prefix_app. cbn [String.length Nat.pred].
  now rewrite replace_from_skip.
Qed.

(* ----------------------------------------------------------------- *)
(** *** The next page, and the level *)

Section Paging.
Context {datetime : Type}.
Variable isoparse : json -> result datetime.
Variable strftime : datetime -> string -> string.
Variable module_dir : string.

Lemma regular_items_no_level (response : result json) (path : string)
    (ys : list ParsedItem) (data : json) :
  regular_items isoparse strftime response path None = (ys, Ok data) ->
  response = Ok data.
Proof.
  intros H. apply (f_equal outcome) in H. cbn [outcome snd] in H.
  unfold regular_items in H.
  destruct response as [ d | e ]; [ | discriminate ].
  rewrite gbind_lift in H.
  destruct (candidates d) as [ c | e ]; rewrite gbind_lift in H;
    [ | discriminate ].
  cbn [descend] in H. rewrite gbind_lift in H. cbn [fst snd] in H.
  rewrite outcome_gbind in H.
  destruct (outcome (lift (py_iter c))); [ | discriminate ].
  rewrite outcome_gbind in H.
  destruct (outcome (collection_loop isoparse strftime path 0 a));
    [ | discriminate ].
  cbn in H. congruence.
Qed.

Lemma seq_index_position {A} (l : list A) (i : Z) (x : A) :
  seq_index l i = Ok x ->
  nth_error l
    (Z.to_nat (if i <? 0 then Z.of_nat (List.length l) + i else i))
  = Some x.
Proof.
  unfold seq_index. destruct ((0 <=? _) && _); [ | discriminate ].
  destruct (nth_error l _); [ congruence | discriminate ].
Qed.

(** The walk stops with [AttributeError] on a first item that is not an
    object. *)
Lemma collection_loop_not_object (path : string) (start : Z) (x : json)
    (rest : list json) :
  (forall d, x <> JDict d) ->
  collection_loop isoparse strftime path start (x :: rest)
  = ([], Raise AttributeError).
Proof.
  intros Hx. cbn [collection_loop]. unfold collection_item, is_skipped.
  destruct x; try reflexivity. elim (Hx d). reflexivity.
Qed.

(** A walk that ends without an exception has gone over a list: the
    candidates of the payload are a list, and the object [get_collection]
    calls [data] when the walk ends is the payload itself when there is
    no level, or one that is not below the number of candidates, and the
    candidate at the level otherwise, counted from the end when the
    level is negative. *)
Lemma regular_items_data (response : result json) (path : string)
    (level : option Z) (ys : list ParsedItem) (data : json) :
  regular_items isoparse strftime response path level = (ys, Ok data) ->
  exists payload l,
    response = Ok payload
    /\ candidates payload = Ok (JList l)
    /\ match level with
       | None => data = payload
       | Some lv =>
           if lv <? Z.of_nat (List.length l)
           then nth_error l
                  (Z.to_nat (if lv <? 0
                             then Z.of_nat (List.length l) + lv else lv))
                = Some data
           else data = payload
       end.
Proof.
  intros H. unfold regular_items in H.
  destruct response as [ payload | e ]; [ | discriminate ].
  rewrite gbind_lift in H.
  destruct (candidates payload) as [ collection | e ] eqn:Hc;
    rewrite gbind_lift in H; [ | discriminate ].
  destruct (descend payload collection level) as [ [d items] | e ] eqn:Hd;
    rewrite gbind_lift in H; [ | discriminate ].
  cbn [fst snd] in H.
  destruct (py_iter items) as [ its | e ] eqn:Hi; rewrite gbind_lift in H;
    [ | discriminate ].
  assert (Hout : outcome (collection_loop isoparse strftime path 0 its)
                 = Ok tt /\ d = data).
  { apply (f_equal outcome) in H. rewrite outcome_gbind in H.
    cbn [outcome snd] in H.
    destruct (outcome (collection_loop isoparse strftime path 0 its))
      as [ [] | ]; [ | discriminate H ].
    cbn in H. split; [ reflexivity | congruence ]. }
  destruct Hout as [Hloop ->].
  assert (Hcand : exists pd, payload = JDict pd
            /\ collection = py_or (py_or (dict_get pd "zones")
                                     (dict_get pd "data")) (JList [])).
  { unfold candidates in Hc. destruct payload; try discriminate Hc.
    cbn [py_get rbind] in Hc. injection Hc as <-. eauto. }
  assert (Hwalked : (data, items) = (payload, collection) ->
                    exists l, collection = JList l).
  { intros E. injection E as _ ->.
    destruct collection as [ | b | z | c | l | cd ];
      try discriminate Hi; [ | now exists l | ].
    - cbn [py_iter] in Hi. injection Hi as <-.
      destruct c as [ | a c ].
      + destruct Hcand as (pd & _ & E). exfalso.
        unfold py_or in E.
        destruct (py_truthy (if py_truthy (dict_get pd "zones")
                             then dict_get pd "zones"
                             else dict_get pd "data")) eqn:Et;
          [ rewrite <- E in Et; discriminate Et | discriminate E ].
      + cbn [chars list_ascii_of_string map] in Hloop.
        rewrite collection_loop_not_object in Hloop by discriminate.
        discriminate Hloop.
    - cbn [py_iter] in Hi. injection Hi as <-.
      destruct cd as [ | kv cd ].
      + destruct Hcand as (pd & _ & E). exfalso.
        unfold py_or in E.
        destruct (py_truthy (if py_truthy (dict_get pd "zones")
                             then dict_get pd "zones"
                             else dict_get pd "data")) eqn:Et;
          [ rewrite <- E in Et; discriminate Et | discriminate E ].
      + cbn [map] in Hloop.
        rewrite collection_loop_not_object in Hloop by discriminate.
        discriminate Hloop. }
  unfold descend in Hd. destruct level as [ lv | ].
  2:{ injection Hd as <- <-. destruct (Hwalked eq_refl) as (l & ->).
      exists payload, l. repeat split. exact Hc. }
  destruct (py_len collection) as [ n | e ] eqn:Hn; cbn [rbind] in Hd;
    [ | discriminate ].
  destruct (lv <? n) eqn:Hlt.
  2:{ injection Hd as <- <-. destruct (Hwalked eq_refl) as (l & ->).
      exists payload, l. cbn [py_len] in Hn. injection Hn as <-.
      rewrite Hlt. repeat split. exact Hc. }
  destruct (py_getitem collection lv) as [ zone | e ] eqn:Hz;
    cbn [rbind] in Hd; [ | discriminate ].
  destruct (py_get zone "data") as [ zd | e ] eqn:Hzd; cbn [rbind] in Hd;
    [ | discriminate ].
  injection Hd as -> <-.
  destruct data as [ | | | | | z ]; try discriminate Hzd.
  destruct collection as [ | | | c | l | ]; try discriminate Hz.
  - cbn [py_getitem] in Hz. apply seq_index_In in Hz.
    unfold chars in Hz. apply in_map_iff in Hz.
    destruct Hz as (a & E & _). discriminate E.
  - exists payload, l. cbn [py_len] in Hn. injection Hn as <-.
    rewrite Hlt. split; [ reflexivity | split; [ exact Hc | ] ].
    cbn [py_getitem] in Hz. now apply seq_index_position.
Qed.

(** C4, as the code has it.  [get_collection] reads [nextPage] from the
    object it has been walking: the payload when no level is given or
    when the level is not below the number of candidates, the candidate
    at the level otherwise (counted from the end for a negative level).
    When the walk ends without an exception and that object has a
    non-empty string [nextPage], exactly one more item is yielded, after
    the regular ones: its target is the collection whose path is
    [nextPage] with the occurrences of the catalog URL of the client
    removed, and its properties are the bottom sort marker.  The catalog
    URL ends in [/app], so that the path keeps the [/] that followed
    it.  Without a [nextPage] nothing is added. *)
Theorem get_collection_next_page (self : ArteTV) (response : result json)
    (path : string) (level : option Z) (ys : list ParsedItem) (data : json) :
  regular_items isoparse strftime response path level = (ys, Ok data) ->
  (forall np,
      py_get data "nextPage" = Ok (JStr np) -> np <> "" ->
      let more :=
        next_page_item module_dir
          (JStr (str_replace np (_api_v3_url self) "")) in
      get_collection isoparse strftime module_dir self response path level
      = (ys ++ [more], Ok tt)
      /\ url more
         = to_collection (JStr (str_replace np (_api_v3_url self) ""))
      /\ properties more = [("SpecialSort", JStr "bottom")]
      /\ (forall rest,
             _api_v3_url self <> "" ->
             np = (_api_v3_url self ++ rest)%string ->
             str_replace np (_api_v3_url self) ""
             = str_replace rest (_api_v3_url self) ""))
  /\ (forall v,
         py_get data "nextPage" = Ok v -> py_truthy v = false ->
         get_collection isoparse strftime module_dir self response path level
         = (ys, Ok tt))
  /\ (level = None -> response = Ok data)
  /\ (exists payload l,
         response = Ok payload
         /\ candidates payload = Ok (JList l)
         /\ match level with
            | None => data = payload
            | Some lv =>
                if lv <? Z.of_nat (List.length l)
                then nth_error l
                       (Z.to_nat (if lv <? 0
                                  then Z.of_nat (List.length l) + lv
                                  else lv))
                     = Some data
                else data = payload
            end).
Proof.
  intros Hwalk. split; [ | split; [ | split ] ].
  - intros np Hnp Hne more. split; [ | split; [ reflexivity | split ] ].
    + unfold get_collection. rewrite Hwalk. cbn [gbind].
      rewrite gbind_lift, Hnp.
      assert (Ht : py_truthy (JStr np) = true).
      { cbn. apply negb_true_iff. now apply String.eqb_neq. }
      rewrite Ht.
      destruct data as [ | | | | | d ]; try discriminate Hnp.
      cbn [py_get] in Hnp. injection Hnp as Hnp.
      rewrite gbind_lift, (py_getkey_truthy d "nextPage")
        by (rewrite Hnp; exact Ht).
      rewrite Hnp. rewrite gbind_lift. cbn [py_replace]. reflexivity.
    + reflexivity.
    + intros rest Hu ->.
      now rewrite (str_replace_prefix (_api_v3_url self) "" rest Hu).
  - intros v Hv Hf. unfold get_collection. rewrite Hwalk. cbn [gbind].
    rewrite gbind_lift, Hv, Hf. cbn. now rewrite app_nil_r.
  - intros ->. now apply regular_items_no_level with (path := path) (ys := ys).
  - now apply regular_items_data with (path := path) (ys := ys).
Qed.

(** C10.  A negative level passes the test [level < len(collection)].
    On a non-empty candidate list, a level that is not below [-len]
    selects the candidate counted from the end,
    [collection[len + level]], and the call goes on exactly as with that
    index: what it lists is that candidate.  When the candidate is not
    an object the call raises [AttributeError]; when it is, the items
    yielded are those of the walk over its [data], an exception of the
    walk ends the call, and after a walk without exception the next page
    is the one of the candidate.  On an empty candidate list, and for
    any level below [-len], the call raises [IndexError] before anything
    is yielded. *)
Theorem get_collection_negative_level (self : ArteTV) (data : json)
    (path : string) (l : list json) (level : Z) :
  candidates data = Ok (JList l) ->
  level < 0 ->
  (l <> [] -> - Z.of_nat (List.length l) <= level ->
   exists zone,
     nth_error l (Z.to_nat (Z.of_nat (List.length l) + level)) = Some zone
     /\ descend data (JList l) (Some level)
        = (d <- py_get zone "data" ;; Ok (zone, py_or d (JList [])))
     /\ get_collection isoparse strftime module_dir self (Ok data) path
          (Some level)
        = get_collection isoparse strftime module_dir self (Ok data) path
            (Some (Z.of_nat (List.length l) + level))
     /\ ((forall z, zone <> JDict z) ->
         get_collection isoparse strftime module_dir self (Ok data) path
           (Some level)
         = ([], Raise AttributeError))
     /\ (forall z items,
            zone = JDict z ->
            py_iter (py_or (dict_get z "data") (JList [])) = Ok items ->
            let walk := collection_loop isoparse strftime path 0 items in
            (forall e,
                outcome walk = Raise e ->
                get_collection isoparse strftime module_dir self (Ok data)
                  path (Some level)
                = (yielded walk, Raise e))
            /\ (outcome walk = Ok tt ->
                py_truthy (dict_get z "nextPage") = false ->
                get_collection isoparse strftime module_dir self (Ok data)
                  path (Some level)
                = (yielded walk, Ok tt))
            /\ (outcome walk = Ok tt ->
                forall np,
                  dict_get z "nextPage" = JStr np -> np <> "" ->
                  get_collection isoparse strftime module_dir self (Ok data)
                    path (Some level)
                  = (yielded walk
                     ++ [next_page_item module_dir
                           (JStr (str_replace np (_api_v3_url self) ""))],
                     Ok tt))))
  /\ (l = [] ->
      get_collection isoparse strftime module_dir self (Ok data) path
        (Some level)
      = ([], Raise IndexError))
  /\ (level < - Z.of_nat (List.length l) ->
      get_collection isoparse strftime module_dir self (Ok data) path
        (Some level)
      = ([], Raise IndexError)).
Proof.
  intros Hc Hneg.
  assert (Hout : level < - Z.of_nat (List.length l) ->
                 get_collection isoparse strftime module_dir self (Ok data)
                   path (Some level)
                 = ([], Raise IndexError)).
  { intros Hlow. unfold get_collection, regular_items.
    rewrite !gbind_lift, Hc, !gbind_lift.
    unfold descend. cbn [py_len rbind py_getitem].
    replace (level <? Z.of_nat (List.length l)) with true
      by (symmetry; apply Z.ltb_lt; lia).
    unfold seq_index.
    replace (level <? 0) with true by (symmetry; apply Z.ltb_lt; lia).
    replace ((0 <=? Z.of_nat (List.length l) + level)
             && (Z.of_nat (List.length l) + level
                 <? Z.of_nat (List.length l))) with false
      by (symmetry; apply andb_false_iff; left; apply Z.leb_gt; lia).
    reflexivity. }
  split; [ | split; [ | exact Hout ] ].
  - intros Hne Hlow.
    set (n := Z.of_nat (List.length l)) in *.
    assert (Hn : 0 < n) by (subst n; destruct l; simpl; [ congruence | lia ]).
    assert (Hidx : seq_index l level = seq_index l (n + level)).
    { unfold seq_index. fold n.
      replace (level <? 0) with true by (symmetry; apply Z.ltb_lt; lia).
      replace (n + level <? 0) with false by (symmetry; apply Z.ltb_ge; lia).
      reflexivity. }
    assert (Hsome : exists zone,
               nth_error l (Z.to_nat (n + level)) = Some zone).
    { destruct (nth_error l (Z.to_nat (n + level))) as [ zone | ] eqn:E;
        [ now exists zone | ].
      apply nth_error_None in E. subst n. lia. }
    destruct Hsome as (zone & Hz). exists zone.
    assert (Hd : descend data (JList l) (Some level)
                 = descend data (JList l) (Some (n + level))).
    { unfold descend. cbn [py_len rbind py_getitem]. fold n.
      replace (level <? n) with true by (symmetry; apply Z.ltb_lt; lia).
      replace (n + level <? n) with true by (symmetry; apply Z.ltb_lt; lia).
      now rewrite Hidx. }
    assert (Hdz : descend data (JList l) (Some level)
                  = (d <- py_get zone "data" ;; Ok (zone, py_or d (JList [])))).
    { rewrite Hd. unfold descend. cbn [py_len rbind py_getitem]. fold n.
      replace (n + level <? n) with true by (symmetry; apply Z.ltb_lt; lia).
      unfold seq_index. fold n.
      replace (n + level <? 0) with false by (symmetry; apply Z.ltb_ge; lia).
      replace ((0 <=? n + level) && (n + level <? n)) with true
        by (symmetry; apply andb_true_iff; split;
            [ apply Z.leb_le | apply Z.ltb_lt ]; lia).
      rewrite Hz. reflexivity. }
    split; [ exact Hz | split; [ exact Hdz | split; [ | split ] ] ].
    + unfold get_collection, regular_items.
      rewrite !gbind_lift, Hc, !gbind_lift, Hd. reflexivity.
    + intros Hno. unfold get_collection, regular_items.
      rewrite !gbind_lift, Hc, !gbind_lift, Hdz.
      destruct zone; try reflexivity. elim (Hno d). reflexivity.
    + intros z items -> Hi walk.
      assert (E : get_collection isoparse strftime module_dir self (Ok data)
                    path (Some level)
                  = (d <~ (_ <~ walk ;; gret (JDict z)) ;;
                     next_page <~ lift (py_get d "nextPage") ;;
                     if py_truthy next_page
                     then
                       np <~ lift (py_getkey d "nextPage") ;;
                       next_path <~ lift (py_replace np (_api_v3_url self) "") ;;
                       yield (next_page_item module_dir next_path)
                     else gret tt)).
      { unfold get_collection, regular_items.
        rewrite !gbind_lift, Hc, !gbind_lift, Hdz.
        cbn [py_get rbind]. rewrite gbind_lift. cbn [fst snd].
        rewrite Hi. reflexivity. }
      rewrite E. clear E.
      destruct walk as [ws [ [] | e0 ]]; cbn [yielded outcome fst snd].
      * split; [ intros e He; discriminate He | ].
        cbn [gbind gret]. rewrite app_nil_r.
        split.
        -- intros _ Hf. rewrite gbind_lift. cbn [py_get]. rewrite Hf.
           cbn. now rewrite !app_nil_r.
        -- intros _ np Hnp Hnn.
           assert (Ht : py_truthy (JStr np) = true).
           { cbn. apply negb_true_iff. now apply String.eqb_neq. }
           rewrite gbind_lift. cbn [py_get]. rewrite Hnp, Ht.
           rewrite gbind_lift.
           rewrite (py_getkey_truthy z "nextPage") by (rewrite Hnp; exact Ht).
           rewrite Hnp. reflexivity.
      * split; [ | split; intros He; discriminate He ].
        intros e He. injection He as ->. reflexivity.
  - intros ->. apply Hout. simpl. lia.
Qed.

End Paging.

(* ----------------------------------------------------------------- *)
(** *** [get_video_streams] *)

Lemma streams_loop_cons (stream : json) (rest : list json) (acc : odict) :
  streams_loop (stream :: rest) acc =
  (u <- py_get stream "url" ;;
   if negb (py_truthy u) then streams_loop rest acc
   else
     v <- py_get stream "versions" ;;
     if negb (py_truthy v) then streams_loop rest acc
     else
       versions <- py_getkey stream "versions" ;;
       stream_data <- py_getitem versions 0 ;;
       s <- py_get stream_data "shortLabel" ;;
       if negb (py_truthy s) then streams_loop rest acc
       else
         l <- py_get stream_data "label" ;;
         if negb (py_truthy l) then streams_loop rest acc
         else
           short_label <- py_getkey stream_data "shortLabel" ;;
           long_label <- py_getkey stream_data "label" ;;
           stream_url <- py_getkey stream "url" ;;
           acc' <- odict_setitem acc short_label
                     (mkStream long_label stream_url) ;;
           streams_loop rest acc').
Proof. reflexivity. Qed.

(** A group without a URL or without versions is passed over, whatever
    else it holds. *)
Lemma streams_loop_skip (g : dict) (rest : list json) (acc : odict) :
  has_url_and_version g = false ->
  streams_loop (JDict g :: rest) acc = streams_loop rest acc.
Proof.
  unfold has_url_and_version. intros H. rewrite streams_loop_cons.
  cbn [py_get rbind].
  destruct (py_truthy (dict_get g "url")); [ | reflexivity ].
  simpl in H. rewrite H. reflexivity.
Qed.

(** One turn of the loop, on a group of the expected shape. *)
Lemma streams_loop_step (group : json) (rest : list json) (acc : odict) :
  group_ok group = true ->
  streams_loop (group :: rest) acc = streams_loop rest (record acc group).
Proof.
  destruct group as [ | | | | | g ]; try discriminate.
  unfold group_ok, record, contribution, first_version, has_url_and_version,
    lacks_either.
  intros Hok. rewrite streams_loop_cons. cbn [py_get rbind].
  destruct (py_truthy (dict_get g "url")) eqn:Hu; cbn [negb orb andb] in *.
  2:{ destruct (dict_get g "versions") as [ | | | | [ | [ | | | | | v ] ? ] | ];
        reflexivity. }
  destruct (py_truthy (dict_get g "versions")) eqn:Hv; cbn [negb].
  2:{ destruct (dict_get g "versions") as [ | | | | [ | [ | | | | | v ] ? ] | ];
        try reflexivity; discriminate. }
  rewrite (py_getkey_truthy g "versions" Hv).
  rewrite (py_getkey_truthy g "url" Hu). cbn [rbind].
  destruct (dict_get g "versions") as [ | | | | [ | [ | | | | | v ] vs ] | ];
    try discriminate; try (rewrite Hv in Hok; discriminate Hok).
  cbn [py_getitem]. unfold seq_index.
  change (0 <? 0) with false. cbv iota.
  replace ((0 <=? 0) && (0 <? Z.of_nat (List.length (JDict v :: vs))))
    with true by (cbn [List.length]; symmetry; apply andb_true_iff; split;
                  [ reflexivity | apply Z.ltb_lt; lia ]).
  cbn [Z.to_nat nth_error rbind py_get].
  destruct (py_truthy (dict_get v "shortLabel")) eqn:Hs; cbn [negb orb andb];
    [ | reflexivity ].
  destruct (py_truthy (dict_get v "label")) eqn:Hl; cbn [negb orb andb];
    [ | reflexivity ].
  rewrite (py_getkey_truthy v "shortLabel" Hs).
  rewrite (py_getkey_truthy v "label" Hl). cbn [rbind].
  unfold odict_setitem. cbn [negb orb] in Hok. rewrite Hok. reflexivity.
Qed.

Lemma streams_loop_shaped (groups : list json) :
  forallb group_ok groups = true ->
  forall acc, streams_loop groups acc = Ok (fold_left record groups acc).
Proof.
  induction groups as [ | g groups IH ]; intros Hok acc; [ reflexivity | ].
  simpl in Hok. apply andb_true_iff in Hok. destruct Hok as [Hg Hok].
  rewrite (streams_loop_step g groups acc Hg). now apply IH.
Qed.

Lemma streams_loop_nothing (groups : list json) (acc : odict) :
  Forall (fun group => exists g, group = JDict g
                                 /\ has_url_and_version g = false) groups ->
  streams_loop groups acc = Ok acc.
Proof.
  induction 1 as [ | group groups (g & -> & Hg) _ IH ]; [ reflexivity | ].
  now rewrite streams_loop_skip.
Qed.

(** From the response to the stream groups. *)
Lemma get_video_streams_groups (payload : dict) :
  optional_object (dict_get payload "data") = true ->
  optional_object (nested payload "data" "attributes") = true ->
  get_video_streams (Ok (JDict payload))
  = (groups <- py_iter (py_or (player_streams payload) (JList [])) ;;
     streams_loop groups []).
Proof.
  intros Hd Ha. unfold get_video_streams. cbn [rbind py_get].
  unfold player_streams, nested in *.
  destruct (dict_get payload "data") as [ | [ | ] | z | s | [ | ? ? ] | [ | kv d ] ];
    try discriminate Hd; try reflexivity.
  - cbn in Hd. apply negb_true_iff, negb_false_iff, Z.eqb_eq in Hd. subst z. reflexivity.
  - cbn in Hd. apply negb_true_iff, negb_false_iff, String.eqb_eq in Hd.
    subst s. reflexivity.
  - unfold py_or at 1. cbn [py_truthy py_get rbind].
    destruct (dict_get (kv :: d) "attributes")
      as [ | [ | ] | z | s | [ | ? ? ] | [ | kv' a ] ];
      try discriminate Ha; try reflexivity.
    + cbn in Ha. apply negb_true_iff, negb_false_iff, Z.eqb_eq in Ha. subst z. reflexivity.
    + cbn in Ha. apply negb_true_iff, negb_false_iff, String.eqb_eq in Ha.
      subst s. reflexivity.
Qed.

(** C3, as the code has it.  On a player payload of the expected shape,
    [get_video_streams] returns the ordered mapping obtained by visiting
    the stream groups in order and recording, for each group that has a
    URL and versions and whose first version has both a short code and a
    label, the stream (label, group URL) under the short code: a first
    version that lacks either of the two is passed over.  When no group
    has both a URL and a version the mapping is empty, and an empty
    payload or a payload without [data], [attributes] or [streams] gives
    the empty mapping without an exception. *)
Theorem get_video_streams_first_versions :
  (forall payload : dict,
      payload_ok payload = true ->
      get_video_streams (Ok (JDict payload))
      = Ok (fold_left record (stream_groups payload) []))
  /\ (forall payload : dict,
         optional_object (dict_get payload "data") = true ->
         optional_object (nested payload "data" "attributes") = true ->
         Forall (fun group => exists g, group = JDict g
                                        /\ has_url_and_version g = false)
           (stream_groups payload) ->
         py_truthy (player_streams payload) = false
         \/ (exists l, player_streams payload = JList l) ->
         get_video_streams (Ok (JDict payload)) = Ok [])
  /\ get_video_streams (Ok (JDict [])) = Ok []
  /\ (forall payload : dict,
         py_truthy (dict_get payload "data") = false ->
         get_video_streams (Ok (JDict payload)) = Ok [])
  /\ (forall payload : dict,
         optional_object (dict_get payload "data") = true ->
         py_truthy (nested payload "data" "attributes") = false ->
         get_video_streams (Ok (JDict payload)) = Ok [])
  /\ (forall payload : dict,
         optional_object (dict_get payload "data") = true ->
         optional_object (nested payload "data" "attributes") = true ->
         py_truthy (player_streams payload) = false ->
         get_video_streams (Ok (JDict payload)) = Ok []).
Proof.
  assert (Hfalsy : forall payload : dict,
             optional_object (dict_get payload "data") = true ->
             optional_object (nested payload "data" "attributes") = true ->
             py_truthy (player_streams payload) = false ->
             get_video_streams (Ok (JDict payload)) = Ok []).
  { intros payload Hd Ha Hs. rewrite (get_video_streams_groups payload Hd Ha).
    unfold py_or. rewrite Hs. reflexivity. }
  assert (Hopt : forall v, py_truthy v = false -> optional_object v = true).
  { intros v Hv. destruct v; cbn in *; try rewrite Hv; reflexivity. }
  repeat split.
  - intros payload Hok. unfold payload_ok in Hok.
    apply andb_true_iff in Hok. destruct Hok as [Hok Hs].
    apply andb_true_iff in Hok. destruct Hok as [Hd Ha].
    destruct (py_truthy (player_streams payload)) eqn:Ht.
    + rewrite (get_video_streams_groups payload Hd Ha).
      unfold py_or, stream_groups. rewrite Ht.
      destruct (player_streams payload) as [ | | | | l | ];
        try (rewrite Ht in Hs; discriminate Hs).
      cbn [py_iter rbind]. now apply streams_loop_shaped.
    + rewrite (Hfalsy payload Hd Ha Ht). unfold stream_groups.
      destruct (player_streams payload) as [ | | | | [ | ? ? ] | ];
        try reflexivity; discriminate.
  - intros payload Hd Ha Hall [ Hs | (l & Hs) ]; [ now apply Hfalsy | ].
    rewrite (get_video_streams_groups payload Hd Ha).
    unfold stream_groups in Hall. rewrite Hs in *.
    unfold py_or. destruct (py_truthy (JList l)); cbn [py_iter rbind];
      [ now apply streams_loop_nothing | reflexivity ].
  - intros payload Hd. apply Hfalsy; auto.
    + unfold nested.
      destruct (dict_get payload "data") as [ | | | | | [ | ? ? ] ];
        try reflexivity; discriminate.
    + unfold player_streams, nested.
      destruct (dict_get payload "data") as [ | | | | | [ | ? ? ] ];
        try reflexivity; discriminate.
  - intros payload Hd Ha. apply Hfalsy; auto.
    unfold player_streams.
    destruct (nested payload "data" "attributes") as [ | | | | | [ | ? ? ] ];
      try reflexivity; discriminate.
  - exact Hfalsy.
Qed.

(* ----------------------------------------------------------------- *)
(** *** [ArteTV.__init__] *)

(** C5, as the code has it.  The constructor accepts every language
    code: it stores it and puts it in the catalog URL, and has no test
    against [LANGUAGES]. *)
Theorem init_accepts_any_language (language : string) :
  exists self,
    __init__ language = Ok self
    /\ _language self = language
    /\ _api_v3_url self
       = (_API_V3_BASE_URL ++ "/" ++ language ++ "/app")%string.
Proof.
  eexists. repeat split.
Qed.

(* ================================================================= *)
(** ** Properties of the navigation controller *)

Section Controller.
Context {K : Kodi}.

Lemma count_events_app (p : event -> bool) (t t' : list event) :
  count_events p (t ++ t') = (count_events p t + count_events p t')%nat.
Proof.
  unfold count_events. now rewrite filter_app, length_app.
Qed.

Lemma quiet_ret {A} (a : A) : quiet (ret a).
Proof.
  intros h. exists []. simpl. now rewrite app_nil_r.
Qed.

Lemma quiet_liftR {A} (r : result A) : quiet (liftR r).
Proof.
  intros h. exists []. simpl. now rewrite app_nil_r.
Qed.

Lemma quiet_on_world {A} (f : W -> A * W) : quiet (on_world f).
Proof.
  intros h. exists []. unfold on_world. destruct (f (world h)). simpl.
  now rewrite app_nil_r.
Qed.

Lemma quiet_on_world_result {A} (f : W -> result A * W) :
  quiet (on_world_result f).
Proof.
  intros h. exists []. unfold on_world_result. destruct (f (world h)). simpl.
  now rewrite app_nil_r.
Qed.

Lemma quiet_emit (e : event) :
  is_end_of_directory e = false -> quiet (emit e).
Proof.
  intros He h. exists [e]. simpl. split; [ reflexivity | ].
  unfold count_events. simpl. now rewrite He.
Qed.

Lemma quiet_bind {A B} (m : M A) (k : A -> M B) :
  quiet m -> (forall a, quiet (k a)) -> quiet (bind m k).
Proof.
  intros Hm Hk h. unfold bind.
  destruct (Hm h) as (t & Ht & Hc).
  destruct (m h) as [ [ a | e ] h' ]; simpl in Ht.
  - destruct (Hk a h') as (t' & Ht' & Hc').
    exists (t ++ t'). rewrite Ht', Ht, app_assoc. split; [ reflexivity | ].
    rewrite count_events_app. now rewrite Hc, Hc'.
  - exists t. auto.
Qed.

Lemma quiet_for_each {A} (l : list A) (body : A -> M unit) :
  (forall x, quiet (body x)) -> quiet (for_each l body).
Proof.
  intros Hb. induction l as [ | x l IH ]; simpl.
  - apply quiet_ret.
  - apply quiet_bind; [ apply Hb | intros _; exact IH ].
Qed.

(** Walk down a handler, one statement at a time. *)
Ltac quiet_step :=
  match goal with
  | |- quiet (bind _ _) => apply quiet_bind; [ | intros ? ]
  | |- quiet (ret _) => apply quiet_ret
  | |- quiet (liftR _) => apply quiet_liftR
  | |- quiet (on_world _) => apply quiet_on_world
  | |- quiet (on_world_result _) => apply quiet_on_world_result
  | |- quiet (emit _) => apply quiet_emit; reflexivity
  | |- quiet (for_each _ _) => apply quiet_for_each; intros ?
  | |- quiet (if ?c then _ else _) => destruct c
  | |- quiet (match ?x with _ => _ end) => destruct x
  end.

Lemma quiet_api_get_video_streams (api : ArteTV) (video_id : string) :
  quiet (api_get_video_streams api video_id).
Proof.
  unfold api_get_video_streams, _query_player_api. repeat quiet_step.
Qed.

Lemma quiet_add_listitem (self : ArteTVAddon) (p : ParsedItem) :
  quiet (_add_listitem self p).
Proof.
  unfold _add_listitem, _add_video_context_menu.
  repeat (quiet_step || apply quiet_api_get_video_streams).
Qed.

Lemma quiet_mode_collection (self : ArteTVAddon) (path : string) :
  quiet (_mode_collection self path).
Proof.
  unfold _mode_collection, _query_app_api.
  repeat (quiet_step || apply quiet_add_listitem).
Qed.

Lemma quiet_mode_watch (self : ArteTVAddon) (video_id : string)
    (version : option string) :
  quiet (_mode_watch self video_id version).
Proof.
  unfold _mode_watch, choose_stream.
  repeat (quiet_step || apply quiet_api_get_video_streams).
Qed.

Lemma quiet_mode_search (self : ArteTVAddon) : quiet (_mode_search self).
Proof.
  unfold _mode_search.
  repeat (quiet_step || apply quiet_mode_collection).
Qed.

Lemma quiet_mode_default (self : ArteTVAddon) : quiet (_mode_default self).
Proof.
  unfold _mode_default.
  repeat (quiet_step || apply quiet_add_listitem).
Qed.

Lemma quiet_dispatch (self : ArteTVAddon) : quiet (dispatch self).
Proof.
  unfold dispatch, param.
  repeat (quiet_step || apply quiet_mode_collection
          || apply quiet_mode_watch || apply quiet_mode_search
          || apply quiet_mode_default).
Qed.

(** C8.  Whatever the request, [run] calls [endOfDirectory] on the
    handle of the request exactly once: the handler that is dispatched
    to does not call it, and the [finally] clause calls it once, after
    the handler, whether the handler returned or raised; the outcome of
    the handler is then the outcome of [run]. *)
Theorem run_ends_directory_once (self : ArteTVAddon) (h : host) :
  exists t,
    trace (snd (dispatch self h)) = trace h ++ t
    /\ count_events is_end_of_directory t = 0%nat
    /\ run self h
       = (fst (dispatch self h),
          mkHost (world (snd (dispatch self h)))
            (trace h ++ t ++ [EndOfDirectory (_handle self) true]))
    /\ count_events is_end_of_directory
         (t ++ [EndOfDirectory (_handle self) true]) = 1%nat.
Proof.
  destruct (quiet_dispatch self h) as (t & Ht & Hc).
  exists t. split; [ exact Ht | ]. split; [ exact Hc | ]. split.
  - unfold run, try_finally, emit.
    destruct (dispatch self h) as [r h']. simpl in *.
    now rewrite Ht, <- app_assoc.
  - rewrite count_events_app, Hc. reflexivity.
Qed.

(* ----------------------------------------------------------------- *)
(** *** Watch resolution *)

Lemma py_getkey_get (v : json) (k : string) (x : json) :
  py_getkey v k = Ok x -> py_get v k = Ok x.
Proof.
  destruct v; simpl; try discriminate. unfold dict_get.
  destruct (lookup k d); [ auto | discriminate ].
Qed.

Lemma odict_set_keys (P : json -> Prop) (d : odict) (k : json) (v : Stream) :
  Forall (fun kv => P (fst kv)) d -> P k ->
  Forall (fun kv => P (fst kv)) (odict_set d k v).
Proof.
  intros Hd Hk. induction Hd as [ | [k' v'] d Hk' Hd IH ]; simpl.
  - repeat constructor. exact Hk.
  - destruct (py_eq k k'); constructor; auto.
Qed.

(** The version codes of the mapping [get_video_streams] returns are
    truthy, and can be dictionary keys. *)
Lemma streams_loop_keys (groups : list json) :
  forall acc r,
    Forall (fun kv => py_truthy (fst kv) = true /\ py_hashable (fst kv) = true)
      acc ->
    streams_loop groups acc = Ok r ->
    Forall (fun kv => py_truthy (fst kv) = true /\ py_hashable (fst kv) = true)
      r.
Proof.
  induction groups as [ | g groups IH ]; intros acc r Hacc H.
  - injection H as <-. exact Hacc.
  - rewrite streams_loop_cons in H. unfold odict_setitem in H.
    repeat step_in H; eauto.
    match goal with
    | Ek : py_getkey ?d "shortLabel" = Ok ?k,
      Es : py_get ?d "shortLabel" = Ok ?s,
      Et : negb (py_truthy ?s) = false,
      Eh : (if py_hashable ?k then _ else _) = Ok ?o |- _ =>
        apply py_getkey_get in Ek; rewrite Es in Ek; injection Ek as ->;
        apply negb_false_iff in Et;
        destruct (py_hashable k) eqn:Hh;
        [ injection Eh as <- | discriminate Eh ];
        apply (IH _ _ (odict_set_keys
                         (fun k => py_truthy k = true /\ py_hashable k = true)
                         acc _ _ Hacc (conj Et Hh))) in H
    end.
    exact H.
Qed.

Lemma get_video_streams_keys (response : result json) (streams : odict) :
  get_video_streams response = Ok streams ->
  Forall (fun kv => py_truthy (fst kv) = true /\ py_hashable (fst kv) = true)
    streams.
Proof.
  unfold get_video_streams. intros H. repeat step_in H.
  eapply streams_loop_keys; [ constructor | exact H ].
Qed.

Lemma py_eq_refl (k : json) : py_hashable k = true -> py_eq k k = true.
Proof.
  destruct k; simpl; try discriminate; intros _.
  - reflexivity.
  - now destruct b.
  - apply Z.eqb_refl.
  - apply String.eqb_refl.
Qed.

Lemma api_get_video_streams_run (api : ArteTV) (video_id : string)
    (h : host) (response : result json) (w : W) :
  http_get (_API_V2_URL ++ "/" ++ _language api ++ "/" ++ video_id)%string
    _API_V2_BEARER (world h) = (response, w) ->
  api_get_video_streams api video_id h
  = (get_video_streams response, mkHost w (trace h)).
Proof.
  intros Hg.
  unfold api_get_video_streams, _query_player_api, bind, on_world, liftR.
  now rewrite Hg.
Qed.

Lemma bind_run {A B} (m : M A) (k : A -> M B) (h h' : host) (a : A) :
  m h = (Ok a, h') -> bind m k h = k a h'.
Proof.
  intros Hm. unfold bind. now rewrite Hm.
Qed.

(** C6.  Watch resolution, on the mapping the client returns for the
    video.  A requested version that is not a key of the mapping ends the
    request with an error in the log and no call to [setResolvedUrl].
    Without a requested version the first variant of the mapping is the
    one handed to [setResolvedUrl]; when the mapping is empty the
    request ends with an error in the log and no call to
    [setResolvedUrl]. *)
Theorem mode_watch_resolution (self : ArteTVAddon) (video_id : string)
    (h : host) (response : result json) (w : W) (streams : odict) :
  http_get
    (_API_V2_URL ++ "/" ++ _language (_api self) ++ "/" ++ video_id)%string
    _API_V2_BEARER (world h) = (response, w) ->
  get_video_streams response = Ok streams ->
  (forall version,
      version <> "" ->
      odict_lookup streams (JStr version) = None ->
      exists msg,
        _mode_watch self video_id (Some version) h
        = (Ok tt, mkHost w (trace h ++ [LogError msg]))
        /\ count_events is_set_resolved_url (trace h ++ [LogError msg])
           = count_events is_set_resolved_url (trace h))
  /\ (forall version k s rest b w',
         str_truthy version = false ->
         streams = (k, s) :: rest ->
         check_inputstream w = (Ok b, w') ->
         exists listitem,
           _mode_watch self video_id version h
           = (Ok tt,
              mkHost w'
                (trace h ++ [SetResolvedUrl (_handle self) true listitem]))
           /\ li_path listitem = stream_url s)
  /\ (forall version,
         str_truthy version = false ->
         streams = [] ->
         exists msg,
           _mode_watch self video_id version h
           = (Ok tt, mkHost w (trace h ++ [LogError msg]))
           /\ count_events is_set_resolved_url (trace h ++ [LogError msg])
              = count_events is_set_resolved_url (trace h)).
Proof.
  intros Hg Hs.
  assert (Hrun := api_get_video_streams_run (_api self) video_id h _ _ Hg).
  rewrite Hs in Hrun.
  assert (Hlog : forall msg,
             count_events is_set_resolved_url (trace h ++ [LogError msg])
             = count_events is_set_resolved_url (trace h)).
  { intros msg. rewrite count_events_app. unfold count_events at 2. simpl.
    lia. }
  split; [ | split ].
  - intros version Hv Hnone. eexists. split; [ | apply Hlog ].
    unfold _mode_watch. rewrite (bind_run _ _ _ _ _ Hrun).
    unfold choose_stream, str_truthy.
    replace (String.eqb version "") with false
      by (symmetry; now apply String.eqb_neq).
    cbn [negb]. rewrite Hnone. reflexivity.
  - intros version k s rest b w' Hv -> Hc.
    assert (Hk := get_video_streams_keys _ _ Hs).
    inversion Hk as [ | ? ? [Ht Hh] _ ]; subst. cbn [fst] in Ht, Hh.
    eexists. split.
    + unfold _mode_watch. rewrite (bind_run _ _ _ _ _ Hrun).
      unfold choose_stream. rewrite Hv. cbn [negb]. rewrite Ht. cbn [negb].
      cbn [odict_lookup]. rewrite (py_eq_refl k Hh).
      unfold bind, ret, on_world_result, emit. cbn [world trace].
      rewrite Hc. reflexivity.
    + now destruct b.
  - intros version Hv ->. eexists. split; [ | apply Hlog ].
    unfold _mode_watch. rewrite (bind_run _ _ _ _ _ Hrun).
    unfold choose_stream. rewrite Hv. reflexivity.
Qed.

End Controller.

(* ================================================================= *)
(** ** The properties at work *)

(** Two stream groups, recorded in the order of the server. *)
Lemma get_video_streams_first_versions_witness :
  get_video_streams
    (Ok (player_payload
           [stream_group "https://de" (version_entry "de" "Deutsch");
            stream_group "https://en" (version_entry "en" "English")]))
  = Ok [(JStr "de", mkStream (JStr "Deutsch") (JStr "https://de"));
        (JStr "en", mkStream (JStr "English") (JStr "https://en"))].
Proof.
  apply (proj1 get_video_streams_first_versions
           [("data",
             JDict [("attributes",
                     JDict [("streams",
                             JList [stream_group "https://de"
                                      (version_entry "de" "Deutsch");
                                    stream_group "https://en"
                                      (version_entry "en" "English")])])])]).
  reflexivity.
Defined.

(** A first version with a short code and no label does not lack both,
    and yet its group is passed over. *)
Lemma get_video_streams_skips_on_either :
  let version := [("shortLabel", JStr "de")] in
  let group := [("url", JStr "https://de"); ("versions", JList [JDict version])] in
  has_url_and_version group = true
  /\ first_version group = Some version
  /\ lacks_both version = false
  /\ get_video_streams (Ok (player_payload [JDict group])) = Ok [].
Proof.
  repeat split.
Qed.

(** The constructor takes a language that is not in [LANGUAGES]. *)
Lemma init_unsupported_language :
  ~ (~ In "xx" LANGUAGES -> raises (__init__ "xx") = true).
Proof.
  intros H. assert (Hn : ~ In "xx" LANGUAGES).
  { unfold LANGUAGES. simpl. intuition discriminate. }
  specialize (H Hn). discriminate H.
Qed.

(** An item without a title is yielded with the empty label. *)
Lemma get_collection_empty_label :
  ~ Forall (fun p => has_label p = true /\ routed p)
      (yielded (get_collection plain_isoparse plain_strftime
                  "/addon/resources/lib" french
                  (Ok (JDict [("data", JList [JDict [("programId", JStr "7")]])]))
                  "P" None)).
Proof.
  intros H. inversion H as [ | ? ? [Hl _] _ ]. discriminate Hl.
Qed.

(** The scenario of the next page: the path keeps the [/] that follows
    the catalog URL. *)
Lemma get_collection_next_page_keeps_slash :
  map url
    (yielded (get_collection plain_isoparse plain_strftime
                "/addon/resources/lib" french
                (Ok (JDict [("data", JList []);
                            ("nextPage",
                             JStr "https://api.arte.tv/api/emac/v3/fr/app/CATEGORIES?x=1")]))
                "CATEGORIES" None))
  = [to_collection (JStr "/CATEGORIES?x=1")]
  /\ to_collection (JStr "/CATEGORIES?x=1")
     <> to_collection (JStr "CATEGORIES?x=1").
Proof.
  split; [ reflexivity | discriminate ].
Qed.

Lemma get_collection_next_page_witness :
  get_collection plain_isoparse plain_strftime "/addon/resources/lib" french
    (Ok (JDict [("data", JList []);
                ("nextPage",
                 JStr "https://api.arte.tv/api/emac/v3/fr/app/CATEGORIES?x=1")]))
    "CATEGORIES" None
  = ([] ++ [next_page_item "/addon/resources/lib" (JStr "/CATEGORIES?x=1")],
     Ok tt)
  /\ get_collection plain_isoparse plain_strftime "/addon/resources/lib"
       french
       (Ok (JDict [("zones",
                    JList [JDict [("data", JList []);
                                  ("nextPage",
                                   JStr "https://api.arte.tv/api/emac/v3/fr/app/MAGAZINES?page=2")]]);
                   ("nextPage",
                    JStr "https://api.arte.tv/api/emac/v3/fr/app/OTHER")]))
       "MAGAZINES" (Some 0)
     = ([] ++ [next_page_item "/addon/resources/lib"
                 (JStr "/MAGAZINES?page=2")],
        Ok tt).
Proof.
  split.
  - apply (proj1 (get_collection_next_page plain_isoparse plain_strftime
                    "/addon/resources/lib" french
                    (Ok (JDict [("data", JList []);
                                ("nextPage",
                                 JStr "https://api.arte.tv/api/emac/v3/fr/app/CATEGORIES?x=1")]))
                    "CATEGORIES" None [] _ eq_refl)
             "https://api.arte.tv/api/emac/v3/fr/app/CATEGORIES?x=1"
             eq_refl).
    discriminate.
  - apply (proj1 (get_collection_next_page plain_isoparse plain_strftime
                    "/addon/resources/lib" french
                    (Ok (JDict [("zones",
                                 JList [JDict [("data", JList []);
                                               ("nextPage",
                                                JStr "https://api.arte.tv/api/emac/v3/fr/app/MAGAZINES?page=2")]]);
                                ("nextPage",
                                 JStr "https://api.arte.tv/api/emac/v3/fr/app/OTHER")]))
                    "MAGAZINES" (Some 0) [] _ eq_refl)
             "https://api.arte.tv/api/emac/v3/fr/app/MAGAZINES?page=2"
             eq_refl).
    discriminate.
Defined.



(** Level [-1] on two zones lists the second. *)
Lemma get_collection_negative_level_witness :
  let zones :=
    [JDict [("data", JList [JDict [("title", JStr "a"); ("programId", JStr "1")]])];
     JDict [("data", JList [JDict [("title", JStr "b"); ("programId", JStr "2")]])]] in
  get_collection plain_isoparse plain_strftime "/addon/resources/lib"
    french (Ok (JDict [("zones", JList zones)])) "MAGAZINES" (Some (-1))
  = ([mkParsedItem (JStr "b") (to_watch (JStr "2"))
        [("plot", JNull); ("duration", JNull); ("tagline", JNull);
         ("mediatype", JStr "movie")]
        [("icon", JNull)] [("isPlayable", JStr "true")]],
     Ok tt).
Proof.
  intro zones.
  destruct (proj1 (get_collection_negative_level plain_isoparse plain_strftime
                     "/addon/resources/lib" french
                     (JDict [("zones", JList zones)]) "MAGAZINES" zones (-1)
                     eq_refl eq_refl))
    as (zone & Hz & _ & _ & _ & Hlist).
  - discriminate.
  - simpl. lia.
  - simpl in Hz. injection Hz as <-.
    exact (proj1 (proj2 (Hlist _ _ eq_refl eq_refl)) eq_refl eq_refl).
Defined.

(** The scenario of the watch resolution: version [fr] among [de] and
    [en]. *)
Lemma mode_watch_resolution_witness :
  let self := mkAddon "plugin://plugin.video.artetv/" 1
                [("mode", "watch"); ("id", "X"); ("version", "fr")] french in
  exists msg,
    _mode_watch (K := still_kodi german_english) self "X" (Some "fr")
      (@mkHost (still_kodi german_english) tt [])
    = (Ok tt, @mkHost (still_kodi german_english) tt ([] ++ [LogError msg]))
    /\ count_events is_set_resolved_url ([] ++ [LogError msg])
       = count_events is_set_resolved_url [].
Proof.
  intros self.
  apply (proj1 (mode_watch_resolution (K := still_kodi german_english)
                  self "X" (@mkHost (still_kodi german_english) tt [])
                  german_english tt
                  [(JStr "de", mkStream (JStr "Deutsch") (JStr "https://de"));
                   (JStr "en", mkStream (JStr "English") (JStr "https://en"))]
                  eq_refl eq_refl) "fr").
  - discriminate.
  - reflexivity.
Defined.

(* ----------------------------------------------------------------- *)
(** *** Where the shapes of the data model matter *)

(** A [kind] that is a string has no [get].  The item is no collection,
    has no link and no data, and has a [programId]: the rule sends it to
    the video, and the routing raises. *)
Lemma get_item_url_on_string_kind :
  let item := [("kind", JStr "SHOW"); ("programId", JStr "7")] in
  is_collection item = false
  /\ links_elsewhere item "P" = false
  /\ has_data item = false
  /\ has_program_id item = true
  /\ _get_item_url (JDict item) "P" 0 = Raise AttributeError
  /\ _get_item_url (JDict item) "P" 0
     <> Ok (Some (to_watch (program_id item))).
Proof.
  repeat split. discriminate.
Qed.

(** So does the artwork on a resolution that is not an object, although
    every image type is among the four. *)
Lemma parse_item_art_on_number_resolution :
  let item :=
    [("images",
      JDict [("banner", JDict [("resolutions", JList [JInt 1920])])])] in
  forallb known_type (keys (images_of item)) = true
  /\ raises (_parse_item_art (JDict item)) = true
  /\ _parse_item_art (JDict item) = Raise AttributeError.
Proof.
  repeat split.
Qed.

(** With a valid level the next page is the one of the zone: the
    [nextPage] of the payload is not read. *)
Example get_collection_next_page_of_zone :
  get_collection plain_isoparse plain_strftime "/addon/resources/lib" french
    (Ok (JDict [("zones", JList [JDict [("data", JList [])]]);
                ("nextPage",
                 JStr "https://api.arte.tv/api/emac/v3/fr/app/MAGAZINES?page=2")]))
    "MAGAZINES" (Some 0)
  = ([], Ok tt).
Proof. reflexivity. Qed.

(** A negative level on a payload without zones. *)
Example get_collection_negative_level_empty :
  get_collection plain_isoparse plain_strftime "/addon/resources/lib" french
    (Ok (JDict [])) "MAGAZINES" (Some (-1))
  = ([], Raise IndexError).
Proof. reflexivity. Qed.

(** [run] on a request whose handler raises, and on one whose handler
    returns: one [EndOfDirectory], last, in both. *)
Example run_on_failed_request :
  run (K := still_kodi (Raise HTTPError))
    (mkAddon "plugin://plugin.video.artetv/" 1
       [("mode", "collection"); ("path", "CATEGORIES")] french)
    (@mkHost (still_kodi (Raise HTTPError)) tt [])
  = (Raise HTTPError,
     @mkHost (still_kodi (Raise HTTPError)) tt
       [SetContent 1 "movies"; EndOfDirectory 1 true]).
Proof. reflexivity. Qed.

Example run_on_watch_request :
  run (K := still_kodi german_english)
    (mkAddon "plugin://plugin.video.artetv/" 1
       [("mode", "watch"); ("id", "X"); ("version", "en")] french)
    (@mkHost (still_kodi german_english) tt [])
  = (Ok tt,
     @mkHost (still_kodi german_english) tt
       [SetResolvedUrl 1 true
          (mkListItem "" (JStr "https://en") [] [] None [] []);
        EndOfDirectory 1 true]).
Proof. reflexivity. Qed.

(* ================================================================= *)
(** ** Further properties of the catalog client *)

(* ----------------------------------------------------------------- *)
(** *** The keys of the artwork *)

Lemma has_key_In {A} (k : string) (d : list (string * A)) :
  has_key k d = true <-> In k (keys d).
Proof.
  unfold has_key. induction d as [ | [k' v] d IH ]; simpl.
  - split; [ discriminate | intros [] ].
  - destruct (String.eqb_spec k k') as [ -> | Hne ].
    + split; auto.
    + rewrite IH. split; [ now right | intros [ E | H ]; congruence ].
Qed.

Lemma setdefault_keys (d : dict) (k : string) (v : json) :
  NoDup (keys d) ->
  NoDup (keys (dict_setdefault d k v))
  /\ forall k', In k' (keys (dict_setdefault d k v)) <-> In k' (keys d) \/ k' = k.
Proof.
  intros Hnd. unfold dict_setdefault.
  destruct (has_key k d) eqn:E.
  - split; [ exact Hnd | ]. intros k'. split; [ now left | ].
    intros [ H | -> ]; [ exact H | now apply has_key_In ].
  - unfold keys. rewrite map_app. simpl. split.
    + apply NoDup_app; [ exact Hnd | repeat constructor; intros [] | ].
      intros x Hx [ <- | [] ]. apply has_key_In in Hx. congruence.
    + intros k'. rewrite in_app_iff. simpl. intuition.
Qed.

Lemma parse_images_keys (images : list (string * json)) :
  forall art art',
    NoDup (keys art) ->
    parse_images images art = Ok art' ->
    NoDup (keys art')
    /\ forall k, In k (keys art') ->
                 In k (keys art)
                 \/ In k ["banner"; "fanart"; "poster"; "thumb"].
Proof.
  induction images as [ | [t image] images IH ]; intros art art' Hnd H.
  - injection H as <-. auto.
  - rewrite parse_images_cons in H.
    destruct (lookup t _IMAGE_TYPE_MAPPING) as [ kodi | ] eqn:Hm;
      [ | discriminate ].
    repeat step_in H; try (now apply IH).
    match type of H with
    | parse_images _ (dict_setdefault _ _ ?v) = _ =>
        destruct (setdefault_keys art kodi v Hnd) as [Hnd' Hk]
    end.
    destruct (IH _ _ Hnd' H) as [Hnd'' Hin]. split; [ exact Hnd'' | ].
    intros k Hk'. destruct (Hin k Hk') as [ Hs | Hl ]; [ | now right ].
    apply Hk in Hs. destruct Hs as [ Hs | -> ]; [ now left | right ].
    apply image_type_mapping_cases in Hm.
    destruct Hm as [ [_ ->] | [ [_ ->] | [ [_ ->] | [_ ->] ] ] ];
      simpl; auto.
Qed.

(** X1.  Whenever [_parse_item_art] returns, the artwork has pairwise
    distinct keys among banner, fanart, poster, thumb and icon, and it
    always has the key icon, whose value is the one of fanart ([None]
    when there is no fanart). *)
Theorem parse_item_art_keys (item : json) (a : dict) :
  _parse_item_art item = Ok a ->
  NoDup (keys a)
  /\ (forall k, In k (keys a) ->
                In k ["banner"; "fanart"; "poster"; "thumb"; "icon"])
  /\ has_key "icon" a = true
  /\ dict_get a "icon" = dict_get a "fanart".
Proof.
  unfold _parse_item_art. intros H. repeat step_in H. injection H as <-.
  match goal with
  | Hp : parse_images _ [] = Ok ?x |- _ =>
      destruct (parse_images_keys _ [] x (NoDup_nil _) Hp) as [Hnd Hin];
      rename x into parsed
  end.
  destruct (setdefault_keys parsed "icon" (dict_get parsed "fanart") Hnd)
    as [Hnd' Hk].
  split; [ exact Hnd' | ]. split; [ | split ].
  - intros k Hk'. apply Hk in Hk'. destruct Hk' as [ Hk' | -> ].
    + destruct (Hin k Hk') as [ [] | Hl ]. simpl in *. intuition.
    + simpl. auto 6.
  - apply has_key_In. apply Hk. now right.
  - unfold dict_get. rewrite !lookup_setdefault.
    destruct (lookup "icon" parsed) as [ v | ] eqn:Ei.
    + assert (Hi : In "icon" (keys parsed))
        by (apply has_key_In; unfold has_key; now rewrite Ei).
      destruct (Hin _ Hi) as [ [] | Hl ]. simpl in Hl.
      intuition discriminate.
    + simpl. destruct (lookup "fanart" parsed); reflexivity.
Qed.

Lemma parse_item_art_keys_witness :
  NoDup (keys [("fanart", JStr "https://img/1920"); ("icon", JStr "https://img/1920")])
  /\ (forall k,
         In k (keys [("fanart", JStr "https://img/1920");
                     ("icon", JStr "https://img/1920")]) ->
         In k ["banner"; "fanart"; "poster"; "thumb"; "icon"])
  /\ has_key "icon" [("fanart", JStr "https://img/1920");
                     ("icon", JStr "https://img/1920")] = true
  /\ dict_get [("fanart", JStr "https://img/1920");
               ("icon", JStr "https://img/1920")] "icon"
     = dict_get [("fanart", JStr "https://img/1920");
                 ("icon", JStr "https://img/1920")] "fanart".
Proof.
  apply (parse_item_art_keys
           (JDict [("images",
                    JDict [("landscape",
                            JDict [("resolutions",
                                    JList [JDict [("w", JInt 1920);
                                                  ("url", JStr "https://img/1920")]])])])])).
  reflexivity.
Defined.

(* ----------------------------------------------------------------- *)
(** *** The metadata of a parsed item *)

Section Metadata.
Context {datetime : Type}.
Variable isoparse : json -> result datetime.
Variable strftime : datetime -> string -> string.

(** X2.  A parsed item is playable exactly when its target is not a
    collection.  Its plot is the full description, else the description,
    else the short description of the raw item.  A collection carries the
    plot and nothing else; a video also carries its duration and the
    media type movie, and a plot outline only when the short description
    is set and differs from the plot, the outline being that short
    description. *)
Theorem parse_item_metadata (item target : dict) (p : ParsedItem) :
  _parse_item isoparse strftime (JDict item) target = Ok (Some p) ->
  exists mode,
    lookup "mode" target = Some mode
    /\ dict_get (info p) "plot" = plot_of item
    /\ (py_eq mode (JStr "collection") = true ->
        info p = [("plot", plot_of item)]
        /\ properties p = [("isPlayable", JStr "false")])
    /\ (py_eq mode (JStr "collection") = false ->
        properties p = [("isPlayable", JStr "true")]
        /\ dict_get (info p) "mediatype" = JStr "movie"
        /\ dict_get (info p) "duration" = dict_get item "duration"
        /\ (if py_truthy (dict_get item "shortDescription")
               && py_ne (dict_get item "shortDescription") (plot_of item)
            then dict_get (info p) "plotoutline"
                 = dict_get item "shortDescription"
            else has_key "plotoutline" (info p) = false)).
Proof.
  unfold _parse_item. intros H.
  destruct (_parse_item_art (JDict item)) as [ a | e ]; [ | discriminate ].
  cbn [rbind py_get py_getkey] in H. fold (plot_of item) in H.
  destruct (lookup "mode" target) as [ mode | ] eqn:Hm; [ | discriminate ].
  exists mode. split; [ reflexivity | ]. cbn [rbind] in H.
  destruct (py_eq mode (JStr "collection")) eqn:Ec.
  - injection H as <-. cbn [info properties]. split; [ reflexivity | ].
    split; [ intros _; split; reflexivity | discriminate ].
  - repeat match type of H with
           | context [if ?c then _ else _] =>
               let E := fresh "E" in
               destruct c eqn:E; cbn [rbind] in H; try discriminate H
           | context [match lookup ?k ?d with _ => _ end] =>
               let E := fresh "E" in
               destruct (lookup k d) eqn:E; cbn [rbind] in H;
               try discriminate H
           | context [rbind (isoparse ?x) _] =>
               let E := fresh "E" in
               destruct (isoparse x) eqn:E; cbn [rbind] in H;
               try discriminate H
           | context [rbind ?m _] =>
               let E := fresh "E" in
               destruct m eqn:E; cbn [rbind] in H; try discriminate H
           end;
      injection H as <-; cbn [info properties];
      (split; [ reflexivity | ]); (split; [ discriminate | ]);
      intros _; (split; [ reflexivity | ]);
      (split; [ reflexivity | ]); (split; [ reflexivity | ]);
      reflexivity.
Qed.

End Metadata.

Lemma parse_item_metadata_witness :
  let item :=
    [("title", JStr "Film"); ("programId", JStr "7");
     ("shortDescription", JStr "short"); ("description", JStr "long");
     ("duration", JInt 5400)] in
  exists mode,
    lookup "mode" (to_watch (JStr "7")) = Some mode
    /\ dict_get [("plot", JStr "long"); ("plotoutline", JStr "short");
                 ("duration", JInt 5400); ("tagline", JNull);
                 ("mediatype", JStr "movie")] "plot" = plot_of item
    /\ (py_eq mode (JStr "collection") = true ->
        [("plot", JStr "long"); ("plotoutline", JStr "short");
         ("duration", JInt 5400); ("tagline", JNull);
         ("mediatype", JStr "movie")] = [("plot", plot_of item)]
        /\ [("isPlayable", JStr "true")] = [("isPlayable", JStr "false")])
    /\ (py_eq mode (JStr "collection") = false ->
        [("isPlayable", JStr "true")] = [("isPlayable", JStr "true")]
        /\ dict_get [("plot", JStr "long"); ("plotoutline", JStr "short");
                     ("duration", JInt 5400); ("tagline", JNull);
                     ("mediatype", JStr "movie")] "mediatype" = JStr "movie"
        /\ dict_get [("plot", JStr "long"); ("plotoutline", JStr "short");
                     ("duration", JInt 5400); ("tagline", JNull);
                     ("mediatype", JStr "movie")] "duration"
           = dict_get item "duration"
        /\ (if py_truthy (dict_get item "shortDescription")
               && py_ne (dict_get item "shortDescription") (plot_of item)
            then dict_get [("plot", JStr "long"); ("plotoutline", JStr "short");
                           ("duration", JInt 5400); ("tagline", JNull);
                           ("mediatype", JStr "movie")] "plotoutline"
                 = dict_get item "shortDescription"
            else has_key "plotoutline"
                   [("plot", JStr "long"); ("plotoutline", JStr "short");
                    ("duration", JInt 5400); ("tagline", JNull);
                    ("mediatype", JStr "movie")] = false)).
Proof.
  intro item.
  apply (parse_item_metadata plain_isoparse plain_strftime item
           (to_watch (JStr "7"))
           (mkParsedItem (JStr "Film") (to_watch (JStr "7"))
              [("plot", JStr "long"); ("plotoutline", JStr "short");
               ("duration", JInt 5400); ("tagline", JNull);
               ("mediatype", JStr "movie")]
              [("icon", JNull)] [("isPlayable", JStr "true")])).
  reflexivity.
Defined.

(* ----------------------------------------------------------------- *)
(** *** Walking a collection: what is passed over, and the levels *)

Lemma py_in_In (s : string) (l : list string) :
  In s l -> py_in (JStr s) l = true.
Proof.
  intros H. unfold py_in. apply existsb_exists. exists s. split; [ exact H | ].
  simpl. apply String.eqb_refl.
Qed.

Lemma gbind_nothing {B} (k : unit -> gen B) :
  gbind (([], Ok tt) : gen unit) k = k tt.
Proof.
  simpl. now destruct (k tt).
Qed.



Section Walk.
Context {datetime : Type}.
Variable isoparse : json -> result datetime.
Variable strftime : datetime -> string -> string.
Variable module_dir : string.

(** X3.  An item whose [code.name] is one of the five zone markers
    (banner_1, collection_associated, collection_content,
    collection_partner, collection_upcoming) is passed over before
    anything else of it is read, so whatever its other fields hold; so
    is an item of kind EXTERNAL or titled ARTE Boutique or ARTE Radio.
    The walk goes on with the next item, and the index still counts the
    item passed over. *)
Theorem collection_loop_passes_over (path : string) (index : Z)
    (item : dict) (rest : list json) :
  (forall c name,
      dict_get item "code" = JDict c ->
      dict_get c "name" = JStr name ->
      In name ["banner_1"; "collection_associated"; "collection_content";
               "collection_partner"; "collection_upcoming"] ->
      collection_item isoparse strftime path index (JDict item) = ([], Ok tt)
      /\ collection_loop isoparse strftime path index (JDict item :: rest)
         = collection_loop isoparse strftime path (index + 1) rest)
  /\ (optional_object (dict_get item "code") = true ->
      optional_object (dict_get item "kind") = true ->
      nested item "kind" "code" = JStr "EXTERNAL"
      \/ (exists title, dict_get item "title" = JStr title
                        /\ In title ["ARTE Boutique"; "ARTE Radio"]) ->
      collection_item isoparse strftime path index (JDict item) = ([], Ok tt)
      /\ collection_loop isoparse strftime path index (JDict item :: rest)
         = collection_loop isoparse strftime path (index + 1) rest).
Proof.
  assert (Hloop : collection_item isoparse strftime path index (JDict item)
                  = ([], Ok tt) ->
                  collection_loop isoparse strftime path index
                    (JDict item :: rest)
                  = collection_loop isoparse strftime path (index + 1) rest).
  { intros E. cbn [collection_loop]. rewrite E. apply gbind_nothing. }
  split.
  - intros c name Hc Hn Hin.
    assert (E : collection_item isoparse strftime path index (JDict item)
                = ([], Ok tt)).
    { unfold collection_item, is_skipped. cbn [py_get rbind]. rewrite Hc.
      replace (py_get (py_or (JDict c) (JDict [])) "name")
        with (Ok (JStr name) : result json)
        by (unfold py_or; destruct c; cbn in *; congruence).
      cbn [rbind]. unfold zone_markers. now rewrite (py_in_In _ _ Hin). }
    split; [ exact E | now apply Hloop ].
  - intros Hc Hk Hext.
    assert (E : collection_item isoparse strftime path index (JDict item)
                = ([], Ok tt)).
    { unfold collection_item, is_skipped. cbn [py_get rbind].
      rewrite (py_get_nested item "code" "name" Hc). cbn [rbind].
      destruct (py_in (nested item "code" "name") zone_markers);
        [ reflexivity | ].
      rewrite (py_get_nested item "kind" "code" Hk). cbn [rbind].
      destruct Hext as [ -> | (title & -> & Hin) ]; [ reflexivity | ].
      unfold external_titles. rewrite (py_in_In _ _ Hin).
      now rewrite orb_true_r. }
    split; [ exact E | now apply Hloop ].
Qed.

(** X4.  A level at or beyond the number of candidates is not an error:
    the call lists the page as it does without a level. *)
Theorem get_collection_level_out_of_range (self : ArteTV) (data : json)
    (path : string) (l : list json) (level : Z) :
  candidates data = Ok (JList l) ->
  Z.of_nat (List.length l) <= level ->
  get_collection isoparse strftime module_dir self (Ok data) path (Some level)
  = get_collection isoparse strftime module_dir self (Ok data) path None.
Proof.
  intros Hc Hl. unfold get_collection, regular_items.
  rewrite !gbind_lift, Hc, !gbind_lift.
  unfold descend. cbn [py_len rbind].
  replace (level <? Z.of_nat (List.length l)) with false
    by (symmetry; apply Z.ltb_ge; lia).
  reflexivity.
Qed.



End Walk.

(* ----------------------------------------------------------------- *)
(** *** The mapping of stream variants *)

(** On the values that can be dictionary keys, [==] is an equivalence. *)
Lemma py_eq_sym (a b : json) :
  py_hashable a = true -> py_hashable b = true -> py_eq a b = py_eq b a.
Proof.
  destruct a, b; simpl; try discriminate; intros _ _; try reflexivity.
  - now destruct b, b0.
  - apply Z.eqb_sym.
  - apply Z.eqb_sym.
  - apply Z.eqb_sym.
  - apply String.eqb_sym.
Qed.

Lemma py_eq_trans (a b c : json) :
  py_hashable a = true -> py_hashable b = true -> py_hashable c = true ->
  py_eq a b = true -> py_eq b c = true -> py_eq a c = true.
Proof.
  destruct a, b, c; simpl; try discriminate; intros _ _ _;
    rewrite ?Z.eqb_eq, ?String.eqb_eq, ?Bool.eqb_true_iff;
    try congruence;
    repeat match goal with b : bool |- _ => destruct b end;
    simpl; intros; subst; try reflexivity; try discriminate; try lia.
Qed.

Lemma odict_set_entries (Pk : json -> Prop) (Pv : Stream -> Prop)
    (d : odict) (k : json) (v : Stream) :
  Forall (fun kv => Pk (fst kv) /\ Pv (snd kv)) d -> Pk k -> Pv v ->
  Forall (fun kv => Pk (fst kv) /\ Pv (snd kv)) (odict_set d k v).
Proof.
  intros Hd Hk Hv. induction Hd as [ | [k' v'] d [Hk' Hv'] Hd IH ]; simpl.
  - repeat constructor; assumption.
  - destruct (py_eq k k'); constructor; auto.
Qed.

Lemma odict_set_distinct (d : odict) (k : json) (v : Stream) :
  Forall (fun kv => py_hashable (fst kv) = true) d ->
  py_hashable k = true ->
  ForallOrdPairs (fun a b => py_eq (fst a) (fst b) = false) d ->
  ForallOrdPairs (fun a b => py_eq (fst a) (fst b) = false) (odict_set d k v).
Proof.
  intros Hh Hk Hd. induction Hd as [ | [k0 v0] d Hall Hd IH ]; simpl.
  - repeat constructor.
  - inversion Hh as [ | ? ? Hk0 Hh' ]; subst. simpl in Hk0.
    destruct (py_eq k k0) eqn:E.
    + constructor; [ exact Hall | exact Hd ].
    + constructor; [ | now apply IH ].
      apply (odict_set_keys (fun x => py_eq k0 x = false)).
      * exact Hall.
      * now rewrite py_eq_sym.
Qed.

Lemma streams_loop_entries (groups : list json) :
  forall acc r,
    Forall (fun kv => (py_truthy (fst kv) = true /\ py_hashable (fst kv) = true)
                      /\ (py_truthy (stream_label (snd kv)) = true
                          /\ py_truthy (stream_url (snd kv)) = true)) acc ->
    ForallOrdPairs (fun a b => py_eq (fst a) (fst b) = false) acc ->
    streams_loop groups acc = Ok r ->
    Forall (fun kv => (py_truthy (fst kv) = true /\ py_hashable (fst kv) = true)
                      /\ (py_truthy (stream_label (snd kv)) = true
                          /\ py_truthy (stream_url (snd kv)) = true)) r
    /\ ForallOrdPairs (fun a b => py_eq (fst a) (fst b) = false) r.
Proof.
  induction groups as [ | g groups IH ]; intros acc r Hacc Hd H.
  - injection H as <-. auto.
  - rewrite streams_loop_cons in H. unfold odict_setitem in H.
    repeat step_in H; eauto.
    match goal with
    | Ek : py_getkey ?d "shortLabel" = Ok ?k,
      Es : py_get ?d "shortLabel" = Ok ?s,
      Et : negb (py_truthy ?s) = false,
      El : py_getkey ?d "label" = Ok ?l,
      Em : py_get ?d "label" = Ok ?m,
      Etl : negb (py_truthy ?m) = false,
      Eu : py_getkey g "url" = Ok ?u,
      Ev : py_get g "url" = Ok ?w,
      Etu : negb (py_truthy ?w) = false,
      Eh : (if py_hashable ?k then _ else _) = Ok ?o |- _ =>
        apply py_getkey_get in Ek; rewrite Es in Ek; injection Ek as ->;
        apply py_getkey_get in El; rewrite Em in El; injection El as ->;
        apply py_getkey_get in Eu; rewrite Ev in Eu; injection Eu as ->;
        apply negb_false_iff in Et, Etl, Etu;
        destruct (py_hashable k) eqn:Hh;
        [ injection Eh as <- | discriminate Eh ];
        apply (IH _ _
                 (odict_set_entries
                    (fun k => py_truthy k = true /\ py_hashable k = true)
                    (fun s => py_truthy (stream_label s) = true
                              /\ py_truthy (stream_url s) = true)
                    acc k (mkStream l u) Hacc (conj Et Hh)
                    (conj Etl Etu))) in H
    end.
    + exact H.
    + apply odict_set_distinct; auto.
      eapply Forall_impl; [ | exact Hacc ]. intros kv [[_ Hx] _]. exact Hx.
Qed.

(** X6.  Whatever the player API answers, every entry of the mapping
    [get_video_streams] returns is usable and distinct: its version code
    is set and can be a dictionary key, its label and its URL are set,
    and no two entries have equal codes. *)
Theorem get_video_streams_entries (response : result json) (streams : odict) :
  get_video_streams response = Ok streams ->
  Forall (fun kv => (py_truthy (fst kv) = true /\ py_hashable (fst kv) = true)
                    /\ (py_truthy (stream_label (snd kv)) = true
                        /\ py_truthy (stream_url (snd kv)) = true)) streams
  /\ ForallOrdPairs (fun a b => py_eq (fst a) (fst b) = false) streams.
Proof.
  unfold get_video_streams. intros H. repeat step_in H.
  eapply streams_loop_entries; [ constructor | constructor | exact H ].
Qed.

Lemma get_video_streams_entries_witness :
  Forall (fun kv => (py_truthy (fst kv) = true /\ py_hashable (fst kv) = true)
                    /\ (py_truthy (stream_label (snd kv)) = true
                        /\ py_truthy (stream_url (snd kv)) = true))
    [(JStr "de", mkStream (JStr "Deutsch") (JStr "https://de"));
     (JStr "en", mkStream (JStr "English") (JStr "https://en"))]
  /\ ForallOrdPairs (fun a b => py_eq (fst a) (fst b) = false)
       [(JStr "de", mkStream (JStr "Deutsch") (JStr "https://de"));
        (JStr "en", mkStream (JStr "English") (JStr "https://en"))].
Proof.
  apply (get_video_streams_entries german_english). reflexivity.
Defined.

Lemma odict_lookup_set (d : odict) (k k' : json) (s : Stream) :
  Forall (fun kv => py_hashable (fst kv) = true) d ->
  py_hashable k = true -> py_hashable k' = true ->
  odict_lookup (odict_set d k' s) k
  = if py_eq k k' then Some s else odict_lookup d k.
Proof.
  intros Hd Hk Hk'. induction Hd as [ | [k0 v0] d Hk0 Hd IH ]; simpl.
  - reflexivity.
  - simpl in Hk0. destruct (py_eq k' k0) eqn:E; simpl.
    + destruct (py_eq k k0) eqn:E0.
      * rewrite (py_eq_trans k k0 k'); auto. now rewrite py_eq_sym.
      * destruct (py_eq k k') eqn:E1; [ | reflexivity ].
        rewrite (py_eq_trans k k' k0) in E0; auto. discriminate.
    + rewrite IH. destruct (py_eq k k0) eqn:E0; [ | reflexivity ].
      destruct (py_eq k k') eqn:E1; [ | reflexivity ].
      rewrite (py_eq_trans k' k k0) in E; auto; [ discriminate | ].
      now rewrite py_eq_sym.
Qed.

Lemma contribution_key (group : json) (k : json) (s : Stream) :
  group_ok group = true -> contribution group = Some (k, s) ->
  py_hashable k = true.
Proof.
  unfold group_ok, contribution, first_version, has_url_and_version,
    lacks_either.
  destruct group as [ | | | | | g ]; try discriminate.
  destruct (dict_get g "versions") as [ | | | | [ | [ | | | | | v ] vs ] | ];
    try discriminate.
  destruct (py_truthy (dict_get g "url")); simpl; [ | discriminate ].
  destruct (py_truthy (dict_get v "shortLabel")); simpl; [ | discriminate ].
  destruct (py_truthy (dict_get v "label")); simpl; [ | discriminate ].
  intros Hh E. injection E as <- _. exact Hh.
Qed.

Lemma fold_record_lookup (groups : list json) (k : json) :
  forallb group_ok groups = true ->
  py_hashable k = true ->
  forall acc,
    Forall (fun kv => py_hashable (fst kv) = true) acc ->
    odict_lookup (fold_left record groups acc) k
    = fold_left
        (fun found group =>
           match contribution group with
           | Some (k', s) => if py_eq k k' then Some s else found
           | None => found
           end)
        groups (odict_lookup acc k).
Proof.
  intros Hok Hk. induction groups as [ | g groups IH ]; intros acc Hacc;
    [ reflexivity | ].
  simpl in Hok. apply andb_true_iff in Hok. destruct Hok as [Hg Hok].
  cbn [fold_left]. unfold record at 2.
  destruct (contribution g) as [ [k' s] | ] eqn:Ec; [ | now apply IH ].
  assert (Hk' := contribution_key g k' s Hg Ec).
  rewrite (IH Hok).
  - now rewrite odict_lookup_set.
  - apply (odict_set_keys (fun x => py_hashable x = true)); auto.
Qed.

Lemma get_video_streams_shaped (payload : dict) :
  payload_ok payload = true ->
  get_video_streams (Ok (JDict payload))
  = Ok (fold_left record (stream_groups payload) [])
  /\ forallb group_ok (stream_groups payload) = true.
Proof.
  intros Hok. unfold payload_ok in Hok.
  apply andb_true_iff in Hok. destruct Hok as [Hok Hs].
  apply andb_true_iff in Hok. destruct Hok as [Hd Ha].
  rewrite (get_video_streams_groups payload Hd Ha).
  unfold py_or, stream_groups.
  destruct (player_streams payload) as [ | [ | ] | z | s | [ | g l ] | [ | ? ? ] ];
    try discriminate Hs; cbn [py_truthy] in *;
    try (apply negb_true_iff in Hs; rewrite Hs); try (split; reflexivity).
  cbn [py_iter rbind]. split; [ now apply streams_loop_shaped | exact Hs ].
Qed.

(** X7.  When several stream groups carry the same version code, the
    mapping holds, under that code, the label and the URL of the last of
    them: looking a code up gives the stream of the last group that
    contributes under it, and nothing when no group does. *)
Theorem get_video_streams_last_wins (payload : dict) (k : json) :
  payload_ok payload = true ->
  py_hashable k = true ->
  exists streams,
    get_video_streams (Ok (JDict payload)) = Ok streams
    /\ odict_lookup streams k = last_contribution k (stream_groups payload).
Proof.
  intros Hok Hk. destruct (get_video_streams_shaped payload Hok) as [E Hg].
  eexists. split; [ exact E | ].
  unfold last_contribution.
  now rewrite (fold_record_lookup _ k Hg Hk [] (Forall_nil _)).
Qed.

Lemma get_video_streams_last_wins_witness :
  exists streams,
    get_video_streams
      (Ok (player_payload
             [stream_group "https://one" (version_entry "de" "Erste");
              stream_group "https://en" (version_entry "en" "English");
              stream_group "https://two" (version_entry "de" "Zweite")]))
    = Ok streams
    /\ odict_lookup streams (JStr "de")
       = Some (mkStream (JStr "Zweite") (JStr "https://two")).
Proof.
  apply (get_video_streams_last_wins
           [("data",
             JDict [("attributes",
                     JDict [("streams",
                             JList [stream_group "https://one"
                                      (version_entry "de" "Erste");
                                    stream_group "https://en"
                                      (version_entry "en" "English");
                                    stream_group "https://two"
                                      (version_entry "de" "Zweite")])])])]
           (JStr "de")); reflexivity.
Defined.

(* ----------------------------------------------------------------- *)
(** *** [_get_program_item] *)

Lemma find_program_content_first (before after : list json) (zone : dict) :
  Forall (fun z => exists d, z = JDict d
                             /\ optional_object (dict_get d "code") = true
                             /\ py_eq (nested d "code" "name")
                                  (JStr "program_content") = false) before ->
  optional_object (dict_get zone "code") = true ->
  nested zone "code" "name" = JStr "program_content" ->
  find_program_content (before ++ JDict zone :: after) = Ok (Some (JDict zone)).
Proof.
  intros Hb Hc Hn. induction Hb as [ | z before (d & -> & Hd & Hne) _ IH ].
  - cbn [app find_program_content py_get rbind].
    rewrite (py_get_nested zone "code" "name" Hc), Hn. reflexivity.
  - cbn [app find_program_content py_get rbind].
    rewrite (py_get_nested d "code" "name" Hd). cbn [rbind]. now rewrite Hne.
Qed.

Lemma find_program_content_none (zones : list json) :
  Forall (fun z => exists d, z = JDict d
                             /\ optional_object (dict_get d "code") = true
                             /\ py_eq (nested d "code" "name")
                                  (JStr "program_content") = false) zones ->
  find_program_content zones = Ok None.
Proof.
  induction 1 as [ | z zones (d & -> & Hd & Hne) _ IH ]; [ reflexivity | ].
  cbn [find_program_content py_get rbind].
  rewrite (py_get_nested d "code" "name" Hd). cbn [rbind]. now rewrite Hne.
Qed.

(** X8.  [_get_program_item] answers with the first element of the data
    of the first zone named program_content, and with [None] when that
    zone has no data; the zones that come after it are not read,
    whatever they hold.  Without such a zone, or without zones, the
    answer is [None]. *)
Theorem get_program_item_first_zone (payload : dict) :
  (forall before after zone,
      dict_get payload "zones" = JList (before ++ JDict zone :: after) ->
      Forall (fun z => exists d, z = JDict d
                                 /\ optional_object (dict_get d "code") = true
                                 /\ py_eq (nested d "code" "name")
                                      (JStr "program_content") = false)
        before ->
      optional_object (dict_get zone "code") = true ->
      nested zone "code" "name" = JStr "program_content" ->
      _get_program_item (Ok (JDict payload))
      = py_first (py_or (dict_get zone "data") (JList []))
      /\ (forall x rest, dict_get zone "data" = JList (x :: rest) ->
                         _get_program_item (Ok (JDict payload)) = Ok (Some x))
      /\ (py_truthy (dict_get zone "data") = false ->
          _get_program_item (Ok (JDict payload)) = Ok None))
  /\ (forall zones,
         dict_get payload "zones" = JList zones ->
         Forall (fun z => exists d, z = JDict d
                                    /\ optional_object (dict_get d "code") = true
                                    /\ py_eq (nested d "code" "name")
                                         (JStr "program_content") = false)
           zones ->
         _get_program_item (Ok (JDict payload)) = Ok None)
  /\ (py_truthy (dict_get payload "zones") = false ->
      _get_program_item (Ok (JDict payload)) = Ok None).
Proof.
  split; [ | split ].
  - intros before after zone Hz Hb Hc Hn.
    assert (E : _get_program_item (Ok (JDict payload))
                = py_first (py_or (dict_get zone "data") (JList []))).
    { unfold _get_program_item. cbn [rbind py_get]. rewrite Hz.
      unfold py_or at 1.
      replace (py_truthy (JList (before ++ JDict zone :: after))) with true
        by (destruct before; reflexivity).
      cbn [py_iter rbind].
      rewrite (find_program_content_first before after zone Hb Hc Hn).
      cbn [rbind].
      replace (py_truthy (JDict zone)) with true; [ reflexivity | ].
      unfold nested in Hn. destruct zone; [ discriminate Hn | reflexivity ]. }
    split; [ exact E | ]. split.
    + intros x rest Hd. rewrite E, Hd. reflexivity.
    + intros Hd. rewrite E. unfold py_or. rewrite Hd. reflexivity.
  - intros zones Hz Hall. unfold _get_program_item. cbn [rbind py_get].
    rewrite Hz. unfold py_or.
    destruct (py_truthy (JList zones)); cbn [py_iter rbind];
      [ now rewrite (find_program_content_none zones Hall) | reflexivity ].
  - intros Hz. unfold _get_program_item. cbn [rbind py_get].
    unfold py_or. rewrite Hz. reflexivity.
Qed.

Lemma get_program_item_first_zone_witness :
  _get_program_item
    (Ok (JDict [("zones",
                 JList [JDict [("code", JDict [("name", JStr "banner_1")])];
                        JDict [("code", JDict [("name", JStr "program_content")]);
                               ("data", JList [JDict [("programId", JStr "7")]])];
                        JStr "not a zone"])]))
  = Ok (Some (JDict [("programId", JStr "7")])).
Proof.
  apply (proj1 (proj2 (proj1 (get_program_item_first_zone
           [("zones",
             JList [JDict [("code", JDict [("name", JStr "banner_1")])];
                    JDict [("code", JDict [("name", JStr "program_content")]);
                           ("data", JList [JDict [("programId", JStr "7")]])];
                    JStr "not a zone"])])
           [JDict [("code", JDict [("name", JStr "banner_1")])]]
           [JStr "not a zone"]
           [("code", JDict [("name", JStr "program_content")]);
            ("data", JList [JDict [("programId", JStr "7")]])]
           eq_refl
           (Forall_cons _
              (ex_intro _ [("code", JDict [("name", JStr "banner_1")])]
                 (conj eq_refl (conj eq_refl eq_refl)))
              (Forall_nil _))
           eq_refl eq_refl))
           (JDict [("programId", JStr "7")]) [] eq_refl).
Defined.

(* ----------------------------------------------------------------- *)
(** *** From the next page back to the catalog *)

Lemma replace_from_absent (old new s : string) :
  occurs old s = false -> replace_from old new O s = s.
Proof.
  induction s as [ | c s IH ]; [ reflexivity | ].
  cbn [occurs replace_from]. intros H. apply orb_false_iff in H.
  destruct H as [Hp Ho]. rewrite Hp. now rewrite IH.
Qed.

Lemma str_replace_absent (s old new : string) :
  occurs old s = false -> str_replace s old new = s.
Proof.
  intros H. unfold str_replace. destruct old as [ | c old ].
  - destruct s; discriminate H.
  - now apply replace_from_absent.
Qed.

Lemma rstrip_slash_id (s : string) :
  ends_with_slash s = false -> rstrip_slash s = s.
Proof.
  induction s as [ | c s IH ]; [ reflexivity | ].
  cbn [ends_with_slash rstrip_slash]. destruct s as [ | c' s ].
  - intros H. cbn. now rewrite H.
  - intros H. rewrite (IH H). reflexivity.
Qed.

Lemma lstrip_slash_id (s : string) :
  String.prefix "/" s = false -> lstrip_slash s = s.
Proof.
  destruct s as [ | c s ]; [ reflexivity | ]. cbn [lstrip_slash].
  destruct (Ascii.eqb_spec c "/"%char) as [ -> | Hne ]; [ | reflexivity ].
  cbn. destruct s; discriminate.
Qed.

Section NextPageRequest.
Context {K : Kodi}.

(** X9.  The next-page link leads back to the page it names.  When
    [nextPage] is the catalog URL of the client followed by [/] and a
    path that has no slash at either end and no further occurrence of
    the catalog URL, the path [get_collection] gives the next-page item
    is that path with a leading [/], and [_query_app_api] on it requests
    [nextPage] itself. *)
Theorem next_page_round_trip (api : ArteTV) (rest : string) :
  _api_v3_url api <> "" ->
  occurs (_api_v3_url api) ("/" ++ rest) = false ->
  String.prefix "/" rest = false ->
  ends_with_slash rest = false ->
  let next_page := (_api_v3_url api ++ "/" ++ rest)%string in
  let path := str_replace next_page (_api_v3_url api) "" in
  path = ("/" ++ rest)%string
  /\ strip_slash path = rest
  /\ _query_app_api api path = on_world (http_get next_page _API_V3_BEARER).
Proof.
  intros Hu Ho Hp He next_page path.
  assert (E : path = ("/" ++ rest)%string).
  { subst path next_page.
    rewrite (str_replace_prefix (_api_v3_url api) "" ("/" ++ rest) Hu).
    now rewrite (str_replace_absent _ _ _ Ho). }
  assert (Es : strip_slash path = rest).
  { rewrite E. unfold strip_slash. cbn [append lstrip_slash].
    change (Ascii.eqb "/" "/") with true. cbv iota.
    rewrite (lstrip_slash_id rest Hp). now apply rstrip_slash_id. }
  split; [ exact E | ]. split; [ exact Es | ].
  unfold _query_app_api. now rewrite Es.
Qed.

End NextPageRequest.

Lemma next_page_round_trip_witness :
  let path :=
    str_replace "https://api.arte.tv/api/emac/v3/fr/app/CATEGORIES?x=1"
      (_api_v3_url french) "" in
  path = "/CATEGORIES?x=1"
  /\ strip_slash path = "CATEGORIES?x=1"
  /\ _query_app_api (K := still_kodi german_english) french path
     = on_world (K := still_kodi german_english)
         (http_get (Kodi := still_kodi german_english)
            "https://api.arte.tv/api/emac/v3/fr/app/CATEGORIES?x=1"
            _API_V3_BEARER).
Proof.
  apply (next_page_round_trip (K := still_kodi german_english) french
           "CATEGORIES?x=1"); [ discriminate | reflexivity .. ].
Defined.

(* ----------------------------------------------------------------- *)
(** *** Failed requests *)

(** X10.  The response hook lets an answer through exactly when its
    status is outside 400..599.  On a failed request it never returns:
    it raises [ArteTVException] when the body is a JSON object,
    [HTTPError] when the body is not JSON, and the [AttributeError] of
    the missing [get] when the body is JSON of another kind. *)
Theorem requests_raise_status_cases (response : Response) :
  (is_ok (_requests_raise_status response) = true
   <-> status_code response < 400 \/ 600 <= status_code response)
  /\ (400 <= status_code response < 600 ->
      (json_body response = None ->
       _requests_raise_status response = Raise HTTPError)
      /\ (forall d, json_body response = Some (JDict d) ->
                    _requests_raise_status response = Raise ArteTVException)
      /\ (forall body, json_body response = Some body ->
                       (forall d, body <> JDict d) ->
                       _requests_raise_status response = Raise AttributeError)).
Proof.
  unfold _requests_raise_status, raise_for_status.
  destruct ((400 <=? status_code response) && (status_code response <? 600))
    eqn:E.
  - apply andb_true_iff in E. destruct E as [E1 E2].
    apply Z.leb_le in E1. apply Z.ltb_lt in E2. split.
    + split; [ | lia ].
      destruct (json_body response) as [ [ | | | | | d ] | ]; discriminate.
    + intros _. split; [ intros ->; reflexivity | ]. split.
      * intros d ->. reflexivity.
      * intros body -> Hb. destruct body; try reflexivity. now elim (Hb d).
  - apply andb_false_iff in E. split.
    + split; [ | reflexivity ]. intros _.
      destruct E as [ E | E ];
        [ apply Z.leb_gt in E | apply Z.ltb_ge in E ]; lia.
    + intros [H1 H2].
      destruct E as [ E | E ];
        [ apply Z.leb_gt in E | apply Z.ltb_ge in E ]; lia.
Qed.

Lemma requests_raise_status_cases_witness :
  _requests_raise_status
    (mkResponse 404 (Some (JDict [("error", JStr "not found")])))
  = Raise ArteTVException.
Proof.
  apply (proj1 (proj2 (proj2 (requests_raise_status_cases
           (mkResponse 404 (Some (JDict [("error", JStr "not found")]))))
           ltac:(simpl; lia)))
           [("error", JStr "not found")] eq_refl).
Defined.

(* ----------------------------------------------------------------- *)
(** *** The language of the add-on *)

Lemma lookup_dict_set {A} (d : list (string * A)) (k : string) (v : A) :
  lookup k (dict_set d k v) = Some v.
Proof.
  induction d as [ | [k' v'] d IH ]; simpl.
  - now rewrite String.eqb_refl.
  - destruct (String.eqb k k') eqn:E; simpl; rewrite E; [ reflexivity | exact IH ].
Qed.

(** X11.  When no language is stored, [_addon_language] answers with a
    supported language (the one of the host, or English) and stores it;
    a stored language is answered as it is, supported or not, and the
    settings are left alone.  Once the call has been made, later calls
    give the same answer and change nothing, whatever the language of
    the host has become. *)
Theorem addon_language_settles (settings : list (string * string))
    (host_language : string) :
  let language := fst (_addon_language settings host_language) in
  let stored := snd (_addon_language settings host_language) in
  (getSetting settings "language" = "" ->
   In language LANGUAGES
   /\ (In host_language LANGUAGES -> language = host_language)
   /\ (~ In host_language LANGUAGES -> language = "en"))
  /\ (getSetting settings "language" <> "" ->
      language = getSetting settings "language" /\ stored = settings)
  /\ getSetting stored "language" = language
  /\ (forall later, _addon_language stored later = (language, stored)).
Proof.
  intros language stored. subst language stored. unfold _addon_language.
  destruct (String.eqb_spec (getSetting settings "language") "") as [ E | E ].
  - cbn [fst snd].
    assert (Hin : In (if existsb (String.eqb host_language) LANGUAGES
                      then host_language else "en") LANGUAGES
                  /\ (if existsb (String.eqb host_language) LANGUAGES
                      then host_language else "en") <> "").
    { destruct (existsb (String.eqb host_language) LANGUAGES) eqn:Ex.
      - apply existsb_exists in Ex. destruct Ex as (x & Hx & Hxe).
        apply String.eqb_eq in Hxe. subst x. split; [ exact Hx | ].
        intros ->. simpl in Hx. intuition discriminate.
      - split; [ simpl; auto | discriminate ]. }
    destruct Hin as [Hin Hne].
    assert (Hget : getSetting
                     (dict_set settings "language"
                        (if existsb (String.eqb host_language) LANGUAGES
                         then host_language else "en")) "language"
                   = (if existsb (String.eqb host_language) LANGUAGES
                      then host_language else "en")).
    { unfold getSetting. now rewrite lookup_dict_set. }
    split; [ | split; [ congruence | split ] ].
    + intros _. split; [ exact Hin | ]. split.
      * intros Hh.
        replace (existsb (String.eqb host_language) LANGUAGES) with true;
          [ reflexivity | ].
        symmetry. apply existsb_exists. exists host_language.
        split; [ exact Hh | apply String.eqb_refl ].
      * intros Hh.
        destruct (existsb (String.eqb host_language) LANGUAGES) eqn:Ex;
          [ | reflexivity ].
        apply existsb_exists in Ex. destruct Ex as (x & Hx & Hxe).
        apply String.eqb_eq in Hxe. subst x. contradiction.
    + exact Hget.
    + intros later. rewrite Hget.
      destruct (String.eqb_spec
                  (if existsb (String.eqb host_language) LANGUAGES
                   then host_language else "en") "");
        [ contradiction | reflexivity ].
  - cbn [fst snd]. split; [ congruence | ]. split; [ auto | ].
    split; [ reflexivity | ]. intros later.
    destruct (String.eqb_spec (getSetting settings "language") "");
      [ contradiction | reflexivity ].
Qed.

Lemma addon_language_settles_witness :
  In (fst (_addon_language [] "ja")) LANGUAGES
  /\ (In "ja" LANGUAGES -> fst (_addon_language [] "ja") = "ja")
  /\ (~ In "ja" LANGUAGES -> fst (_addon_language [] "ja") = "en").
Proof.
  apply (proj1 (addon_language_settles [] "ja")). reflexivity.
Defined.

(* ================================================================= *)
(** ** Further properties of the navigation controller *)

Section Rows.
Context {K : Kodi}.

Lemma bind_inv {A B} (m : M A) (k : A -> M B) (h h' : host) (r : result B) :
  bind m k h = (r, h') ->
  (exists a h1, m h = (Ok a, h1) /\ k a h1 = (r, h'))
  \/ (exists e, m h = (Raise e, h') /\ r = Raise e).
Proof.
  unfold bind. destruct (m h) as [ [ a | e ] h1 ]; intros H.
  - left. now exists a, h1.
  - right. injection H as <- <-. now exists e.
Qed.

Lemma bind_liftR_ok {A B} (a : A) (k : A -> M B) (h : host) :
  bind (liftR (Ok a)) k h = k a h.
Proof. reflexivity. Qed.

Lemma silent_ret {A} (a : A) : silent (ret a).
Proof. intros h. reflexivity. Qed.

Lemma silent_liftR {A} (r : result A) : silent (liftR r).
Proof. intros h. reflexivity. Qed.

Lemma silent_on_world {A} (f : W -> A * W) : silent (on_world f).
Proof. intros h. unfold on_world. now destruct (f (world h)). Qed.

Lemma silent_bind {A B} (m : M A) (k : A -> M B) :
  silent m -> (forall a, silent (k a)) -> silent (bind m k).
Proof.
  intros Hm Hk h. unfold bind. specialize (Hm h).
  destruct (m h) as [ [ a | e ] h1 ]; simpl in Hm.
  - now rewrite Hk.
  - exact Hm.
Qed.

Lemma silent_api_get_video_streams (api : ArteTV) (video_id : string) :
  silent (api_get_video_streams api video_id).
Proof.
  unfold api_get_video_streams, _query_player_api.
  apply silent_bind; [ apply silent_on_world | intros; apply silent_liftR ].
Qed.

Lemma silent_add_video_context_menu (self : ArteTVAddon) (li : ListItem)
    (video_id : string) :
  silent (_add_video_context_menu self li video_id).
Proof.
  unfold _add_video_context_menu.
  apply silent_bind; [ apply silent_api_get_video_streams | intros streams ].
  destruct (List.length streams <=? 1)%nat; [ apply silent_ret | ].
  apply silent_bind; [ apply silent_api_get_video_streams | intros ].
  apply silent_ret.
Qed.

Lemma context_menu_keeps_label (self : ArteTVAddon) (li li' : ListItem)
    (video_id : string) (h h' : host) :
  _add_video_context_menu self li video_id h = (Ok li', h') ->
  li_label li' = li_label li.
Proof.
  unfold _add_video_context_menu. intros H.
  apply bind_inv in H. destruct H as [ (s & h1 & _ & H) | (e & _ & H) ];
    [ | discriminate ].
  destruct (List.length s <=? 1)%nat.
  - injection H as <- _. reflexivity.
  - apply bind_inv in H. destruct H as [ (s' & h2 & _ & H) | (e & _ & H) ];
      [ | discriminate ].
    injection H as <- _. reflexivity.
Qed.

Lemma set_properties_keep_label (props : dict) (li : ListItem) :
  li_label (fold_left (fun li kv => set_property li (fst kv) (snd kv)) props li)
  = li_label li.
Proof.
  revert li. induction props as [ | kv props IH ]; intros li;
    [ reflexivity | ].
  simpl. now rewrite IH.
Qed.

(** What a call of [_add_listitem] leaves in the trace: nothing when it
    raises, one [addDirectoryItem] when it returns. *)
Lemma add_listitem_run (self : ArteTVAddon) (p : ParsedItem) (h : host) :
  (exists e h', _add_listitem self p h = (Raise e, h') /\ trace h' = trace h)
  \/ (exists li h' s,
         _add_listitem self p h = (Ok tt, h')
         /\ trace h'
            = trace h ++ [AddDirectoryItem (_handle self) (fst (row_of self p))
                            li (snd (row_of self p))]
         /\ label p = JStr s /\ li_label li = _localize s).
Proof.
  destruct (label p) as [ | | | s | | ] eqn:El;
    try (left; exists TypeError, h; split; [ | reflexivity ];
         unfold _add_listitem; rewrite El; reflexivity).
  unfold _add_listitem. rewrite El, bind_liftR_ok. cbv beta zeta.
  set (m := if py_eq (dict_get (url p) "mode") (JStr "watch") then _ else _).
  assert (Hm : silent m).
  { subst m. destruct (py_eq (dict_get (url p) "mode") (JStr "watch"));
      [ | apply silent_ret ].
    apply silent_bind; [ apply silent_liftR | intros ].
    apply silent_add_video_context_menu. }
  assert (Hl : forall li h1, m h = (Ok li, h1) -> li_label li = _localize s).
  { subst m. destruct (py_eq (dict_get (url p) "mode") (JStr "watch")).
    - intros li h1 H. apply bind_inv in H.
      destruct H as [ (id & h2 & _ & H) | (e & _ & H) ]; [ | discriminate ].
      now rewrite (context_menu_keeps_label _ _ _ _ _ _ H).
    - intros li h1 H. injection H as <- _. reflexivity. }
  unfold bind. specialize (Hm h).
  destruct (m h) as [ [ li | e ] h1 ]; simpl in Hm.
  - right. eexists. eexists. exists s. split; [ reflexivity | ].
    cbn [trace]. rewrite Hm. split; [ reflexivity | ]. split; [ reflexivity | ].
    rewrite set_properties_keep_label. now apply (Hl li h1).
  - left. exists e, h1. auto.
Qed.

(** On an item that is not a video, [_add_listitem] needs no request. *)
Lemma add_listitem_plain (self : ArteTVAddon) (p : ParsedItem) (s : string)
    (h : host) :
  label p = JStr s ->
  py_eq (dict_get (url p) "mode") (JStr "watch") = false ->
  _add_listitem self p h
  = (Ok tt,
     mkHost (world h)
       (trace h ++ [AddDirectoryItem (_handle self) (fst (row_of self p))
                      (plain_listitem p s) (snd (row_of self p))])).
Proof.
  intros Hl Hw. unfold _add_listitem. rewrite Hl, Hw. reflexivity.
Qed.

(** X12.  A call of [_add_listitem] that returns has added exactly one
    row, for the target of the item, a folder exactly when the mode of
    the target is collection, labelled with the localized label of the
    item; a call that raises has added nothing.  A label that is not a
    string raises [TypeError] before any request; an item that is not a
    video with a string label always gets its row, without a request. *)
Theorem add_listitem_one_row (self : ArteTVAddon) (p : ParsedItem) :
  (forall h h',
      _add_listitem self p h = (Ok tt, h') ->
      exists li s,
        trace h'
        = trace h ++ [AddDirectoryItem (_handle self) (fst (row_of self p))
                        li (snd (row_of self p))]
        /\ label p = JStr s /\ li_label li = _localize s)
  /\ (forall h e h',
         _add_listitem self p h = (Raise e, h') -> trace h' = trace h)
  /\ ((forall s, label p <> JStr s) ->
      forall h, _add_listitem self p h = (Raise TypeError, h))
  /\ (forall s h,
         label p = JStr s ->
         py_eq (dict_get (url p) "mode") (JStr "watch") = false ->
         _add_listitem self p h
         = (Ok tt,
            mkHost (world h)
              (trace h ++ [AddDirectoryItem (_handle self)
                             (fst (row_of self p)) (plain_listitem p s)
                             (snd (row_of self p))]))).
Proof.
  split; [ | split; [ | split ] ].
  - intros h h' H.
    destruct (add_listitem_run self p h)
      as [ (e & h1 & E & _) | (li & h1 & s & E & Ht & Hl & Hs) ];
      rewrite E in H; [ discriminate | ].
    injection H as <-. now exists li, s.
  - intros h e h' H.
    destruct (add_listitem_run self p h)
      as [ (e1 & h1 & E & Ht) | (li & h1 & s & E & _) ];
      rewrite E in H; [ | discriminate ].
    injection H as _ <-. exact Ht.
  - intros Hl h. unfold _add_listitem. unfold bind at 1. unfold liftR.
    destruct (label p); try reflexivity. now elim (Hl s).
  - intros s h Hl Hw. now apply add_listitem_plain.
Qed.

(** The rows of a loop of [_add_listitem] are those of the items it got
    through, in order. *)
Lemma for_each_rows (self : ArteTVAddon) (l : list ParsedItem) :
  forall h,
  exists t n,
    trace (snd (for_each l (_add_listitem self) h)) = trace h ++ t
    /\ (n <= List.length l)%nat
    /\ directory_rows t = map (row_of self) (firstn n l)
    /\ List.length t = n
    /\ (fst (for_each l (_add_listitem self) h) = Ok tt -> n = List.length l).
Proof.
  induction l as [ | p l IH ]; intros h.
  - exists [], 0%nat. simpl. rewrite app_nil_r. auto.
  - cbn [for_each]. unfold bind.
    destruct (add_listitem_run self p h)
      as [ (e & h1 & E & Ht) | (li & h1 & s & E & Ht & _) ]; rewrite E.
    + exists [], 0%nat. cbn [snd fst]. rewrite Ht, app_nil_r.
      repeat split; [ simpl; lia | discriminate ].
    + destruct (IH h1) as (t & n & Htr & Hn & Hrows & Hlen & Hok).
      exists (AddDirectoryItem (_handle self) (fst (row_of self p)) li
                (snd (row_of self p)) :: t), (S n).
      rewrite Htr, Ht, <- app_assoc. cbn [app]. repeat split.
      * simpl. lia.
      * cbn [directory_rows flat_map firstn map app].
        fold (directory_rows t). rewrite Hrows.
        now destruct (row_of self p).
      * simpl. now rewrite Hlen.
      * intros H. simpl. now rewrite (Hok H).
Qed.

(** X13.  [_mode_collection] sets the content type first, then adds the
    rows of the items the client yields for the page at the requested
    level, in their order: all of them when the request ends well, and
    then the client has ended well too; a first part of them when it
    raises.  Nothing but these rows follows the content type. *)
Theorem mode_collection_rows (self : ArteTVAddon) (path : string) (h : host)
    (response : result json) (w : W) :
  http_get (_api_v3_url (_api self) ++ "/" ++ strip_slash path)%string
    _API_V3_BEARER (world h) = (response, w) ->
  let listing :=
    get_collection isoparse strftime module_dir (_api self) response path
      (level_param self) in
  exists t n,
    trace (snd (_mode_collection self path h))
    = trace h ++ SetContent (_handle self) "movies" :: t
    /\ (n <= List.length (yielded listing))%nat
    /\ directory_rows t = map (row_of self) (firstn n (yielded listing))
    /\ List.length t = n
    /\ (fst (_mode_collection self path h) = Ok tt ->
        n = List.length (yielded listing) /\ outcome listing = Ok tt).
Proof.
  intros Hg listing.
  set (h1 := mkHost w (trace h ++ [SetContent (_handle self) "movies"])).
  assert (E : _mode_collection self path h
              = let (r, h2) := for_each (yielded listing) (_add_listitem self) h1 in
                match r with
                | Ok _ => (outcome listing, h2)
                | Raise e => (Raise e, h2)
                end).
  { unfold _mode_collection. fold (level_param self).
    unfold bind, emit, _query_app_api, on_world, liftR. cbn [world trace].
    rewrite Hg. reflexivity. }
  rewrite E.
  destruct (for_each_rows self (yielded listing) h1)
    as (t & n & Htr & Hn & Hrows & Hlen & Hok).
  exists t, n.
  destruct (for_each (yielded listing) (_add_listitem self) h1)
    as [ [ [] | e ] h2 ]; cbn [fst snd] in *;
    rewrite Htr; subst h1; cbn [trace]; rewrite <- app_assoc;
    repeat split; auto; try discriminate.
Qed.

End Rows.

Lemma add_listitem_one_row_witness :
  let self := mkAddon "plugin://plugin.video.artetv/" 1 [] french in
  let p := mkParsedItem (JStr "Categories")
             [("mode", JStr "collection"); ("path", JStr "CATEGORIES")]
             [] [] [("isPlayable", JStr "false")] in
  _add_listitem (K := still_kodi german_english) self p
    (@mkHost (still_kodi german_english) tt [])
  = (Ok tt,
     @mkHost (still_kodi german_english) tt
       ([] ++ [AddDirectoryItem 1 "plugin://plugin.video.artetv/"
                 (plain_listitem (K := still_kodi german_english) p "Categories")
                 true])).
Proof.
  intros self p.
  apply (proj2 (proj2 (proj2 (add_listitem_one_row
                                (K := still_kodi german_english) self p)))
           "Categories" (@mkHost (still_kodi german_english) tt []));
    reflexivity.
Defined.

Lemma mode_collection_rows_witness :
  let K0 :=
    still_kodi
      (Ok (JDict [("data",
                   JList [JDict [("title", JStr "Cinema");
                                 ("kind", JDict [("isCollection", JBool true)]);
                                 ("programId", JStr "RC-1")]])])) in
  let self := mkAddon "plugin://plugin.video.artetv/" 1
                [("mode", "collection"); ("path", "CATEGORIES")] french in
  exists t n,
    trace (snd (_mode_collection (K := K0) self "CATEGORIES"
                  (@mkHost K0 tt [])))
    = [] ++ SetContent 1 "movies" :: t
    /\ (n <= 1)%nat
    /\ directory_rows t
       = map (row_of (K := K0) self)
           (firstn n
              (yielded
                 (get_collection plain_isoparse plain_strftime
                    "/addon/resources/lib" french
                    (Ok (JDict [("data",
                                 JList [JDict [("title", JStr "Cinema");
                                               ("kind", JDict [("isCollection", JBool true)]);
                                               ("programId", JStr "RC-1")]])]))
                    "CATEGORIES" None)))
    /\ List.length t = n
    /\ (fst (_mode_collection (K := K0) self "CATEGORIES" (@mkHost K0 tt []))
        = Ok tt ->
        n = 1%nat /\ Ok tt = Ok tt).
Proof.
  intros K0 self.
  apply (mode_collection_rows (K := K0) self "CATEGORIES" (@mkHost K0 tt [])
           (Ok (JDict [("data",
                        JList [JDict [("title", JStr "Cinema");
                                      ("kind", JDict [("isCollection", JBool true)]);
                                      ("programId", JStr "RC-1")]])]))
           tt eq_refl).
Defined.

Section Menus.
Context {K : Kodi}.


(** X15.  The context menu of a video is built from two requests.  With
    at most one variant in the first answer the list item is left as it
    is.  With more, the streams are asked for again, and the menu gets
    one entry for each variant of that second answer, in its order, each
    playing the video with that version; a second request that fails
    makes the call raise. *)
Theorem add_video_context_menu_entries (self : ArteTVAddon) (li : ListItem)
    (video_id : string) (h : host) (first_answer : result json) (w1 : W)
    (variants : odict) :
  http_get
    (_API_V2_URL ++ "/" ++ _language (_api self) ++ "/" ++ video_id)%string
    _API_V2_BEARER (world h) = (first_answer, w1) ->
  get_video_streams first_answer = Ok variants ->
  ((List.length variants <= 1)%nat ->
   _add_video_context_menu self li video_id h
   = (Ok li, mkHost w1 (trace h)))
  /\ ((1 < List.length variants)%nat ->
      forall second_answer w2,
        http_get
          (_API_V2_URL ++ "/" ++ _language (_api self) ++ "/" ++ video_id)%string
          _API_V2_BEARER w1 = (second_answer, w2) ->
        (forall again,
            get_video_streams second_answer = Ok again ->
            _add_video_context_menu self li video_id h
            = (Ok (add_context_menu_items li
                     (map (menu_item self video_id) again)),
               mkHost w2 (trace h)))
        /\ (forall e,
               get_video_streams second_answer = Raise e ->
               _add_video_context_menu self li video_id h
               = (Raise e, mkHost w2 (trace h)))).
Proof.
  intros Hg Hs. split.
  - intros Hn. unfold _add_video_context_menu, api_get_video_streams,
      _query_player_api, bind, on_world, liftR.
    rewrite Hg, Hs.
    replace (List.length variants <=? 1)%nat with true
      by (symmetry; now apply Nat.leb_le).
    reflexivity.
  - intros Hn second_answer w2 Hg2.
    assert (E : forall r,
               get_video_streams second_answer = r ->
               _add_video_context_menu self li video_id h
               = (match r with
                  | Ok again =>
                      Ok (add_context_menu_items li
                            (map (menu_item self video_id) again))
                  | Raise e => Raise e
                  end, mkHost w2 (trace h))).
    { intros r Hr. unfold _add_video_context_menu, api_get_video_streams,
        _query_player_api, bind, on_world, liftR.
      rewrite Hg, Hs.
      replace (List.length variants <=? 1)%nat with false
        by (symmetry; apply Nat.leb_gt; lia).
      cbn [world trace]. rewrite Hg2, Hr. now destruct r. }
    split; intros x Hx; now rewrite (E _ Hx).
Qed.

End Menus.


Lemma add_video_context_menu_entries_witness :
  let self := mkAddon "plugin://plugin.video.artetv/" 1 [] french in
  let li := mkListItem "Film" (JStr "") [] [] None [] [] in
  _add_video_context_menu (K := still_kodi german_english) self li "X"
    (@mkHost (still_kodi german_english) tt [])
  = (Ok (add_context_menu_items li
           (map (menu_item (K := still_kodi german_english) self "X")
              [(JStr "de", mkStream (JStr "Deutsch") (JStr "https://de"));
               (JStr "en", mkStream (JStr "English") (JStr "https://en"))])),
     @mkHost (still_kodi german_english) tt []).
Proof.
  intros self li.
  apply (proj1 (proj2 (add_video_context_menu_entries
                         (K := still_kodi german_english) self li "X"
                         (@mkHost (still_kodi german_english) tt [])
                         german_english tt
                         [(JStr "de", mkStream (JStr "Deutsch") (JStr "https://de"));
                          (JStr "en", mkStream (JStr "English") (JStr "https://en"))]
                         eq_refl eq_refl)
                  ltac:(simpl; lia) german_english tt eq_refl)).
  reflexivity.
Defined.

(* ----------------------------------------------------------------- *)
(** *** Playing a requested version *)

Section Playing.
Context {K : Kodi}.

(** X16.  A requested version that is a key of the mapping is the one
    played: its URL is the path of the item handed to [setResolvedUrl],
    once.  Without the adaptive-streaming helper the item carries nothing
    else; with it, the item has the HLS MIME type and manifest type, and
    names the helper's add-on under [inputstream] from Kodi 19 on and
    under [inputstreamaddon] before.  When the helper check raises,
    nothing is handed over. *)
Theorem mode_watch_plays_requested (self : ArteTVAddon) (video_id : string)
    (h : host) (response : result json) (w : W) (streams : odict)
    (version : string) (s : Stream) :
  http_get
    (_API_V2_URL ++ "/" ++ _language (_api self) ++ "/" ++ video_id)%string
    _API_V2_BEARER (world h) = (response, w) ->
  get_video_streams response = Ok streams ->
  version <> "" ->
  odict_lookup streams (JStr version) = Some s ->
  (forall b w',
      check_inputstream w = (Ok b, w') ->
      exists listitem,
        _mode_watch self video_id (Some version) h
        = (Ok tt,
           mkHost w' (trace h ++ [SetResolvedUrl (_handle self) true listitem]))
        /\ li_path listitem = stream_url s
        /\ (b = false ->
            listitem = mkListItem "" (stream_url s) [] [] None [] [])
        /\ (b = true ->
            li_mime_type listitem = Some "application/vnd.apple.mpegurl"
            /\ li_properties listitem
               = [("inputstream.adaptive.manifest_type", JStr "hls");
                  (if 19 <=? _KODI_VERSION then "inputstream"
                   else "inputstreamaddon", JStr inputstream_addon)]))
  /\ (forall e w',
         check_inputstream w = (Raise e, w') ->
         _mode_watch self video_id (Some version) h
         = (Raise e, mkHost w' (trace h))).
Proof.
  intros Hg Hs Hv Hl.
  assert (Hrun := api_get_video_streams_run (_api self) video_id h _ _ Hg).
  rewrite Hs in Hrun.
  assert (E : _mode_watch self video_id (Some version) h
              = bind (ret (Some (stream_url s)))
                  (fun chosen =>
                     match chosen with
                     | None => ret tt
                     | Some video_url =>
                         bind (on_world_result check_inputstream)
                           (fun available : bool =>
                              emit (SetResolvedUrl (_handle self) true
                                      (if available
                                       then
                                         set_property
                                           (set_property
                                              (set_mime_type
                                                 (mkListItem "" video_url [] []
                                                    None [] [])
                                                 "application/vnd.apple.mpegurl")
                                              "inputstream.adaptive.manifest_type"
                                              (JStr "hls"))
                                           (if 19 <=? _KODI_VERSION
                                            then "inputstream"
                                            else "inputstreamaddon")
                                           (JStr inputstream_addon)
                                       else mkListItem "" video_url [] []
                                              None [] [])))
                     end) (mkHost w (trace h))).
  { unfold _mode_watch. rewrite (bind_run _ _ _ _ _ Hrun).
    unfold choose_stream, str_truthy.
    replace (String.eqb version "") with false
      by (symmetry; now apply String.eqb_neq).
    cbn [negb]. rewrite Hl. reflexivity. }
  rewrite E. unfold bind, ret, on_world_result, emit. cbn [world trace].
  split.
  - intros b w' Hc. rewrite Hc. eexists. split; [ reflexivity | ].
    split; [ now destruct b | ]. split; intros ->; [ reflexivity | ].
    split; [ reflexivity | ]. cbn.
    destruct (19 <=? _KODI_VERSION); reflexivity.
  - intros e w' Hc. now rewrite Hc.
Qed.

End Playing.

Lemma mode_watch_plays_requested_witness :
  let self := mkAddon "plugin://plugin.video.artetv/" 1
                [("mode", "watch"); ("id", "X"); ("version", "en")] french in
  exists listitem,
    _mode_watch (K := still_kodi german_english) self "X" (Some "en")
      (@mkHost (still_kodi german_english) tt [])
    = (Ok tt,
       @mkHost (still_kodi german_english) tt
         ([] ++ [SetResolvedUrl 1 true listitem]))
    /\ li_path listitem = JStr "https://en"
    /\ (false = false ->
        listitem = mkListItem "" (JStr "https://en") [] [] None [] [])
    /\ (false = true ->
        li_mime_type listitem = Some "application/vnd.apple.mpegurl"
        /\ li_properties listitem
           = [("inputstream.adaptive.manifest_type", JStr "hls");
              ("inputstream", JStr "inputstream.adaptive")]).
Proof.
  intros self.
  apply (proj1 (mode_watch_plays_requested (K := still_kodi german_english)
                  self "X" (@mkHost (still_kodi german_english) tt [])
                  german_english tt
                  [(JStr "de", mkStream (JStr "Deutsch") (JStr "https://de"));
                   (JStr "en", mkStream (JStr "English") (JStr "https://en"))]
                  "en" (mkStream (JStr "English") (JStr "https://en"))
                  eq_refl eq_refl ltac:(discriminate) eq_refl)
           false tt eq_refl).
Defined.

(* ----------------------------------------------------------------- *)
(** *** The length of a listing, and an item that fails *)

Section Bounds.
Context {datetime : Type}.
Variable isoparse : json -> result datetime.
Variable strftime : datetime -> string -> string.
Variable module_dir : string.

Lemma collection_item_at_most_one (path : string) (index : Z) (item : json) :
  (List.length (yielded (collection_item isoparse strftime path index item))
   <= 1)%nat
  /\ (forall e,
         outcome (collection_item isoparse strftime path index item) = Raise e ->
         yielded (collection_item isoparse strftime path index item) = []).
Proof.
  destruct (collection_item_cases isoparse strftime path index item)
    as [ E | (target & p & t & _ & _ & _ & _ & _ & E) ]; rewrite E; simpl.
  - split; [ lia | reflexivity ].
  - split; [ lia | discriminate ].
Qed.

Lemma collection_loop_app (path : string) (l1 l2 : list json) :
  forall start,
    collection_loop isoparse strftime path start (l1 ++ l2)
    = gbind (collection_loop isoparse strftime path start l1)
        (fun _ =>
           collection_loop isoparse strftime path
             (start + Z.of_nat (List.length l1)) l2).
Proof.
  induction l1 as [ | x l1 IH ]; intros start.
  - cbn [app collection_loop List.length Z.of_nat]. unfold gret.
    rewrite gbind_nothing. now rewrite Z.add_0_r.
  - cbn [app collection_loop]. rewrite IH.
    replace (start + Z.of_nat (List.length (x :: l1)))
      with (start + 1 + Z.of_nat (List.length l1))
      by (cbn [List.length]; lia).
    destruct (collection_item isoparse strftime path start x) as [ys [ [] | e ]];
      [ | reflexivity ].
    cbn [gbind].
    destruct (collection_loop isoparse strftime path (start + 1) l1)
      as [zs [ [] | e ]]; cbn [gbind].
    + destruct (collection_loop isoparse strftime path
                  (start + 1 + Z.of_nat (List.length l1)) l2) as [us r].
      now rewrite app_assoc.
    + reflexivity.
Qed.

(** X17.  A listing is no longer than the page: the walk yields at most
    one item for each candidate, and [get_collection] at most one more,
    the next page. *)
Theorem get_collection_length (self : ArteTV) (data : json) (path : string)
    (items : list json) :
  (forall start,
      (List.length (yielded (collection_loop isoparse strftime path start items))
       <= List.length items)%nat)
  /\ (candidates data = Ok (JList items) ->
      (List.length
         (yielded (get_collection isoparse strftime module_dir self (Ok data)
                     path None))
       <= List.length items + 1)%nat).
Proof.
  assert (Hloop : forall l start,
             (List.length
                (yielded (collection_loop isoparse strftime path start l))
              <= List.length l)%nat).
  { induction l as [ | x l IH ]; intros start; [ simpl; lia | ].
    cbn [collection_loop]. rewrite yielded_gbind.
    destruct (collection_item_at_most_one path start x) as [H1 _].
    destruct (outcome (collection_item isoparse strftime path start x)).
    - rewrite length_app. specialize (IH (start + 1)). simpl. lia.
    - simpl. lia. }
  split; [ apply Hloop | ].
  intros Hc. unfold get_collection. rewrite yielded_gbind.
  assert (Hr : (List.length
                  (yielded (regular_items isoparse strftime (Ok data) path None))
                <= List.length items)%nat).
  { unfold regular_items. rewrite !gbind_lift, Hc, !gbind_lift.
    cbn [descend]. rewrite gbind_lift. cbn [snd fst py_iter].
    rewrite yielded_gbind.
    destruct (outcome (collection_loop isoparse strftime path 0 items));
      [ simpl; rewrite app_nil_r | ]; apply Hloop. }
  destruct (outcome (regular_items isoparse strftime (Ok data) path None))
    as [ d | e ]; [ | lia ].
  rewrite length_app, gbind_lift.
  destruct (py_get d "nextPage") as [ np | e ]; [ | simpl; lia ].
  destruct (py_truthy np); [ | simpl; lia ].
  rewrite gbind_lift. destruct (py_getkey d "nextPage"); [ | simpl; lia ].
  rewrite gbind_lift. destruct (py_replace a (_api_v3_url self) "");
    simpl; lia.
Qed.

(** X18.  An item that raises ends the walk: the items that were yielded
    before it stay yielded, the item itself and all the candidates after
    it are lost, and the exception is the outcome of the walk. *)
Theorem collection_loop_stops_at_failure (path : string) (start : Z)
    (before after : list json) (item : json) (e : exn) :
  outcome (collection_loop isoparse strftime path start before) = Ok tt ->
  outcome (collection_item isoparse strftime path
             (start + Z.of_nat (List.length before)) item) = Raise e ->
  collection_loop isoparse strftime path start (before ++ item :: after)
  = (yielded (collection_loop isoparse strftime path start before), Raise e).
Proof.
  intros Hb Hi. rewrite collection_loop_app. cbn [collection_loop].
  destruct (collection_item_at_most_one path
              (start + Z.of_nat (List.length before)) item) as [_ Hnone].
  specialize (Hnone e Hi).
  destruct (collection_loop isoparse strftime path start before) as [ys r].
  cbn [outcome snd] in Hb. subst r. cbn [gbind yielded fst].
  destruct (collection_item isoparse strftime path
              (start + Z.of_nat (List.length before)) item) as [zs r].
  cbn [outcome snd yielded fst] in *. subst r zs. cbn [gbind].
  now rewrite app_nil_r.
Qed.

End Bounds.

Lemma get_collection_length_witness :
  (List.length
     (yielded (get_collection plain_isoparse plain_strftime
                 "/addon/resources/lib" french
                 (Ok (JDict [("data", JList [JDict [("programId", JStr "7")]]);
                             ("nextPage",
                              JStr "https://api.arte.tv/api/emac/v3/fr/app/P?page=2")]))
                 "P" None))
   <= 1 + 1)%nat.
Proof.
  apply (proj2 (get_collection_length plain_isoparse plain_strftime
                  "/addon/resources/lib" french
                  (JDict [("data", JList [JDict [("programId", JStr "7")]]);
                          ("nextPage",
                           JStr "https://api.arte.tv/api/emac/v3/fr/app/P?page=2")])
                  "P" [JDict [("programId", JStr "7")]])).
  reflexivity.
Defined.

Lemma collection_loop_stops_at_failure_witness :
  collection_loop plain_isoparse plain_strftime "P" 0
    ([JDict [("title", JStr "a"); ("programId", JStr "1")]]
       ++ JDict [("programId", JStr "2"); ("images", JDict [("logo", JNull)])]
       :: [JDict [("title", JStr "c"); ("programId", JStr "3")]])
  = (yielded (collection_loop plain_isoparse plain_strftime "P" 0
                [JDict [("title", JStr "a"); ("programId", JStr "1")]]),
     Raise (Exception "TYPE INCONNU")).
Proof.
  apply (collection_loop_stops_at_failure plain_isoparse plain_strftime "P" 0
           [JDict [("title", JStr "a"); ("programId", JStr "1")]]
           [JDict [("title", JStr "c"); ("programId", JStr "3")]]
           (JDict [("programId", JStr "2"); ("images", JDict [("logo", JNull)])])
           (Exception "TYPE INCONNU")); reflexivity.
Defined.

Lemma collection_loop_passes_over_witness :
  (collection_item plain_isoparse plain_strftime "P" 0
     (JDict [("code", JDict [("name", JStr "banner_1")]);
             ("programId", JStr "7"); ("kind", JStr "not an object");
             ("images", JDict [("logo", JNull)])])
   = ([], Ok tt)
   /\ collection_loop plain_isoparse plain_strftime "P" 0
        (JDict [("code", JDict [("name", JStr "banner_1")]);
                ("programId", JStr "7"); ("kind", JStr "not an object");
                ("images", JDict [("logo", JNull)])]
         :: [JDict [("title", JStr "b"); ("data", JList [JInt 1])]])
      = collection_loop plain_isoparse plain_strftime "P" (0 + 1)
          [JDict [("title", JStr "b"); ("data", JList [JInt 1])]])
  /\ (collection_item plain_isoparse plain_strftime "P" 0
        (JDict [("title", JStr "ARTE Boutique"); ("programId", JStr "7")])
      = ([], Ok tt)
      /\ collection_loop plain_isoparse plain_strftime "P" 0
           (JDict [("title", JStr "ARTE Boutique"); ("programId", JStr "7")]
            :: [JDict [("title", JStr "b"); ("data", JList [JInt 1])]])
         = collection_loop plain_isoparse plain_strftime "P" (0 + 1)
             [JDict [("title", JStr "b"); ("data", JList [JInt 1])]]).
Proof.
  split.
  - apply (proj1 (collection_loop_passes_over plain_isoparse plain_strftime
                    "P" 0
                    [("code", JDict [("name", JStr "banner_1")]);
                     ("programId", JStr "7"); ("kind", JStr "not an object");
                     ("images", JDict [("logo", JNull)])]
                    [JDict [("title", JStr "b"); ("data", JList [JInt 1])]])
             [("name", JStr "banner_1")] "banner_1"
             eq_refl eq_refl).
    simpl. auto.
  - apply (proj2 (collection_loop_passes_over plain_isoparse plain_strftime
                    "P" 0
                    [("title", JStr "ARTE Boutique"); ("programId", JStr "7")]
                    [JDict [("title", JStr "b"); ("data", JList [JInt 1])]])
             eq_refl eq_refl).
    right. exists "ARTE Boutique". split; [ reflexivity | simpl; auto ].
Defined.

Lemma get_collection_level_out_of_range_witness :
  get_collection plain_isoparse plain_strftime "/addon/resources/lib" french
    (Ok (JDict [("zones", JList [JDict [("title", JStr "a");
                                        ("data", JList [JInt 1])]])]))
    "MAGAZINES" (Some 5)
  = get_collection plain_isoparse plain_strftime "/addon/resources/lib" french
      (Ok (JDict [("zones", JList [JDict [("title", JStr "a");
                                          ("data", JList [JInt 1])]])]))
      "MAGAZINES" None.
Proof.
  apply (get_collection_level_out_of_range plain_isoparse plain_strftime
           "/addon/resources/lib" french
           (JDict [("zones", JList [JDict [("title", JStr "a");
                                           ("data", JList [JInt 1])]])])
           "MAGAZINES"
           [JDict [("title", JStr "a"); ("data", JList [JInt 1])]] 5 eq_refl).
  simpl. lia.
Defined.

